(** * imageconvert: the conversion and preview pipeline

    A shallow embedding of [src/lib/imageUtils.ts] (quality estimator, codec
    adapter, preview generation) and of the [Home] component of
    [src/unnamed/part_001] (the live-preview effect, the automatic-quality
    effect and the download handler), with the properties of the
    specification stated and settled against them.  The later revision of
    [convertImage] kept at the end of [src/app/page.tsx], the one with a blob
    cache, is embedded next to it. *)

From Stdlib Require Import ZArith QArith Lia Ascii String.
From stdpp Require Import base decidable option list strings gmap pretty.

Local Open Scope string_scope.
Local Open Scope Z_scope.

(** ** Data *)

(** The part of a browser [File] the program reads: its name, its length in
    bytes and its content.  Two files are the same object when their fields
    agree. *)
Record File := mkFile {
  file_name : string;
  file_size : Z;
  file_bytes : list Z
}.

#[global] Instance File_eq_dec : EqDecision File.
Proof. solve_decision. Defined.

(** [src/unnamed/part_000]: one quality per size tier. *)
Record QualitySettings := mkQualitySettings {
  tiny : Z;
  small : Z;
  medium : Z;
  large : Z;
  xlarge : Z;
  huge : Z
}.

Record QualityMap := mkQualityMap {
  jpeg : QualitySettings;
  webp : QualitySettings
}.

(** ** The quality estimator ([src/lib/imageUtils.ts], lines 10-47) *)

Definition qualityMap : QualityMap :=
  {| jpeg := {| tiny := 90; small := 85; medium := 80;
                large := 70; xlarge := 60; huge := 50 |};
     webp := {| tiny := 85; small := 80; medium := 75;
                large := 65; xlarge := 55; huge := 45 |} |}.

(** [a > b] on rationals, as a boolean. *)
Definition Qgtb (a b : Q) : bool := negb (Qle_bool a b).

(** [file.size / (1024 * 1024)].  A file length is an integer below 2^53 and
    the divisor is a power of two, so the quotient JavaScript computes is the
    exact rational; the thresholds 10, 5, 2, 1 and 0.5 are exact as well. *)
Definition sizeInMB (file : File) : Q :=
  (inject_Z (file_size file) / inject_Z (1024 * 1024))%Q.

Definition getAutoQuality (file : File) (format : string) : Z :=
  let sizeInMB := sizeInMB file in
  let qualities :=
    if bool_decide (format = "webp")
    then webp qualityMap else jpeg qualityMap in
  if Qgtb sizeInMB 10 then huge qualities
  else if Qgtb sizeInMB 5 then xlarge qualities
  else if Qgtb sizeInMB 2 then large qualities
  else if Qgtb sizeInMB 1 then medium qualities
  else if Qgtb sizeInMB (1 # 2) then small qualities
  else tiny qualities.

(** *** The estimator as the specification words it *)

Inductive Tier := Tiny | Small | Medium | Large | XLarge | Huge.

(** Section 4.1: the first matching tier of
    [>10 huge, >5 xlarge, >2 large, >1 medium, >0.5 small, else tiny]. *)
Definition spec_tier (sizeMB : Q) : Tier :=
  if Qgtb sizeMB 10 then Huge
  else if Qgtb sizeMB 5 then XLarge
  else if Qgtb sizeMB 2 then Large
  else if Qgtb sizeMB 1 then Medium
  else if Qgtb sizeMB (1 # 2) then Small
  else Tiny.

Definition tier_quality (qs : QualitySettings) (t : Tier) : Z :=
  match t with
  | Tiny => tiny qs
  | Small => small qs
  | Medium => medium qs
  | Large => large qs
  | XLarge => xlarge qs
  | Huge => huge qs
  end.

(** The tier of a length in bytes, by integer thresholds. *)
Definition byte_tier (bytes : Z) : Tier :=
  if 10485760 <? bytes then Huge
  else if 5242880 <? bytes then XLarge
  else if 2097152 <? bytes then Large
  else if 1048576 <? bytes then Medium
  else if 524288 <? bytes then Small
  else Tiny.

(** ** The browser, as far as the program touches it *)

(** Object URLs ([blob:...] strings) are numbered in the order in which
    [URL.createObjectURL] mints them. *)
Definition URL := nat.

(** A decoded image, and the drawing surface it is copied to. *)
Record Raster := mkRaster {
  width : Z;
  height : Z;
  pixels : list Z
}.

Record Blob := mkBlob {
  blob_type : string;
  blob_bytes : list Z
}.

#[global] Instance Blob_eq_dec : EqDecision Blob.
Proof. solve_decision. Defined.

(** What an object URL was created from. *)
Inductive Source :=
| FromFile (file : File)
| FromBlob (blob : Blob).

(** The codec of the runtime: what loading a file into an image element
    yields ([None]: the element fires [error] instead of [load]) and what
    [canvas.toBlob] hands to its callback ([None]: [null]). *)
Record Codec := mkCodec {
  decode : File -> option Raster;
  encode : Raster -> string -> Q -> option Blob
}.

(** The calls the program makes on the browser. *)
Inductive Event :=
| CreateObjectURL (u : URL) (src : Source)
| RevokeObjectURL (u : URL)
| ImgSrc (u : URL)
| CreateImageBitmap (file : File)
| BitmapClose
| ToBlob (mime : string) (q : Q)
| ConsoleError (label : string) (err : string)
| Click (download : string) (href : URL).

(** The browser state: the next URL to mint and the calls made so far, newest
    first. *)
Record Browser := mkBrowser {
  next_url : URL;
  trace : list Event
}.

Definition emit (e : Event) (b : Browser) : Browser :=
  {| next_url := next_url b; trace := e :: trace b |}.

Definition createObjectURL (src : Source) (b : Browser) : URL * Browser :=
  (next_url b,
   {| next_url := S (next_url b);
      trace := CreateObjectURL (next_url b) src :: trace b |}).

Definition revokeObjectURL (u : URL) (b : Browser) : Browser :=
  emit (RevokeObjectURL u) b.

Definition is_revoke (u : URL) (e : Event) : bool :=
  match e with
  | RevokeObjectURL v => Nat.eqb v u
  | _ => false
  end.

Definition is_create (u : URL) (e : Event) : bool :=
  match e with
  | CreateObjectURL v _ => Nat.eqb v u
  | _ => false
  end.

Definition is_decode (e : Event) : bool :=
  match e with
  | ImgSrc _ | CreateImageBitmap _ => true
  | _ => false
  end.

Definition is_encode (e : Event) : bool :=
  match e with
  | ToBlob _ _ => true
  | _ => false
  end.

Definition is_click (e : Event) : bool :=
  match e with
  | Click _ _ => true
  | _ => false
  end.

Definition is_console (e : Event) : bool :=
  match e with
  | ConsoleError _ _ => true
  | _ => false
  end.

(** How often a URL has been released, and whether it still resolves. *)
Definition release_count (u : URL) (b : Browser) : nat :=
  length (List.filter (is_revoke u) (trace b)).

Definition live (u : URL) (b : Browser) : bool :=
  existsb (is_create u) (trace b) && negb (existsb (is_revoke u) (trace b)).

(** What a URL was created from. *)
Fixpoint origin (u : URL) (t : list Event) : option Source :=
  match t with
  | [] => None
  | CreateObjectURL v src :: t => if Nat.eqb v u then Some src else origin u t
  | _ :: t => origin u t
  end.

(** How often the codec has been started: decodes are assignments to
    [img.src] (calls of [createImageBitmap] in the revision with a cache),
    encodes are calls of [canvas.toBlob]. *)
Definition decodes (b : Browser) : nat :=
  length (List.filter is_decode (trace b)).

Definition encodes (b : Browser) : nat :=
  length (List.filter is_encode (trace b)).

Definition codec_calls (b : Browser) : nat := (decodes b + encodes b)%nat.

Definition clicks (b : Browser) : list Event := List.filter is_click (trace b).

Definition console (b : Browser) : list Event :=
  List.filter is_console (trace b).

(** [b'] is [b] after some more calls. *)
Definition grows (b b' : Browser) : Prop :=
  (next_url b <= next_url b')%nat /\ trace b `suffix_of` trace b'.

(** ** The codec adapter ([src/lib/imageUtils.ts], lines 56-106) *)

(** How an [async] function ends: it returns, it throws, or it stays
    suspended on a promise nobody settles. *)
Inductive Outcome (A : Type) :=
| Resolved (a : A)
| Rejected (err : string)
| Pending.

Arguments Resolved {A} a.
Arguments Rejected {A} err.
Arguments Pending {A}.

(** The locals of one running [convertImage]. *)
Record Conversion := mkConversion {
  objectUrl : URL;
  conv_file : File;
  conv_format : string;
  conv_quality : Z
}.

(** Lines 61-67, up to the first [await]: the object URL is created and
    handed to the image element. *)
Definition convertImage_start (file : File) (format : string) (quality : Z)
    (b : Browser) : Conversion * Browser :=
  let '(objectUrl, b) := createObjectURL (FromFile file) b in
  ({| objectUrl := objectUrl; conv_file := file;
      conv_format := format; conv_quality := quality |},
   emit (ImgSrc objectUrl) b).

(** Lines 71-82.  The promise awaited first is resolved by [img.onload] and
    by nothing else.  When the image loads, the canvas takes its size and its
    pixels and [canvas.toBlob] is called; when it does not, the function stays
    suspended ([None]). *)
Definition convertImage_load (codec : Codec) (c : Conversion) (b : Browser)
    : option Raster * Browser :=
  match decode codec (conv_file c) with
  | Some img =>
      let canvas :=
        {| width := width img; height := height img; pixels := pixels img |} in
      (Some canvas,
       emit (ToBlob ("image/" +:+ conv_format c)
                    (inject_Z (conv_quality c) / 100)%Q) b)
  | None => (None, b)
  end.

(** Lines 77-89: the callback of [canvas.toBlob] resolves with the blob or
    rejects, and the [finally] block revokes the object URL on the way out. *)
Definition convertImage_finish (codec : Codec) (c : Conversion)
    (canvas : Raster) (b : Browser) : Outcome Blob * Browser :=
  let result :=
    match encode codec canvas ("image/" +:+ conv_format c)
                 (inject_Z (conv_quality c) / 100)%Q with
    | Some blob => Resolved blob
    | None => Rejected "Failed to convert image"
    end in
  (result, revokeObjectURL (objectUrl c) b).

(** [convertImage], with the browser delivering its events one after the
    other. *)
Definition convertImage (codec : Codec) (file : File) (format : string)
    (quality : Z) (b : Browser) : Outcome Blob * Browser :=
  let '(c, b) := convertImage_start file format quality b in
  match convertImage_load codec c b with
  | (Some canvas, b) => convertImage_finish codec c canvas b
  | (None, b) => (Pending, b)
  end.

(** Lines 99-106. *)
Definition generatePreview (codec : Codec) (file : File) (format : string)
    (quality : Z) (b : Browser) : Outcome URL * Browser :=
  match convertImage codec file format quality b with
  | (Resolved blob, b) =>
      let '(u, b) := createObjectURL (FromBlob blob) b in (Resolved u, b)
  | (Rejected err, b) => (Rejected err, b)
  | (Pending, b) => (Pending, b)
  end.

(** ** The revision of [convertImage] with a cache

    The copy of [imageUtils.ts] that closes [src/app/page.tsx] keeps the blobs
    it has produced in a module-level [Map], keyed by file name, format and
    quality, and decodes with [createImageBitmap]. *)

Module CachedRevision.

Definition cacheKey (file : File) (format : string) (quality : Z) : string :=
  file_name file +:+ "-" +:+ format +:+ "-" +:+ pretty quality.

(** What [createImageBitmap] rejects with for a file that is no image. *)
Definition undecodable : string := "The source image could not be decoded.".

(** Lines 1062-1076, up to the first [await]: a blob found in the cache is
    returned at once; otherwise [createImageBitmap] is called. *)
Definition convertImage_start (file : File) (format : string) (quality : Z)
    (st : gmap string Blob * Browser)
    : option Blob * (gmap string Blob * Browser) :=
  let '(blobCache, b) := st in
  match blobCache !! cacheKey file format quality with
  | Some cachedBlob => (Some cachedBlob, st)
  | None => (None, (blobCache, emit (CreateImageBitmap file) b))
  end.

(** Lines 1076-1090: [createImageBitmap] has settled.  When it rejected,
    [convertImage] rejects as well ([None]: the [try] block has not been
    entered); otherwise the canvas takes the size and the pixels of the
    bitmap and [canvas.toBlob] is called. *)
Definition convertImage_bitmap (codec : Codec) (file : File)
    (format : string) (quality : Z) (b : Browser) : option Raster * Browser :=
  match decode codec file with
  | Some bitmap =>
      let canvas :=
        {| width := width bitmap; height := height bitmap;
           pixels := pixels bitmap |} in
      (Some canvas,
       emit (ToBlob ("image/" +:+ format) (inject_Z quality / 100)%Q) b)
  | None => (None, b)
  end.

(** Lines 1083-1098: [canvas.toBlob] calls back.  A blob is stored under the
    key computed at line 1063, whatever the cache holds by now, and returned;
    [null] rejects; the [finally] block closes the bitmap. *)
Definition convertImage_finish (codec : Codec) (file : File)
    (format : string) (quality : Z) (canvas : Raster)
    (st : gmap string Blob * Browser)
    : Outcome Blob * (gmap string Blob * Browser) :=
  let '(blobCache, b) := st in
  match encode codec canvas ("image/" +:+ format)
               (inject_Z quality / 100)%Q with
  | Some blob =>
      (Resolved blob,
       (<[cacheKey file format quality := blob]> blobCache,
        emit BitmapClose b))
  | None =>
      (Rejected "Failed to convert image", (blobCache, emit BitmapClose b))
  end.

(** [convertImage] with nothing else running in between: the browser
    delivers its events one after the other; the state is [blobCache] and the
    browser. *)
Definition convertImage (codec : Codec) (file : File) (format : string)
    (quality : Z) (st : gmap string Blob * Browser)
    : Outcome Blob * (gmap string Blob * Browser) :=
  match convertImage_start file format quality st with
  | (Some cachedBlob, st) => (Resolved cachedBlob, st)
  | (None, (blobCache, b)) =>
      match convertImage_bitmap codec file format quality b with
      | (Some canvas, b) =>
          convertImage_finish codec file format quality canvas (blobCache, b)
      | (None, b) => (Rejected undecodable, (blobCache, b))
      end
  end.

(** Lines 1108-1114. *)
Definition generatePreview (codec : Codec) (file : File) (format : string)
    (quality : Z) (st : gmap string Blob * Browser)
    : Outcome URL * (gmap string Blob * Browser) :=
  match convertImage codec file format quality st with
  | (Resolved blob, (blobCache, b)) =>
      let '(u, b) := createObjectURL (FromBlob blob) b in
      (Resolved u, (blobCache, b))
  | (Rejected err, st) => (Rejected err, st)
  | (Pending, st) => (Pending, st)
  end.

(** *** Conversions in flight together

    Between its [await]s a call of [convertImage] leaves the cache and the
    browser to the other calls.  A call is named by its position. *)

Inductive Stage :=
| AwaitBitmap
| AwaitBlob (canvas : Raster)
| Settled (result : Outcome Blob).

Record Task := mkTask {
  task_file : File;
  task_format : string;
  task_quality : Z;
  stage : Stage
}.

Definition task_key (t : Task) : string :=
  cacheKey (task_file t) (task_format t) (task_quality t).

Definition set_stage (sg : Stage) (t : Task) : Task :=
  {| task_file := task_file t; task_format := task_format t;
     task_quality := task_quality t; stage := sg |}.

Record Runtime := mkRuntime {
  blobCache : gmap string Blob;
  browser : Browser;
  tasks : list Task
}.

(** A call of [convertImage], and the browser settling the promise a call
    waits for. *)
Inductive Action :=
| Request (file : File) (format : string) (quality : Z)
| BitmapSettled (i : nat)
| BlobCallback (i : nat).

Definition step (codec : Codec) (r : Runtime) (a : Action) : Runtime :=
  match a with
  | Request file format quality =>
      let '(hit, (cache, b)) :=
        convertImage_start file format quality (blobCache r, browser r) in
      mkRuntime cache b
        (tasks r
         ++ [ {| task_file := file; task_format := format;
                 task_quality := quality;
                 stage := match hit with
                          | Some cachedBlob => Settled (Resolved cachedBlob)
                          | None => AwaitBitmap
                          end |} ])
  | BitmapSettled i =>
      match tasks r !! i with
      | Some t =>
          match stage t with
          | AwaitBitmap =>
              match convertImage_bitmap codec (task_file t) (task_format t)
                                        (task_quality t) (browser r) with
              | (Some canvas, b) =>
                  mkRuntime (blobCache r) b
                    (<[i := set_stage (AwaitBlob canvas) t]> (tasks r))
              | (None, b) =>
                  mkRuntime (blobCache r) b
                    (<[i := set_stage (Settled (Rejected undecodable)) t]>
                       (tasks r))
              end
          | _ => r
          end
      | None => r
      end
  | BlobCallback i =>
      match tasks r !! i with
      | Some t =>
          match stage t with
          | AwaitBlob canvas =>
              let '(result, (cache, b)) :=
                convertImage_finish codec (task_file t) (task_format t)
                                    (task_quality t) canvas
                                    (blobCache r, browser r) in
              mkRuntime cache b
                (<[i := set_stage (Settled result) t]> (tasks r))
          | _ => r
          end
      | None => r
      end
  end.

Definition run (codec : Codec) (actions : list Action) (r : Runtime)
    : Runtime :=
  fold_left (step codec) actions r.

End CachedRevision.

(** ** The page component ([src/unnamed/part_001]) *)

Module Home.

(** The [useState] cells of lines 30-42. *)
Record State := mkState {
  selectedFile : option File;
  previewUrl : option URL;
  converting : bool;
  format : string;
  quality : Z;
  autoQuality : bool;
  livePreviewUrl : option URL;
  error : option string
}.

#[global] Instance State_eq_dec : EqDecision State.
Proof. solve_decision. Defined.

Definition initialState : State :=
  {| selectedFile := None; previewUrl := None; converting := false;
     format := "jpeg"; quality := 95; autoQuality := true;
     livePreviewUrl := None; error := None |}.

Definition setSelectedFile (v : option File) (st : State) : State :=
  mkState v (previewUrl st) (converting st) (format st) (quality st)
          (autoQuality st) (livePreviewUrl st) (error st).

Definition setPreviewUrl (v : option URL) (st : State) : State :=
  mkState (selectedFile st) v (converting st) (format st) (quality st)
          (autoQuality st) (livePreviewUrl st) (error st).

Definition setConverting (v : bool) (st : State) : State :=
  mkState (selectedFile st) (previewUrl st) v (format st) (quality st)
          (autoQuality st) (livePreviewUrl st) (error st).

Definition setFormat (v : string) (st : State) : State :=
  mkState (selectedFile st) (previewUrl st) (converting st) v (quality st)
          (autoQuality st) (livePreviewUrl st) (error st).

Definition setQuality (v : Z) (st : State) : State :=
  mkState (selectedFile st) (previewUrl st) (converting st) (format st) v
          (autoQuality st) (livePreviewUrl st) (error st).

Definition setAutoQuality (v : bool) (st : State) : State :=
  mkState (selectedFile st) (previewUrl st) (converting st) (format st)
          (quality st) v (livePreviewUrl st) (error st).

Definition setLivePreviewUrl (v : option URL) (st : State) : State :=
  mkState (selectedFile st) (previewUrl st) (converting st) (format st)
          (quality st) (autoQuality st) v (error st).

Definition setError (v : option string) (st : State) : State :=
  mkState (selectedFile st) (previewUrl st) (converting st) (format st)
          (quality st) (autoQuality st) (livePreviewUrl st) v.

(** Line 41. *)
Definition supportsQuality (st : State) : bool :=
  bool_decide (format st ∈ ["jpeg"; "webp"]).

(** Lines 210-219: the URL the preview card shows, if the card is there. *)
Definition displayedUrl (st : State) : option URL :=
  match previewUrl st with
  | Some p =>
      if supportsQuality st
      then match livePreviewUrl st with
           | Some l => Some l
           | None => Some p
           end
      else Some p
  | None => None
  end.

(** Who awaits a conversion: the live-preview effect, or [handleConvert] with
    the file name and format of the render it was called in. *)
Inductive Caller :=
| LivePreview
| Download (name : string) (fmt : string).

(** Where a conversion stands: waiting for the image element, waiting for the
    callback of [canvas.toBlob], suspended for good because the image element
    reported an error, or over. *)
Inductive Stage :=
| AwaitLoad
| AwaitBlob (canvas : Raster)
| Hung
| Finished.

Record Task := mkTask {
  caller : Caller;
  conv : Conversion;
  stage : Stage
}.

Definition set_stage (sg : Stage) (t : Task) : Task :=
  {| caller := caller t; conv := conv t; stage := sg |}.

(** The dependency arrays of the two effects (lines 70 and 78). *)
Definition PreviewDeps : Type :=
  option File * Z * string * bool * option URL * option URL.

Definition QualityDeps : Type := option File * string * bool.

Definition previewDeps (st : State) : PreviewDeps :=
  (selectedFile st, quality st, format st, supportsQuality st,
   previewUrl st, livePreviewUrl st).

Definition qualityDeps (st : State) : QualityDeps :=
  (selectedFile st, format st, autoQuality st).

(** What React keeps per effect between renders: the dependencies of the last
    run and, for the preview effect, the [livePreviewUrl] its cleanup closed
    over.  [None] before the first render. *)
Record Effects := mkEffects {
  preview_deps : option PreviewDeps;
  preview_cleanup : option URL;
  quality_deps : option QualityDeps
}.

(** A running page: component state, effect bookkeeping, the conversions
    started so far (a conversion is named by its position) and the browser. *)
Record Session := mkSession {
  state : State;
  effects : Effects;
  tasks : list Task;
  browser : Browser
}.

Definition with_state (f : State -> State) (s : Session) : Session :=
  mkSession (f (state s)) (effects s) (tasks s) (browser s).

Definition with_effects (e : Effects) (s : Session) : Session :=
  mkSession (state s) e (tasks s) (browser s).

Definition with_tasks (ts : list Task) (s : Session) : Session :=
  mkSession (state s) (effects s) ts (browser s).

Definition with_browser (b : Browser) (s : Session) : Session :=
  mkSession (state s) (effects s) (tasks s) b.

Definition revoke_if (u : option URL) (b : Browser) : Browser :=
  match u with
  | Some u => revokeObjectURL u b
  | None => b
  end.

(** Lines 46-63: [updateLivePreview] up to its [await], run with the values
    [st] of the render the effect belongs to. *)
Definition updateLivePreview (st : State) (s : Session) : Session :=
  match selectedFile st with
  | Some file =>
      if supportsQuality st then
        let b := revoke_if (livePreviewUrl st) (browser s) in
        let '(c, b) := convertImage_start file (format st) (quality st) b in
        with_tasks
          (tasks s
           ++ [ {| caller := LivePreview; conv := c; stage := AwaitLoad |} ])
          (with_browser b s)
      else with_state (setLivePreviewUrl (previewUrl st)) s
  | None => with_state (setLivePreviewUrl (previewUrl st)) s
  end.

(** Lines 73-78. *)
Definition autoQualityEffect (st : State) (s : Session) : Session :=
  match selectedFile st with
  | Some file =>
      if autoQuality st
      then with_state (setQuality (getAutoQuality file (format st))) s
      else s
  | None => s
  end.

(** One render followed by its effects.  An effect runs when its dependencies
    differ from those of its last run; the cleanup of the previous run of the
    preview effect (lines 65-69) comes first.  Both effect bodies read the
    values [st] of this render; what they set shows in the next one. *)
Definition run_effects (s : Session) : Session :=
  let st := state s in
  let run_preview :=
    negb (bool_decide (preview_deps (effects s) = Some (previewDeps st))) in
  let run_quality :=
    negb (bool_decide (quality_deps (effects s) = Some (qualityDeps st))) in
  let s :=
    if run_preview then
      let s :=
        with_browser (revoke_if (preview_cleanup (effects s)) (browser s)) s in
      let s :=
        with_effects
          {| preview_deps := Some (previewDeps st);
             preview_cleanup := livePreviewUrl st;
             quality_deps := quality_deps (effects s) |} s in
      updateLivePreview st s
    else s in
  if run_quality then
    let s :=
      with_effects
        {| preview_deps := preview_deps (effects s);
           preview_cleanup := preview_cleanup (effects s);
           quality_deps := Some (qualityDeps st) |} s in
    autoQualityEffect st s
  else s.

(** React renders again as long as an effect has changed the state. *)
Fixpoint commit (fuel : nat) (s : Session) : Session :=
  match fuel with
  | O => s
  | S fuel =>
      let s' := run_effects s in
      if bool_decide (state s' = state s) then s' else commit fuel s'
  end.

(** Four rounds are enough for every session ([render_settles] below). *)
Definition render (s : Session) : Session := commit 4 s.

(** No effect is due: the page is at rest until the next event. *)
Definition settled (s : Session) : Prop :=
  preview_deps (effects s) = Some (previewDeps (state s)) /\
  quality_deps (effects s) = Some (qualityDeps (state s)).

(** The preview effect has revoked the preview it last ran with, and its
    cleanup holds the same URL to revoke it again. *)
Definition preview_released (s : Session) : Prop :=
  forall f q fmt p v,
    preview_deps (effects s) = Some (Some f, q, fmt, true, p, Some v) ->
    preview_cleanup (effects s) = Some v /\
    (1 <= release_count v (browser s))%nat.

(** The URLs in the component state have been minted. *)
Definition urls_minted (s : Session) : Prop :=
  (forall v, livePreviewUrl (state s) = Some v ->
             (v < next_url (browser s))%nat) /\
  (forall v, previewUrl (state s) = Some v ->
             (v < next_url (browser s))%nat).

(** What one round of effects does to the component state, given which of
    the two effects run. *)
Definition has_file (st : State) : bool :=
  match selectedFile st with
  | Some _ => true
  | None => false
  end.

Definition effects_state (run_preview run_quality : bool) (st : State)
    : State :=
  let st1 :=
    if run_preview && negb (has_file st && supportsQuality st)
    then setLivePreviewUrl (previewUrl st) st else st in
  match selectedFile st with
  | Some file =>
      if run_quality && autoQuality st
      then setQuality (getAutoQuality file (format st)) st1 else st1
  | None => st1
  end.

(** The state after a round of effects, when the round before it was run in
    state [prev]. *)
Definition next_state (prev st : State) : State :=
  effects_state (negb (bool_decide (previewDeps prev = previewDeps st)))
                (negb (bool_decide (qualityDeps prev = qualityDeps st))) st.

Definition unmounted : Session :=
  {| state := initialState;
     effects := {| preview_deps := None; preview_cleanup := None;
                   quality_deps := None |};
     tasks := [];
     browser := {| next_url := O; trace := [] |} |}.

(** The page after its first render. *)
Definition mounted : Session := render unmounted.

(** [name.split('.')]: at least one piece, also for the empty string. *)
Fixpoint split (sep : ascii) (s : string) : list string :=
  match s with
  | EmptyString => [EmptyString]
  | String c rest =>
      if Ascii.eqb c sep then EmptyString :: split sep rest
      else
        match split sep rest with
        | piece :: pieces => String c piece :: pieces
        | [] => [String c EmptyString]
        end
  end.

(** Line 115: [name.split('.').slice(0, -1).join('.')]. *)
Definition originalName (name : string) : string :=
  String.concat "." (removelast (split "."%char name)).

(** Line 85. *)
Definition maxSize : Z := 20 * 1024 * 1024.

(** Lines 80-101, with [files] for [e.target.files?.[0]]. *)
Definition handleFileChange (files : option File) (s : Session) : Session :=
  let st := state s in
  let s := with_state (setError None) s in
  match files with
  | Some file =>
      if maxSize <? file_size file then
        with_state (setError (Some "File size exceeds 20MB limit")) s
      else
        let '(u, b) := createObjectURL (FromFile file) (browser s) in
        let s := with_browser b s in
        let s := with_state (setSelectedFile (Some file)) s in
        let s := with_state (setPreviewUrl (Some u)) s in
        if autoQuality st
        then with_state (setQuality (getAutoQuality file (format st))) s
        else s
  | None => s
  end.

(** Lines 103-110: [handleConvert] up to its [await]. *)
Definition handleConvert (s : Session) : Session :=
  let st := state s in
  match selectedFile st with
  | None => s
  | Some file =>
      let s := with_state (setConverting true) s in
      let '(c, b) :=
        convertImage_start file (format st) (quality st) (browser s) in
      with_tasks
        (tasks s ++ [ {| caller := Download (file_name file) (format st);
                         conv := c; stage := AwaitLoad |} ])
        (with_browser b s)
  end.

(** Lines 56-60: [updateLivePreview] from its [await] on. *)
Definition updateLivePreview_resume (result : Outcome Blob) (s : Session)
    : Session :=
  match result with
  | Resolved blob =>
      let '(newPreviewUrl, b) := createObjectURL (FromBlob blob) (browser s) in
      with_state (setLivePreviewUrl (Some newPreviewUrl)) (with_browser b s)
  | Rejected err =>
      with_browser
        (emit (ConsoleError "Error updating live preview:" err) (browser s)) s
  | Pending => s
  end.

(** Lines 110-124: [handleConvert] from its [await] on. *)
Definition handleConvert_resume (name fmt : string) (result : Outcome Blob)
    (s : Session) : Session :=
  match result with
  | Resolved blob =>
      let '(url, b) := createObjectURL (FromBlob blob) (browser s) in
      let b := emit (Click (originalName name +:+ "-" +:+ fmt) url) b in
      let b := revokeObjectURL url b in
      with_state (setConverting false) (with_browser b s)
  | Rejected err =>
      with_state (setConverting false)
        (with_browser
           (emit (ConsoleError "Error converting image:" err) (browser s)) s)
  | Pending => s
  end.

Definition resume (who : Caller) (result : Outcome Blob) (s : Session)
    : Session :=
  match who with
  | LivePreview => updateLivePreview_resume result s
  | Download name fmt => handleConvert_resume name fmt result s
  end.

Section WithCodec.

Variable codec : Codec.

(** The image element of conversion [i] has finished loading, or failed to. *)
Definition imageSettled (i : nat) (s : Session) : Session :=
  match tasks s !! i with
  | Some t =>
      match stage t with
      | AwaitLoad =>
          match convertImage_load codec (conv t) (browser s) with
          | (Some canvas, b) =>
              with_tasks (<[i := set_stage (AwaitBlob canvas) t]> (tasks s))
                         (with_browser b s)
          | (None, b) =>
              with_tasks (<[i := set_stage Hung t]> (tasks s))
                         (with_browser b s)
          end
      | _ => s
      end
  | None => s
  end.

(** [canvas.toBlob] calls back for conversion [i]: [convertImage] ends and
    whoever awaited it goes on. *)
Definition blobCallback (i : nat) (s : Session) : Session :=
  match tasks s !! i with
  | Some t =>
      match stage t with
      | AwaitBlob canvas =>
          let '(result, b) :=
            convertImage_finish codec (conv t) canvas (browser s) in
          resume (caller t) result
            (with_tasks (<[i := set_stage Finished t]> (tasks s))
                        (with_browser b s))
      | _ => s
      end
  | None => s
  end.

(** What can happen to the page: the user's inputs (the quality controls
    exist only while [supportsQuality], the button is disabled while
    [converting]) and the browser's callbacks. *)
Inductive Action :=
| FileChange (files : option File)
| FormatChange (value : string)
| AutoQualityChange (checked : bool)
| QualityChange (value : Z)
| Submit
| ImageSettled (i : nat)
| BlobCallback (i : nat).

Definition handle (a : Action) (s : Session) : Session :=
  match a with
  | FileChange files => handleFileChange files s
  | FormatChange value => with_state (setFormat value) s
  | AutoQualityChange checked =>
      if supportsQuality (state s)
      then with_state (setAutoQuality checked) s else s
  | QualityChange value =>
      if supportsQuality (state s)
      then with_state (fun st => setQuality value (setAutoQuality false st)) s
      else s
  | Submit => if converting (state s) then s else handleConvert s
  | ImageSettled i => imageSettled i s
  | BlobCallback i => blobCallback i s
  end.

(** An event is handled, then React renders until no effect is due. *)
Definition step (s : Session) (a : Action) : Session := render (handle a s).

Definition run (actions : list Action) (s : Session) : Session :=
  fold_left step actions s.

(** The sessions the page can be in. *)
Inductive reachable : Session -> Prop :=
| reachable_mounted : reachable mounted
| reachable_step s a : reachable s -> reachable (step s a).

End WithCodec.

End Home.

(** ** A runtime and files to run the page on *)

(** A file whose bytes start with a width and a height decodes to an image of
    that size, anything shorter does not decode.  Encoding fails for an empty
    canvas and for one beyond 16384 x 16384 pixels (the canvas limit of
    current browsers); the blob records the MIME type and the quality it was
    encoded with. *)
Definition sampleCodec : Codec :=
  {| decode := fun file =>
       match file_bytes file with
       | w :: h :: px => Some {| width := w; height := h; pixels := px |}
       | _ => None
       end;
     encode := fun canvas mime q =>
       if (0 <? width canvas * height canvas)
          && (width canvas * height canvas <=? 268435456)
       then Some {| blob_type := mime;
                    blob_bytes := Qnum q :: pixels canvas |}
       else None |}.

(** A 3MB picture of 2 x 2 pixels. *)
Definition photo : File :=
  {| file_name := "photo.png"; file_size := 3 * 1048576;
     file_bytes := [2; 2; 10; 20; 30; 40] |}.

(** A file that is no image. *)
Definition notes : File :=
  {| file_name := "notes.txt"; file_size := 5; file_bytes := [] |}.

(** An image of 40000 x 40000 pixels: it decodes, and no canvas can encode
    it. *)
Definition poster : File :=
  {| file_name := "poster.png"; file_size := 4096;
     file_bytes := [40000; 40000] |}.

Definition freshBrowser : Browser := {| next_url := O; trace := [] |}.

Import Home.

(** The picture is chosen and its first preview is on display (URL 2); a
    second conversion of it has been started. *)
Definition photoShown : Session :=
  run sampleCodec
      [FileChange (Some photo); ImageSettled 0%nat; BlobCallback 0%nat]
      mounted.

(** After that the poster is chosen, and its conversion (number 2) waits for
    the encoder. *)
Definition posterEncoding : Session :=
  run sampleCodec [FileChange (Some poster); ImageSettled 2%nat] photoShown.

(** The poster is chosen and the download button pressed; the conversion for
    the download (number 1) waits for the encoder. *)
Definition posterDownload : Session :=
  run sampleCodec
      [FileChange (Some poster); Submit; ImageSettled 1%nat] mounted.

(** The first preview of the picture is on display and the second conversion
    (number 1) waits for the encoder. *)
Definition photoEncodingAgain : Session :=
  run sampleCodec [ImageSettled 1%nat] photoShown.

(** The picture is chosen (request 0, quality 70), the slider is moved to 40
    (request 1), and request 1 is answered first (URL 3); request 0 still
    waits for the encoder. *)
Definition newerShown : Session :=
  run sampleCodec
      [FileChange (Some photo); QualityChange 40;
       ImageSettled 1%nat; BlobCallback 1%nat; ImageSettled 0%nat]
      mounted.

(** A file beyond the limit of 20MB. *)
Definition scan : File :=
  {| file_name := "scan.tiff"; file_size := 25 * 1048576;
     file_bytes := [3; 3] |}.

(** The text file is chosen. *)
Definition notesChosen : Session :=
  step sampleCodec mounted (FileChange (Some notes)).

(** The picture is chosen and the format set to png. *)
Definition photoAsPng : Session :=
  run sampleCodec [FileChange (Some photo); FormatChange "png"] mounted.

(** Another picture under the name of the first. *)
Definition retake : File :=
  {| file_name := "photo.png"; file_size := 9 * 1048576;
     file_bytes := [1; 1; 99] |}.

(** The cache and the browser after the picture has been converted by the
    revision with a cache. *)
Definition photoCached : gmap string Blob * Browser :=
  snd (CachedRevision.convertImage sampleCodec photo "jpeg" 70
         (∅, freshBrowser)).

(** The revision with a cache when its module has just been loaded. *)
Definition cacheStart : CachedRevision.Runtime :=
  {| CachedRevision.blobCache := ∅;
     CachedRevision.browser := freshBrowser;
     CachedRevision.tasks := [] |}.

(** The picture is being converted and waits for the encoder. *)
Definition photoDecoded : CachedRevision.Runtime :=
  CachedRevision.run sampleCodec
    [CachedRevision.Request photo "jpeg" 70; CachedRevision.BitmapSettled 0]
    cacheStart.

(** The two pictures of one name are converted at the same time; the first
    has come back, the second waits for the encoder. *)
Definition overlapping : CachedRevision.Runtime :=
  CachedRevision.run sampleCodec
    [CachedRevision.Request photo "jpeg" 70;
     CachedRevision.Request retake "jpeg" 70;
     CachedRevision.BitmapSettled 0; CachedRevision.BitmapSettled 1;
     CachedRevision.BlobCallback 0]
    cacheStart.

(** ** Vocabulary of the properties *)

(** Whether a character occurs in a string. *)
Fixpoint occurs (c : ascii) (s : string) : bool :=
  match s with
  | EmptyString => false
  | String d rest => Ascii.eqb d c || occurs c rest
  end.

(** No URL has been created or revoked before it was minted. *)
Definition well_numbered (b : Browser) : Prop :=
  forall u, (next_url b <= u)%nat ->
    existsb (is_create u) (trace b) = false /\
    existsb (is_revoke u) (trace b) = false.

(** The quality a newly chosen file gets (lines 96-99 and 73-78). *)
Definition chosenQuality (file : File) (st : State) : Z :=
  if autoQuality st then getAutoQuality file (format st) else quality st.

(** While [autoQuality] is on, the quality is the estimate for the chosen
    file and the format. *)
Definition auto_quality_holds (st : State) : Prop :=
  forall file,
    autoQuality st = true -> selectedFile st = Some file ->
    quality st = getAutoQuality file (format st).

(** The same, as far as the automatic-quality effect is not due. *)
Definition auto_quality_pending (s : Session) : Prop :=
  quality_deps (effects s) = Some (qualityDeps (state s)) ->
  auto_quality_holds (state s).

(** The slider offers the values from 1 to 100 (lines 189-199). *)
Definition slider_value (a : Action) : Prop :=
  match a with
  | QualityChange value => 1 <= value <= 100
  | _ => True
  end.

(** The quality in the state and the quality of every conversion started so
    far are percentages. *)
Definition percent (q : Z) : Prop := 1 <= q <= 100.

Definition qualities_in_range (s : Session) : Prop :=
  percent (quality (state s)) /\
  Forall (fun t => percent (conv_quality (conv t))) (tasks s).

(** A conversion for a download that has not come back. *)
Definition download_in_flight (t : Task) : bool :=
  match caller t, stage t with
  | Download _ _, Finished => false
  | Download _ _, _ => true
  | LivePreview, _ => false
  end.

Definition downloads_in_flight (ts : list Task) : nat :=
  length (List.filter download_in_flight ts).

(** The button is disabled exactly while one download is in flight. *)
Definition one_download (s : Session) : Prop :=
  downloads_in_flight (tasks s) = if converting (state s) then 1%nat else 0%nat.

(** Without a file, or with a format that has no quality, the live preview
    is the preview of the file itself. *)
Definition shows_original (st : State) : Prop :=
  has_file st && supportsQuality st = false ->
  livePreviewUrl st = previewUrl st.

Definition shows_original_pending (s : Session) : Prop :=
  preview_deps (effects s) = Some (previewDeps (state s)) ->
  shows_original (state s).

(** A file is chosen, the format has a quality, and the URL of the file
    itself is the live preview. *)
Definition previewing (file : File) (p : URL) (s : Session) : Prop :=
  selectedFile (state s) = Some file /\
  supportsQuality (state s) = true /\
  previewUrl (state s) = Some p /\
  livePreviewUrl (state s) = Some p.

(** Nothing the page holds will revoke the URL, and nothing has. *)
Definition unreferenced (u : URL) (s : Session) : Prop :=
  existsb (is_revoke u) (trace (browser s)) = false /\
  livePreviewUrl (state s) <> Some u /\
  preview_cleanup (effects s) <> Some u /\
  Forall (fun t => objectUrl (conv t) <> u) (tasks s).

(** The URL has been minted, nothing will revoke it, and the page converts
    for a live preview. *)
Definition kept (p : URL) (s : Session) : Prop :=
  (p < next_url (browser s))%nat /\
  unreferenced p s /\
  has_file (state s) && supportsQuality (state s) = true.

(** No URL still to be minted is referred to. *)
Definition unminted_unused (s : Session) : Prop :=
  forall u, (next_url (browser s) <= u)%nat -> unreferenced u s.

(** The format stays one with a quality. *)
Definition keeps_quality (a : Action) : Prop :=
  match a with
  | FormatChange value => value ∈ ["jpeg"; "webp"]
  | _ => True
  end.

(** Every blob in the cache is what the codec made of some file, under the
    key of that file, format and quality. *)
Definition cache_sound (codec : Codec) (blobCache : gmap string Blob) : Prop :=
  forall key blob,
    blobCache !! key = Some blob ->
    exists file format quality img,
      key = CachedRevision.cacheKey file format quality /\
      decode codec file = Some img /\
      encode codec img ("image/" +:+ format) (inject_Z quality / 100)%Q
      = Some blob.

(** The cache and browser after a series of conversions. *)
Definition cached_runs (codec : Codec) (requests : list (File * string * Z))
    (st : gmap string Blob * Browser) : gmap string Blob * Browser :=
  fold_left
    (fun st '(file, format, quality) =>
       snd (CachedRevision.convertImage codec file format quality st))
    requests st.

(** ** The latest page ([src/app/page.tsx], lines 529-942)

    The last of the three revisions of the page in [src/app/page.tsx] keeps
    its state in two records and sets the quality in its handlers as well as
    in an effect. *)

Module Latest.

(** Lines 557-568. *)
Record ImageState := mkImageState {
  file : option File;
  previewUrl : option URL;
  currentPreviewUrl : option URL;
  nextPreviewUrl : option URL
}.

Record ConversionSettings := mkSettings {
  format : string;
  quality : Z;
  autoQuality : bool
}.

(** The dependencies of the automatic-quality effect (line 703). *)
Definition QualityDeps : Type := bool * string * option File.

(** The page as far as the settings go: the state cells the handlers below
    write, what React remembers of the automatic-quality effect, and the
    browser.  The loading flags are left out; of the preview effect and of
    [handleConvert], which run conversions, the page keeps what they write
    to these cells when a conversion comes back. *)
Record Page := mkPage {
  imageState : ImageState;
  settings : ConversionSettings;
  error : option string;
  quality_deps : option QualityDeps;
  browser : Browser
}.

Definition initialPage : Page :=
  {| imageState := {| file := None; previewUrl := None;
                      currentPreviewUrl := None; nextPreviewUrl := None |};
     settings := {| format := "jpeg"; quality := 95; autoQuality := true |};
     error := None;
     quality_deps := None;
     browser := {| next_url := O; trace := [] |} |}.

(** [['jpeg', 'webp'].includes(format)] (lines 594-597 and in the handlers). *)
Definition supports (format : string) : bool :=
  bool_decide (format ∈ ["jpeg"; "webp"]).

Definition with_quality (q : Z) (st : ConversionSettings)
    : ConversionSettings :=
  {| format := format st; quality := q; autoQuality := autoQuality st |}.

(** Line 601. *)
Definition maxSize : Z := 20 * 1024 * 1024.

(** Lines 599-623. *)
Definition handleFileDrop (f : File) (p : Page) : Page :=
  if maxSize <? file_size f then
    mkPage (imageState p) (settings p)
           (Some "File size exceeds 20MB limit") (quality_deps p) (browser p)
  else
    let '(previewUrl, b) := createObjectURL (FromFile f) (browser p) in
    let img :=
      {| file := Some f; previewUrl := Some previewUrl;
         currentPreviewUrl := Some previewUrl;
         nextPreviewUrl := nextPreviewUrl (imageState p) |} in
    let st :=
      if autoQuality (settings p) && supports (format (settings p))
      then with_quality (getAutoQuality f (format (settings p))) (settings p)
      else settings p in
    mkPage img st None (quality_deps p) b.

(** Lines 678-692. *)
Definition handleFormatChange (fmt : string) (p : Page) : Page :=
  let prev := settings p in
  let st :=
    match file (imageState p) with
    | Some f =>
        if autoQuality prev && supports fmt
        then {| format := fmt; quality := getAutoQuality f fmt;
                autoQuality := autoQuality prev |}
        else {| format := fmt;
                quality := if negb (supports fmt) then 100 else quality prev;
                autoQuality := autoQuality prev |}
    | None =>
        {| format := fmt;
           quality := if negb (supports fmt) then 100 else quality prev;
           autoQuality := autoQuality prev |}
    end in
  mkPage (imageState p) st (error p) (quality_deps p) (browser p).

(** Lines 732-738. *)
Definition handleQualityChange (value : Z) (p : Page) : Page :=
  mkPage (imageState p)
         {| format := format (settings p); quality := value;
            autoQuality := false |}
         (error p) (quality_deps p) (browser p).

(** Lines 856-857. *)
Definition handleAutoChange (checked : bool) (p : Page) : Page :=
  mkPage (imageState p)
         {| format := format (settings p); quality := quality (settings p);
            autoQuality := checked |}
         (error p) (quality_deps p) (browser p).

(** Lines 645-654: a preview has arrived and the component is mounted. *)
Definition showPreview (newPreviewUrl : URL) (p : Page) : Page :=
  let prev := imageState p in
  let b :=
    match nextPreviewUrl prev with
    | Some old =>
        if bool_decide (old = newPreviewUrl) then browser p
        else revokeObjectURL old (browser p)
    | None => browser p
    end in
  mkPage {| file := file prev; previewUrl := previewUrl prev;
            currentPreviewUrl := Some newPreviewUrl;
            nextPreviewUrl := Some newPreviewUrl |}
         (settings p) (error p) (quality_deps p) b.

(** Lines 725-727: the conversion for a download was rejected. *)
Definition convertFailed (err : string) (p : Page) : Page :=
  mkPage (imageState p) (settings p) (Some "Failed to convert image")
         (quality_deps p)
         (emit (ConsoleError "Conversion failed:" err) (browser p)).

Definition qualityDeps (p : Page) : QualityDeps :=
  (autoQuality (settings p), format (settings p), file (imageState p)).

(** Lines 695-703, run after a render when its dependencies have changed.
    It writes the quality only, which is no dependency of its own: the render
    that follows finds nothing to do. *)
Definition render (p : Page) : Page :=
  if bool_decide (quality_deps p = Some (qualityDeps p)) then p
  else
    let st :=
      match file (imageState p) with
      | Some f =>
          if autoQuality (settings p) && supports (format (settings p))
          then with_quality (getAutoQuality f (format (settings p)))
                            (settings p)
          else settings p
      | None => settings p
      end in
    mkPage (imageState p) st (error p) (Some (qualityDeps p)) (browser p).

(** The user's inputs, and the conversions coming back: a preview with
    whatever URL, a download with whatever error.  The quality controls are
    on the page only while the format has a quality (line 846). *)
Inductive Action :=
| FileDrop (f : File)
| FormatChange (fmt : string)
| QualityChange (value : Z)
| AutoChange (checked : bool)
| PreviewReady (newPreviewUrl : URL)
| ConvertFailed (err : string).

Definition handle (a : Action) (p : Page) : Page :=
  match a with
  | FileDrop f => handleFileDrop f p
  | FormatChange fmt => handleFormatChange fmt p
  | QualityChange value =>
      if supports (format (settings p)) then handleQualityChange value p
      else p
  | AutoChange checked =>
      if supports (format (settings p)) then handleAutoChange checked p
      else p
  | PreviewReady newPreviewUrl => showPreview newPreviewUrl p
  | ConvertFailed err => convertFailed err p
  end.

Definition step (p : Page) (a : Action) : Page := render (handle a p).

Definition run (actions : list Action) (p : Page) : Page :=
  fold_left step actions p.

Definition mounted : Page := render initialPage.

Definition slider_value (a : Action) : Prop :=
  match a with
  | QualityChange value => 1 <= value <= 100
  | _ => True
  end.

(** What the settings keep to: a format without quality has quality 100;
    while [autoQuality] is on, a file is chosen and the format has a quality,
    the quality is the estimate; the quality is a percentage; and the effect
    is not due. *)
Definition fixed_quality (p : Page) : Prop :=
  supports (format (settings p)) = false -> quality (settings p) = 100.

Definition auto_quality (p : Page) : Prop :=
  forall f,
    autoQuality (settings p) = true ->
    file (imageState p) = Some f ->
    supports (format (settings p)) = true ->
    quality (settings p) = getAutoQuality f (format (settings p)).

Definition percent_quality (p : Page) : Prop :=
  1 <= quality (settings p) <= 100.

Record settings_ok (p : Page) : Prop := mkSettingsOk {
  ok_settled : quality_deps p = Some (qualityDeps p);
  ok_fixed : fixed_quality p;
  ok_auto : auto_quality p;
  ok_percent : percent_quality p
}.

End Latest.

(** ** Class names ([src/lib/imageUtils.ts], lines 107-126)

    [cn] remembers the inputs and the result of its last call. *)

Module ClassNames.

Section WithMerge.

(** A class value and what [twMerge(clsx(inputs))] yields; both libraries
    are outside the repository.  [===] on class values is a decidable
    equality here: it is one on strings, booleans, [null], [undefined] and
    the numbers other than [NaN], and on arrays and objects it is identity;
    those are taken as not mutated between calls, so that values that are
    [===] merge alike. *)
Context {ClassValue : Type} `{EqDecision ClassValue}.
Variable merge : list ClassValue -> string.

(** The module variables, and how often [twMerge] has been called. *)
Record Memo := mkMemo {
  lastInputs : option (list ClassValue);
  lastResult : option string;
  merges : nat
}.

Definition initialMemo : Memo :=
  {| lastInputs := None; lastResult := None; merges := O |}.

(** [inputs.every((input, i) => input === lastInputs[i])]: an index beyond
    [lastInputs] reads [undefined], which no class value here equals. *)
Fixpoint every_same (inputs last : list ClassValue) : bool :=
  match inputs, last with
  | [], _ => true
  | input :: inputs, x :: last =>
      bool_decide (input = x) && every_same inputs last
  | _ :: _, [] => false
  end.

(** [cn(...inputs)]: the result ([None] for [null]) and the module variables
    after the call. *)
Definition cn (inputs : list ClassValue) (m : Memo) : option string * Memo :=
  match lastInputs m with
  | Some last =>
      if Nat.eqb (length inputs) (length last) && every_same inputs last
      then (lastResult m, m)
      else
        let result := merge inputs in
        (Some result,
         {| lastInputs := Some inputs; lastResult := Some result;
            merges := S (merges m) |})
  | None =>
      let result := merge inputs in
      (Some result,
       {| lastInputs := Some inputs; lastResult := Some result;
          merges := S (merges m) |})
  end.

(** The module variables after a series of calls. *)
Definition calls (series : list (list ClassValue)) (m : Memo) : Memo :=
  fold_left (fun m inputs => snd (cn inputs m)) series m.

(** What is remembered is the result of merging the remembered inputs. *)
Definition memo_sound (m : Memo) : Prop :=
  forall last, lastInputs m = Some last -> lastResult m = Some (merge last).

End WithMerge.

End ClassNames.

(** ** Properties of the estimator *)

(** Comparing the size in megabytes with [n/d] is comparing the length in
    bytes with [n * 2^20 / d]. *)
Lemma Qgtb_sizeInMB (file : File) (n : Z) (d : positive) :
  Qgtb (sizeInMB file) (n # d) = (n * 1048576 <? file_size file * Z.pos d).
Proof.
  unfold Qgtb, Qle_bool, sizeInMB. cbn.
  rewrite Z.mul_1_r. symmetry. apply Z.ltb_antisym.
Qed.

Lemma spec_tier_bytes (file : File) :
  spec_tier (sizeInMB file) = byte_tier (file_size file).
Proof.
  unfold spec_tier, byte_tier.
  change 10%Q with (10 # 1). change 5%Q with (5 # 1).
  change 2%Q with (2 # 1). change 1%Q with (1 # 1).
  rewrite !Qgtb_sizeInMB.
  replace (file_size file * 1) with (file_size file) by lia.
  repeat match goal with
  | |- context [?a <? ?b] => destruct (Z.ltb_spec a b)
  end; try reflexivity; lia.
Qed.

Lemma getAutoQuality_tier (file : File) (format : string) :
  getAutoQuality file format =
  tier_quality
    (if bool_decide (format = "webp") then webp qualityMap else jpeg qualityMap)
    (spec_tier (sizeInMB file)).
Proof.
  unfold getAutoQuality, spec_tier.
  repeat match goal with
  | |- context [Qgtb ?a ?b] => destruct (Qgtb a b)
  end; reflexivity.
Qed.

Lemma getAutoQuality_bytes (file : File) (format : string) :
  getAutoQuality file format =
  tier_quality
    (if bool_decide (format = "webp") then webp qualityMap else jpeg qualityMap)
    (byte_tier (file_size file)).
Proof. rewrite getAutoQuality_tier, spec_tier_bytes. reflexivity. Qed.

(** C1: for jpeg and for webp the estimator returns the table value of the
    tier that [sizeBytes / 2^20] falls into, the tiers being bounded by strict
    comparisons ([> 10], [> 5], [> 2], [> 1], [> 0.5], in bytes [> 10485760]
    down to [> 524288]); a file of exactly 1.0MB is [small] (jpeg 85, webp 80)
    and a file of 3MB is [large] (jpeg 70, webp 65). *)
Theorem getAutoQuality_tiers :
  (forall file,
     getAutoQuality file "jpeg"
       = tier_quality (jpeg qualityMap) (spec_tier (sizeInMB file)) /\
     getAutoQuality file "webp"
       = tier_quality (webp qualityMap) (spec_tier (sizeInMB file)) /\
     spec_tier (sizeInMB file) = byte_tier (file_size file)) /\
  (forall name bytes,
     let file := mkFile name 1048576 bytes in
     (sizeInMB file == 1)%Q /\
     spec_tier (sizeInMB file) = Small /\
     getAutoQuality file "jpeg" = 85 /\
     getAutoQuality file "webp" = 80) /\
  (forall name bytes,
     let file := mkFile name (3 * 1048576) bytes in
     (sizeInMB file == 3)%Q /\
     spec_tier (sizeInMB file) = Large /\
     getAutoQuality file "jpeg" = 70 /\
     getAutoQuality file "webp" = 65).
Proof.
  split; [|split].
  - intros file. rewrite !getAutoQuality_tier.
    repeat split; try reflexivity. apply spec_tier_bytes.
  - intros name bytes file. repeat split.
  - intros name bytes file. repeat split.
Qed.

(** The jpeg table and the webp table both decrease from [tiny] to [huge] and
    stay between 45 and 90. *)
Lemma tier_quality_range (format : string) (t : Tier) :
  45 <= tier_quality
          (if bool_decide (format = "webp")
           then webp qualityMap else jpeg qualityMap) t <= 90.
Proof. destruct (bool_decide (format = "webp")), t; cbn; lia. Qed.

(** C10: for a fixed format the estimate does not grow with the file size,
    and it lies between 45 and 90, hence between 1 and 100. *)
Theorem getAutoQuality_monotone_bounded (format : string) (a b : File) :
  file_size a <= file_size b ->
  getAutoQuality b format <= getAutoQuality a format /\
  45 <= getAutoQuality a format <= 90 /\
  1 <= getAutoQuality a format <= 100.
Proof.
  intros Hle.
  pose proof (tier_quality_range format (byte_tier (file_size a))) as Hrange.
  rewrite !getAutoQuality_bytes.
  split; [|lia].
  clear Hrange. unfold byte_tier.
  destruct (bool_decide (format = "webp"));
    repeat match goal with
    | |- context [?x <? ?y] => destruct (Z.ltb_spec x y)
    end; cbn; lia.
Qed.

(** The 5-byte file against the 3MB picture, for webp: 85 against 65. *)
Lemma getAutoQuality_monotone_bounded_witness :
  file_size notes <= file_size photo /\
  getAutoQuality photo "webp" <= getAutoQuality notes "webp" /\
  45 <= getAutoQuality notes "webp" <= 90 /\
  1 <= getAutoQuality notes "webp" <= 100.
Proof.
  split; [cbn; lia|].
  apply (getAutoQuality_monotone_bounded "webp" notes photo). cbn. lia.
Defined.

(** C2, as the specification has it, fails: a 2KB file converted to png is
    estimated at 90, the [tiny] entry of the jpeg table. *)
Lemma getAutoQuality_png_is_not_100 :
  "png" <> "jpeg" /\ "png" <> "webp" /\
  getAutoQuality (mkFile "icon.png" 2048 []) "png" = 90 /\
  getAutoQuality (mkFile "icon.png" 2048 []) "png" <> 100.
Proof. repeat split; discriminate. Qed.

(** C2, amended: for every format other than webp (jpeg, and also png, avif
    or any other string) the estimator returns the jpeg table value of the
    file's size tier, a value between 50 and 90. *)
Theorem getAutoQuality_other_formats (file : File) (format : string) :
  format <> "webp" ->
  getAutoQuality file format
    = tier_quality (jpeg qualityMap) (spec_tier (sizeInMB file)) /\
  getAutoQuality file format = getAutoQuality file "jpeg" /\
  50 <= getAutoQuality file format <= 90.
Proof.
  intros Hfmt. rewrite !getAutoQuality_tier.
  rewrite bool_decide_eq_false_2 by exact Hfmt.
  change (bool_decide ("jpeg" = "webp")) with false.
  repeat split; destruct (spec_tier (sizeInMB file)); cbn; lia.
Qed.

(** The 3MB picture converted to png is estimated as for jpeg, at 70. *)
Lemma getAutoQuality_other_formats_witness :
  "png" <> "webp" /\
  getAutoQuality photo "png"
    = tier_quality (jpeg qualityMap) (spec_tier (sizeInMB photo)) /\
  getAutoQuality photo "png" = getAutoQuality photo "jpeg" /\
  50 <= getAutoQuality photo "png" <= 90.
Proof.
  split; [discriminate|].
  apply (getAutoQuality_other_formats photo "png"). discriminate.
Defined.

(** ** Properties of the codec adapter *)

(** A conversion whose image loads ends, and by then it has released its
    object URL, once, after the encoder was called and before the result or
    the error is handed on. *)
Lemma convertImage_settled_releases (codec : Codec) (file : File)
    (format : string) (quality : Z) (b : Browser) (img : Raster) :
  decode codec file = Some img ->
  exists result,
    convertImage codec file format quality b
    = (result,
       {| next_url := S (next_url b);
          trace := RevokeObjectURL (next_url b)
                   :: ToBlob ("image/" +:+ format) (inject_Z quality / 100)%Q
                   :: ImgSrc (next_url b)
                   :: CreateObjectURL (next_url b) (FromFile file)
                   :: trace b |}) /\
    result <> Pending /\
    release_count (next_url b)
                  (snd (convertImage codec file format quality b))
    = S (release_count (next_url b) b).
Proof.
  intros Hdec. unfold convertImage, convertImage_load. cbn. rewrite Hdec. cbn.
  eexists. split; [reflexivity|]. split.
  - destruct (encode codec _ _ _); discriminate.
  - unfold release_count. cbn. rewrite Nat.eqb_refl. reflexivity.
Qed.

(** C6 (the code departs from it): when the source does not decode,
    [convertImage] neither rejects nor resolves; it stays suspended on the
    promise that only [img.onload] settles. *)
Theorem convertImage_undecodable_never_settles (codec : Codec) (file : File)
    (format : string) (quality : Z) (b : Browser) :
  decode codec file = None ->
  fst (convertImage codec file format quality b) = Pending /\
  fst (generatePreview codec file format quality b) = Pending.
Proof.
  intros Hdec. unfold generatePreview, convertImage, convertImage_load.
  cbn. rewrite Hdec. split; reflexivity.
Qed.

(** The text file, converted to jpeg in a fresh browser. *)
Lemma convertImage_undecodable_never_settles_witness :
  decode sampleCodec notes = None /\
  fst (convertImage sampleCodec notes "jpeg" 80 freshBrowser) = Pending /\
  fst (generatePreview sampleCodec notes "jpeg" 80 freshBrowser) = Pending.
Proof.
  split; [reflexivity|].
  apply (convertImage_undecodable_never_settles
           sampleCodec notes "jpeg" 80 freshBrowser).
  reflexivity.
Defined.

(** C5 (the code departs from it): when the source does not decode, the
    object URL that [convertImage] created for loading it is never revoked;
    the [finally] block is not reached. *)
Theorem convertImage_undecodable_keeps_url (codec : Codec) (file : File)
    (format : string) (quality : Z) (b : Browser) :
  decode codec file = None ->
  let b' := snd (convertImage codec file format quality b) in
  trace b' = ImgSrc (next_url b)
             :: CreateObjectURL (next_url b) (FromFile file) :: trace b /\
  release_count (next_url b) b' = release_count (next_url b) b /\
  live (next_url b) b' = negb (existsb (is_revoke (next_url b)) (trace b)).
Proof.
  intros Hdec. unfold convertImage, convertImage_load.
  cbn. rewrite Hdec. cbn.
  split; [reflexivity|]. split; [reflexivity|].
  unfold live. cbn. rewrite Nat.eqb_refl. reflexivity.
Qed.

(** The text file again: URL 0 is created, handed to the image element, and
    left alive. *)
Lemma convertImage_undecodable_keeps_url_witness :
  decode sampleCodec notes = None /\
  let b' := snd (convertImage sampleCodec notes "jpeg" 80 freshBrowser) in
  trace b' = [ImgSrc O; CreateObjectURL O (FromFile notes)] /\
  release_count O b' = O /\
  live O b' = true.
Proof.
  split; [reflexivity|].
  apply (convertImage_undecodable_keeps_url
           sampleCodec notes "jpeg" 80 freshBrowser).
  reflexivity.
Defined.

(** The copy of [imageUtils.ts] under [src/lib] has no cache yet: there the
    second of two identical preview requests runs the decoder and the
    encoder again and yields another URL. *)
Lemma generatePreview_twice_converts_twice :
  let first := generatePreview sampleCodec photo "jpeg" 70 freshBrowser in
  let second := generatePreview sampleCodec photo "jpeg" 70 (snd first) in
  fst first = Resolved 1%nat /\
  codec_calls (snd first) = 2%nat /\
  fst second = Resolved 3%nat /\
  codec_calls (snd second) = 4%nat /\
  codec_calls (snd second) <> codec_calls (snd first).
Proof. cbn. repeat split; discriminate. Qed.

Lemma generatePreview_codec_calls (codec : Codec) (file : File)
    (format : string) (quality : Z) (b : Browser) :
  let b' := snd (generatePreview codec file format quality b) in
  decodes b' = S (decodes b) /\
  encodes b' = match decode codec file with
               | Some _ => S (encodes b)
               | None => encodes b
               end.
Proof.
  unfold generatePreview, convertImage, convertImage_load. cbn.
  destruct (decode codec file) as [img|]; cbn; [|split; reflexivity].
  destruct (encode codec _ _ _); cbn; split; reflexivity.
Qed.

(** In the copy under [src/lib] every request starts the decoder, and the
    encoder when the source decodes, whatever was requested before.  Two
    requests with the same file, format and quality run the codec twice, and
    when both succeed they return two different URLs.  The revision with
    [blobCache] changes this (C3 below). *)
Theorem generatePreview_never_cached (codec : Codec) (file : File)
    (format : string) (quality : Z) (b : Browser) :
  let first := generatePreview codec file format quality b in
  let second := generatePreview codec file format quality (snd first) in
  decodes (snd second) = S (S (decodes b)) /\
  encodes (snd second)
  = match decode codec file with
    | Some _ => S (S (encodes b))
    | None => encodes b
    end /\
  (codec_calls (snd first) < codec_calls (snd second))%nat /\
  match fst first, fst second with
  | Resolved u1, Resolved u2 => (u1 < u2)%nat
  | _, _ => True
  end.
Proof.
  cbn zeta.
  pose proof (generatePreview_codec_calls codec file format quality b)
    as [Hd1 He1].
  pose proof (generatePreview_codec_calls codec file format quality
                (snd (generatePreview codec file format quality b)))
    as [Hd2 He2].
  cbn zeta in *.
  split; [lia|]. split.
  { rewrite He2, He1. destruct (decode codec file); reflexivity. }
  split.
  { unfold codec_calls. rewrite Hd2, He2.
    destruct (decode codec file); lia. }
  clear. unfold generatePreview, convertImage, convertImage_load. cbn.
  destruct (decode codec file) as [img|]; cbn; [|exact I].
  destruct (encode codec _ _ _); cbn; [lia|exact I].
Qed.

(** ** Properties of the page component *)

(** *** Rendering comes to rest *)

Lemma run_effects_settled (s : Session) : settled s -> run_effects s = s.
Proof.
  intros [H1 H2]. unfold run_effects.
  rewrite (bool_decide_eq_true_2 _ H1), (bool_decide_eq_true_2 _ H2).
  reflexivity.
Qed.

Lemma render_settled (s : Session) : settled s -> render s = s.
Proof.
  intros H. unfold render. cbn [commit].
  rewrite (run_effects_settled s H).
  rewrite bool_decide_eq_true_2 by reflexivity. reflexivity.
Qed.

Lemma run_effects_deps (s : Session) :
  preview_deps (effects (run_effects s)) = Some (previewDeps (state s)) /\
  quality_deps (effects (run_effects s)) = Some (qualityDeps (state s)).
Proof.
  unfold run_effects, updateLivePreview, autoQualityEffect.
  destruct s as [st eff ts b]. cbn.
  repeat case_bool_decide; cbn;
    destruct (selectedFile st); cbn;
    try destruct (supportsQuality st); cbn;
    try destruct (autoQuality st); cbn; auto.
Qed.

Lemma run_effects_state (s : Session) :
  state (run_effects s)
  = effects_state
      (negb (bool_decide
               (preview_deps (effects s) = Some (previewDeps (state s)))))
      (negb (bool_decide
               (quality_deps (effects s) = Some (qualityDeps (state s)))))
      (state s).
Proof.
  unfold run_effects, updateLivePreview, autoQualityEffect, effects_state,
    has_file.
  destruct s as [st eff ts b]. cbn.
  destruct (bool_decide (preview_deps eff = _)),
           (bool_decide (quality_deps eff = _)); cbn;
    destruct (selectedFile st); cbn;
    try destruct (supportsQuality st); cbn;
    try destruct (autoQuality st); cbn; auto.
Qed.

Lemma run_effects_exit (s : Session) :
  state (run_effects s) = state s -> settled (run_effects s).
Proof.
  intros H. destruct (run_effects_deps s) as [H1 H2].
  split; rewrite H; assumption.
Qed.

Lemma run_effects_twice_state (s : Session) :
  state (run_effects (run_effects s))
  = next_state (state s) (state (run_effects s)).
Proof.
  rewrite (run_effects_state (run_effects s)).
  destruct (run_effects_deps s) as [-> ->].
  unfold next_state. f_equal.
  - f_equal. apply bool_decide_ext. split; congruence.
  - f_equal. apply bool_decide_ext. split; congruence.
Qed.

Lemma effects_state_qualityDeps (r1 r2 : bool) (st : State) :
  qualityDeps (effects_state r1 r2 st) = qualityDeps st.
Proof.
  unfold effects_state.
  destruct (r1 && _), (selectedFile st) eqn:Hf; try destruct (r2 && _);
    destruct st; cbn in *; reflexivity.
Qed.

Lemma effects_state_no_quality (r : bool) (st : State) :
  effects_state r false st
  = if r && negb (has_file st && supportsQuality st)
    then setLivePreviewUrl (previewUrl st) st else st.
Proof. unfold effects_state. destruct (selectedFile st); reflexivity. Qed.

Lemma setLivePreviewUrl_again (r : bool) (st : State) :
  effects_state r false (setLivePreviewUrl (previewUrl st) st)
  = setLivePreviewUrl (previewUrl st) st.
Proof.
  rewrite effects_state_no_quality.
  destruct (r && _); [|reflexivity].
  destruct st; reflexivity.
Qed.

(** The automatic-quality effect runs at most once in a row, and once the
    preview effect has copied [previewUrl] it has nothing left to change:
    the second or the third round leaves the state as it found it. *)
Lemma effects_state_converges (r1 r2 : bool) (st0 : State) :
  let st1 := effects_state r1 r2 st0 in
  let st2 := next_state st0 st1 in
  let st3 := next_state st1 st2 in
  st1 = st0 \/ st2 = st1 \/ st3 = st2.
Proof.
  intros st1 st2 st3. right.
  assert (Hst2 : st2 = st1 \/ st2 = setLivePreviewUrl (previewUrl st1) st1).
  { subst st2. unfold next_state. subst st1.
    rewrite effects_state_qualityDeps.
    rewrite (bool_decide_eq_true_2 _ eq_refl). cbn [negb].
    rewrite effects_state_no_quality.
    destruct (_ && _); auto. }
  destruct Hst2 as [H|H]; [left; exact H|right].
  subst st3. unfold next_state.
  replace (bool_decide (qualityDeps st1 = qualityDeps st2)) with true.
  2:{ symmetry. apply bool_decide_eq_true_2. rewrite H.
      destruct st1; reflexivity. }
  cbn [negb]. rewrite H. apply setLivePreviewUrl_again.
Qed.

(** Rendering always comes to rest within its four rounds. *)
Lemma render_settles (s : Session) : settled (render s).
Proof.
  unfold render. cbn [commit].
  case_bool_decide as H1; [apply run_effects_exit, H1|].
  case_bool_decide as H2; [apply run_effects_exit, H2|].
  case_bool_decide as H3; [apply run_effects_exit, H3|].
  exfalso.
  pose proof (effects_state_converges
    (negb (bool_decide
             (preview_deps (effects s) = Some (previewDeps (state s)))))
    (negb (bool_decide
             (quality_deps (effects s) = Some (qualityDeps (state s)))))
    (state s)) as Hc.
  cbn zeta in Hc.
  rewrite <- run_effects_state in Hc.
  rewrite <- run_effects_twice_state in Hc.
  rewrite <- run_effects_twice_state in Hc.
  tauto.
Qed.

Lemma reachable_settled (codec : Codec) (s : Session) :
  reachable codec s -> settled s.
Proof. intros H. destruct H; apply render_settles. Qed.

Lemma run_reachable (codec : Codec) (actions : list Action) (s : Session) :
  reachable codec s -> reachable codec (run codec actions s).
Proof.
  revert s. induction actions as [|a actions IH]; intros s Hs; cbn.
  - exact Hs.
  - apply IH. constructor. exact Hs.
Qed.

Lemma origin_revoke_if (u : URL) (v : option URL) (b : Browser) :
  origin u (trace (revoke_if v b)) = origin u (trace b).
Proof. destruct v; reflexivity. Qed.

Lemma next_url_revoke_if (v : option URL) (b : Browser) :
  next_url (revoke_if v b) = next_url b.
Proof. destruct v; reflexivity. Qed.

(** *** What the browser has been asked to do only grows *)

Lemma grows_refl b : grows b b.
Proof. split; [lia|reflexivity]. Qed.

Lemma grows_trans b1 b2 b3 : grows b1 b2 -> grows b2 b3 -> grows b1 b3.
Proof.
  intros [H1 E1] [H2 E2]. split; [lia|]. etransitivity; eassumption.
Qed.

Lemma grows_release_count u b b' :
  grows b b' -> (release_count u b <= release_count u b')%nat.
Proof.
  intros [_ [l E]]. unfold release_count.
  rewrite E, List.filter_app, length_app. lia.
Qed.

Ltac grows_effects :=
  repeat match goal with
         | |- context [revoke_if ?v _] => destruct v; cbn [revoke_if]
         end;
  cbn;
  (split;
   [ split; [cbn; lia | cbn; repeat apply suffix_cons_r; reflexivity]
   | reflexivity ]).

Lemma updateLivePreview_grows st s :
  grows (browser s) (browser (updateLivePreview st s)) /\
  effects (updateLivePreview st s) = effects s.
Proof.
  unfold updateLivePreview.
  destruct (selectedFile st); [destruct (supportsQuality st)|]; grows_effects.
Qed.

Section Growth.

Variable codec : Codec.

Lemma handle_grows a s :
  grows (browser s) (browser (handle codec a s)) /\
  effects (handle codec a s) = effects s.
Proof.
  destruct a; cbn.
  - unfold handleFileChange. destruct files as [file|]; [|grows_effects].
    destruct (maxSize <? file_size file); [grows_effects|].
    destruct (autoQuality (state s)); grows_effects.
  - grows_effects.
  - destruct (supportsQuality (state s)); grows_effects.
  - destruct (supportsQuality (state s)); grows_effects.
  - destruct (converting (state s)); [grows_effects|].
    unfold handleConvert. destruct (selectedFile (state s)); grows_effects.
  - unfold imageSettled. destruct (tasks s !! i) as [t|]; [|grows_effects].
    destruct (stage t); [|grows_effects..].
    unfold convertImage_load. destruct (decode codec _); grows_effects.
  - unfold blobCallback. destruct (tasks s !! i) as [t|]; [|grows_effects].
    destruct (stage t) as [|canvas| |]; [grows_effects| |grows_effects..].
    unfold convertImage_finish.
    destruct (caller t), (encode codec _ _ _); grows_effects.
Qed.
End Growth.

(** *** The preview on display has been released *)

Lemma run_effects_preview (s : Session) :
  (preview_deps (effects s) = Some (previewDeps (state s)) /\
   preview_deps (effects (run_effects s)) = preview_deps (effects s) /\
   preview_cleanup (effects (run_effects s)) = preview_cleanup (effects s) /\
   browser (run_effects s) = browser s) \/
  (preview_deps (effects s) <> Some (previewDeps (state s)) /\
   preview_deps (effects (run_effects s)) = Some (previewDeps (state s)) /\
   preview_cleanup (effects (run_effects s)) = livePreviewUrl (state s) /\
   browser (run_effects s)
   = browser (updateLivePreview (state s)
                (with_browser
                   (revoke_if (preview_cleanup (effects s)) (browser s)) s))).
Proof.
  unfold run_effects.
  destruct (bool_decide (quality_deps (effects s) = _)); cbn [negb];
    case_bool_decide as Hd; cbn [negb]; [left|right|left|right];
    repeat split; try assumption;
    unfold updateLivePreview, autoQualityEffect;
    destruct (selectedFile (state s));
    try destruct (supportsQuality (state s));
    try destruct (autoQuality (state s)); reflexivity.
Qed.

Lemma run_effects_released (s : Session) :
  preview_released s -> preview_released (run_effects s).
Proof.
  intros Hinv f q fmt p v Hdeps.
  destruct (run_effects_preview s) as [(_ & Hd & Hc & Hb)|(_ & Hd & Hc & Hb)].
  - rewrite Hd in Hdeps. rewrite Hc, Hb. exact (Hinv f q fmt p v Hdeps).
  - rewrite Hd in Hdeps. rewrite Hc, Hb.
    unfold previewDeps in Hdeps.
    injection Hdeps as Hf _ _ Hsup _ Hlive.
    split; [exact Hlive|].
    unfold updateLivePreview. rewrite Hf, Hsup, Hlive.
    unfold release_count. cbn. rewrite Nat.eqb_refl. cbn. lia.
Qed.

Lemma run_effects_grows (s : Session) :
  grows (browser s) (browser (run_effects s)).
Proof.
  destruct (run_effects_preview s) as [(_ & _ & _ & Hb)|(_ & _ & _ & Hb)];
    rewrite Hb; [apply grows_refl|].
  eapply grows_trans; [|apply updateLivePreview_grows].
  destruct (preview_cleanup (effects s)); cbn; split; cbn;
    try lia; try reflexivity. apply suffix_cons_r. reflexivity.
Qed.

Lemma run_effects_minted (s : Session) :
  urls_minted s -> urls_minted (run_effects s).
Proof.
  intros [Hl Hp].
  pose proof (run_effects_grows s) as [Hn _].
  unfold urls_minted. rewrite run_effects_state. unfold effects_state.
  split; intros v Hv; cut (v < next_url (browser s))%nat; try lia.
  - destruct (_ && negb _), (selectedFile (state s));
      try destruct (_ && autoQuality _); cbn in Hv; auto.
  - destruct (_ && negb _), (selectedFile (state s));
      try destruct (_ && autoQuality _); cbn in Hv; auto.
Qed.

Lemma commit_invariant (P : Session -> Prop) :
  (forall s, P s -> P (run_effects s)) ->
  forall fuel s, P s -> P (commit fuel s).
Proof.
  intros Hstep fuel. induction fuel as [|fuel IH]; intros s Hs; cbn.
  - exact Hs.
  - case_bool_decide; [apply Hstep, Hs|apply IH, Hstep, Hs].
Qed.

Lemma render_released (s : Session) :
  preview_released s -> preview_released (render s).
Proof. apply (commit_invariant preview_released), run_effects_released. Qed.

Lemma render_minted (s : Session) : urls_minted s -> urls_minted (render s).
Proof. apply (commit_invariant urls_minted), run_effects_minted. Qed.

Lemma render_grows (s : Session) : grows (browser s) (browser (render s)).
Proof.
  unfold render. generalize 4%nat. intros fuel. revert s.
  induction fuel as [|fuel IH]; intros s; cbn; [apply grows_refl|].
  case_bool_decide; [apply run_effects_grows|].
  eapply grows_trans; [apply run_effects_grows|apply IH].
Qed.

Section Released.

Variable codec : Codec.

Lemma handle_released (a : Action) (s : Session) :
  preview_released s -> preview_released (handle codec a s).
Proof.
  intros Hinv f q fmt p v Hdeps.
  destruct (handle_grows codec a s) as [Hg He].
  rewrite He in *. destruct (Hinv f q fmt p v Hdeps) as [Hc Hr].
  split; [exact Hc|].
  pose proof (grows_release_count v _ _ Hg). lia.
Qed.

Ltac minted :=
  cbn;
  (split; intros ? Hv; cbn in Hv;
   first [ injection Hv as <-; lia
         | match goal with
           | H : forall v, _ = Some v -> _ |- _ => specialize (H _ Hv); lia
           end ]).

Lemma handle_minted (a : Action) (s : Session) :
  urls_minted s -> urls_minted (handle codec a s).
Proof.
  intros [Hl Hp]. unfold urls_minted.
  destruct a; cbn.
  - unfold handleFileChange. destruct files as [file|]; [|minted].
    destruct (maxSize <? file_size file); [minted|].
    destruct (autoQuality (state s)); minted.
  - minted.
  - destruct (supportsQuality (state s)); minted.
  - destruct (supportsQuality (state s)); minted.
  - destruct (converting (state s)); [minted|].
    unfold handleConvert. destruct (selectedFile (state s)); minted.
  - unfold imageSettled. destruct (tasks s !! i) as [t|]; [|minted].
    destruct (stage t); [|minted..].
    unfold convertImage_load. destruct (decode codec _); minted.
  - unfold blobCallback. destruct (tasks s !! i) as [t|]; [|minted].
    destruct (stage t) as [|canvas| |]; [minted| |minted..].
    unfold convertImage_finish.
    destruct (caller t), (encode codec _ _ _); minted.
Qed.

Lemma mounted_released : preview_released mounted.
Proof. apply render_released. intros f q fmt p v H. discriminate H. Qed.

Lemma mounted_minted : urls_minted mounted.
Proof. apply render_minted. split; intros v H; discriminate H. Qed.

Lemma reachable_released (s : Session) :
  reachable codec s -> preview_released s.
Proof.
  induction 1 as [|s a _ IH]; [apply mounted_released|].
  apply render_released, handle_released, IH.
Qed.

Lemma reachable_minted (s : Session) :
  reachable codec s -> urls_minted s.
Proof.
  induction 1 as [|s a _ IH]; [apply mounted_minted|].
  apply render_minted, handle_minted, IH.
Qed.

(** In every session the page can be in, with a file chosen and jpeg or webp
    as the target, the preview on display has already been released. *)
Lemma displayed_preview_released (s : Session) (file : File) (v : URL) :
  reachable codec s ->
  selectedFile (state s) = Some file ->
  supportsQuality (state s) = true ->
  livePreviewUrl (state s) = Some v ->
  preview_cleanup (effects s) = Some v /\
  (1 <= release_count v (browser s))%nat /\
  (v < next_url (browser s))%nat.
Proof.
  intros Hr Hf Hsup Hlive.
  destruct (reachable_settled codec s Hr) as [Hd _].
  destruct (reachable_minted s Hr) as [Hl _].
  destruct (reachable_released s Hr file (quality (state s))
              (format (state s)) (previewUrl (state s)) v) as [Hc Hrel].
  { rewrite Hd. unfold previewDeps. rewrite Hf, Hsup, Hlive. reflexivity. }
  auto.
Qed.

End Released.

(** *** The live preview *)

Lemma released_not_live (u : URL) (b : Browser) :
  (1 <= release_count u b)%nat -> live u b = false.
Proof.
  unfold release_count, live. intros H.
  destruct (existsb (is_revoke u) (trace b)) eqn:E; [apply andb_false_r|].
  exfalso. induction (trace b) as [|e t IH]; cbn in *; [lia|].
  apply orb_false_elim in E as [He Et]. rewrite He in H. auto.
Qed.

Section WithCodec.

Variable codec : Codec.

(** C4 (the code departs from it).  When the conversion of a preview request
    comes back with a blob while a file is chosen and the format is jpeg or
    webp, [updateLivePreview] publishes it: its URL becomes [livePreviewUrl]
    in that very step, whichever request it is and whatever has been issued
    or published since.  Line 57 has no check for a newer request; the later
    pages publish only [if (isMounted)]. *)
Theorem completed_preview_is_published (s : Session) (i : nat) (t : Task)
    (canvas : Raster) (blob : Blob) (file : File) :
  settled s ->
  tasks s !! i = Some t ->
  caller t = LivePreview ->
  stage t = AwaitBlob canvas ->
  encode codec canvas ("image/" +:+ conv_format (conv t))
         (inject_Z (conv_quality (conv t)) / 100)%Q = Some blob ->
  selectedFile (state s) = Some file ->
  supportsQuality (state s) = true ->
  let s' := step codec s (BlobCallback i) in
  livePreviewUrl (state s') = Some (next_url (browser s)) /\
  origin (next_url (browser s)) (trace (browser s')) = Some (FromBlob blob).
Proof.
  intros Hs Ht Hc Hst Henc Hfile Hsup s'. subst s'.
  unfold step, handle, blobCallback, convertImage_finish.
  rewrite Ht, Hst, Henc, Hc. cbn [resume updateLivePreview_resume].
  cbn [createObjectURL revokeObjectURL emit with_browser with_tasks with_state
       browser state tasks effects next_url trace].
  set (u := next_url (browser s)).
  match goal with |- context [render ?x] => set (s1 := x) end.
  assert (Hq : bool_decide
                 (quality_deps (effects s1) = Some (qualityDeps (state s1)))
               = true).
  { apply bool_decide_eq_true_2. exact (proj2 Hs). }
  unfold render. cbn [commit].
  assert (Hstate : state (run_effects s1) = state s1).
  { rewrite run_effects_state, Hq. unfold effects_state, has_file.
    replace (selectedFile (state s1)) with (Some file)
      by (symmetry; exact Hfile).
    replace (supportsQuality (state s1)) with true
      by (symmetry; exact Hsup).
    cbn. rewrite andb_false_r. reflexivity. }
  rewrite (bool_decide_eq_true_2 _ Hstate).
  split.
  - rewrite Hstate. reflexivity.
  - unfold run_effects. rewrite Hq. cbn [negb].
    destruct (negb (bool_decide (preview_deps (effects s1) = _))).
    + unfold updateLivePreview.
      replace (selectedFile (state s1)) with (Some file)
        by (symmetry; exact Hfile).
      replace (supportsQuality (state s1)) with true
        by (symmetry; exact Hsup).
      change (livePreviewUrl (state s1)) with (Some u).
      cbn -[Nat.eqb]. rewrite next_url_revoke_if, origin_revoke_if.
      cbn -[Nat.eqb].
      replace (S u =? u)%nat with false by (symmetry; apply Nat.eqb_neq; lia).
      rewrite Nat.eqb_refl. reflexivity.
    + subst s1. cbn. subst u. rewrite Nat.eqb_refl. reflexivity.
Qed.

(** C7 (the code departs from it).  When the regeneration of the preview
    fails, the error is caught and written to the console and the component
    state is left as it was, so the preview published before stays on
    display, as the claim has it.  But its handle is no longer valid: in every
    session the page can be in, the URL on display has been revoked already,
    by the effect that started the conversion (lines 53-55), and no failure
    brings it back.  This is the early release reported under C9. *)
Theorem failed_preview_is_swallowed (s : Session) (i : nat) (t : Task)
    (canvas : Raster) (file : File) (p v : URL) :
  reachable codec s ->
  tasks s !! i = Some t ->
  caller t = LivePreview ->
  stage t = AwaitBlob canvas ->
  encode codec canvas ("image/" +:+ conv_format (conv t))
         (inject_Z (conv_quality (conv t)) / 100)%Q = None ->
  selectedFile (state s) = Some file ->
  supportsQuality (state s) = true ->
  previewUrl (state s) = Some p ->
  livePreviewUrl (state s) = Some v ->
  let s' := step codec s (BlobCallback i) in
  state s' = state s /\
  console (browser s')
  = ConsoleError "Error updating live preview:" "Failed to convert image"
    :: console (browser s) /\
  tasks s' = <[i := set_stage Finished t]> (tasks s) /\
  displayedUrl (state s') = Some v /\
  (1 <= release_count v (browser s'))%nat /\
  live v (browser s') = false.
Proof.
  intros Hr Ht Hc Hst Henc Hfile Hsup Hprev Hlive s'.
  pose proof (reachable_settled codec s Hr) as Hs.
  destruct (displayed_preview_released codec s file v Hr Hfile Hsup Hlive)
    as (_ & Hrel & _).
  assert (Hrel' : (1 <= release_count v (browser s'))%nat).
  { subst s'. unfold step.
    pose proof (grows_release_count v _ _
                  (proj1 (handle_grows codec (BlobCallback i) s))) as H1.
    pose proof (grows_release_count v _ _
                  (render_grows (handle codec (BlobCallback i) s))) as H2.
    lia. }
  assert (Hstate : state s' = state s
                   /\ console (browser s')
                      = ConsoleError "Error updating live preview:"
                                     "Failed to convert image"
                        :: console (browser s)
                   /\ tasks s' = <[i := set_stage Finished t]> (tasks s)).
  { subst s'. unfold step, handle, blobCallback, convertImage_finish.
    rewrite Ht, Hst, Henc, Hc. cbn [resume updateLivePreview_resume].
    rewrite render_settled by exact Hs. repeat split. }
  destruct Hstate as (Hstate & Hcons & Htasks).
  repeat split; try assumption.
  - rewrite Hstate. unfold displayedUrl. rewrite Hprev, Hsup, Hlive.
    reflexivity.
  - apply released_not_live, Hrel'.
Qed.

(** C8 (the code departs from it).  When the conversion for the download
    fails, the selected file, the format, the quality and both preview URLs
    are left as they were, [converting] goes back to [false] and no download
    is triggered, as the claim has it.  But the error only goes to the
    console: [error], the message the page keeps for the user, keeps its
    value.  The [catch] of lines 120-121 does not call [setError], which the
    latest page does at this place. *)
Theorem failed_download_is_logged (s : Session) (i : nat) (t : Task)
    (name fmt : string) (canvas : Raster) :
  settled s ->
  tasks s !! i = Some t ->
  caller t = Download name fmt ->
  stage t = AwaitBlob canvas ->
  encode codec canvas ("image/" +:+ conv_format (conv t))
         (inject_Z (conv_quality (conv t)) / 100)%Q = None ->
  let s' := step codec s (BlobCallback i) in
  state s' = setConverting false (state s) /\
  error (state s') = error (state s) /\
  clicks (browser s') = clicks (browser s) /\
  console (browser s')
  = ConsoleError "Error converting image:" "Failed to convert image"
    :: console (browser s).
Proof.
  intros Hs Ht Hc Hst Henc s'. subst s'.
  unfold step, handle, blobCallback, convertImage_finish.
  rewrite Ht, Hst, Henc, Hc. cbn [resume handleConvert_resume].
  rewrite render_settled by exact Hs.
  repeat split; reflexivity.
Qed.

(** C9 (the code departs from it).  In every session the page can be in, the
    preview on display has been released already, while it is the current
    one; when the next preview is published it has been released twice, and
    the preview that takes its place is released within the same step. *)
Theorem superseded_preview_released_twice (s : Session) (i : nat) (t : Task)
    (canvas : Raster) (blob : Blob) (file : File) (v : URL) :
  reachable codec s ->
  tasks s !! i = Some t ->
  caller t = LivePreview ->
  stage t = AwaitBlob canvas ->
  encode codec canvas ("image/" +:+ conv_format (conv t))
         (inject_Z (conv_quality (conv t)) / 100)%Q = Some blob ->
  selectedFile (state s) = Some file ->
  supportsQuality (state s) = true ->
  livePreviewUrl (state s) = Some v ->
  let s' := step codec s (BlobCallback i) in
  (1 <= release_count v (browser s))%nat /\
  (2 <= release_count v (browser s'))%nat /\
  livePreviewUrl (state s') = Some (next_url (browser s)) /\
  (1 <= release_count (next_url (browser s)) (browser s'))%nat.
Proof.
  intros Hr Ht Hc Hst Henc Hfile Hsup Hlive s'.
  destruct (displayed_preview_released codec s file v Hr Hfile Hsup Hlive)
    as (Hclean & Hrel & Hlt).
  pose proof (reachable_settled codec s Hr) as Hs.
  split; [exact Hrel|].
  subst s'. unfold step, handle, blobCallback, convertImage_finish.
  rewrite Ht, Hst, Henc, Hc. cbn [resume updateLivePreview_resume].
  cbn [createObjectURL revokeObjectURL emit with_browser with_tasks with_state
       browser state tasks effects next_url trace].
  set (u := next_url (browser s)) in *.
  match goal with |- context [render ?x] => set (s1 := x) end.
  assert (Hq : bool_decide
                 (quality_deps (effects s1) = Some (qualityDeps (state s1)))
               = true).
  { apply bool_decide_eq_true_2. exact (proj2 Hs). }
  assert (Hp : bool_decide
                 (preview_deps (effects s1) = Some (previewDeps (state s1)))
               = false).
  { apply bool_decide_eq_false_2. intros E.
    change (preview_deps (effects s1)) with (preview_deps (effects s)) in E.
    rewrite (proj1 Hs) in E.
    apply (f_equal (fun o => match o with
                             | Some d => snd d
                             | None => None
                             end)) in E.
    cbv beta iota delta [previewDeps snd] in E.
    rewrite Hlive in E. change (livePreviewUrl (state s1)) with (Some u) in E.
    injection E as E. lia. }
  unfold render. cbn [commit].
  assert (Hstate : state (run_effects s1) = state s1).
  { rewrite run_effects_state, Hq. unfold effects_state, has_file.
    replace (selectedFile (state s1)) with (Some file)
      by (symmetry; exact Hfile).
    replace (supportsQuality (state s1)) with true
      by (symmetry; exact Hsup).
    cbn. rewrite andb_false_r. reflexivity. }
  rewrite (bool_decide_eq_true_2 _ Hstate).
  assert (Hb : trace (browser (run_effects s1))
               = ImgSrc (S u) :: CreateObjectURL (S u) (FromFile file)
                 :: RevokeObjectURL u :: RevokeObjectURL v
                 :: CreateObjectURL u (FromBlob blob)
                 :: RevokeObjectURL (objectUrl (conv t)) :: trace (browser s)).
  { unfold run_effects. rewrite Hq, Hp. cbn [negb].
    unfold updateLivePreview.
    replace (selectedFile (state s1)) with (Some file)
      by (symmetry; exact Hfile).
    replace (supportsQuality (state s1)) with true
      by (symmetry; exact Hsup).
    change (livePreviewUrl (state s1)) with (Some u).
    change (preview_cleanup (effects s1)) with (preview_cleanup (effects s)).
    rewrite Hclean. reflexivity. }
  unfold release_count. rewrite Hb. cbn -[Nat.eqb].
  rewrite !Nat.eqb_refl. unfold release_count in Hrel.
  repeat split.
  - destruct (u =? v)%nat, (objectUrl (conv t) =? v)%nat;
      cbn [length]; lia.
  - rewrite Hstate. reflexivity.
  - destruct (v =? u)%nat, (objectUrl (conv t) =? u)%nat;
      cbn [length]; lia.
Qed.

End WithCodec.

(** Request 0 of [newerShown], the older of the two, is answered and
    published. *)
Lemma completed_preview_is_published_witness :
  let t := {| caller := LivePreview;
              conv := {| objectUrl := 1%nat; conv_file := photo;
                         conv_format := "jpeg"; conv_quality := 70 |};
              stage := AwaitBlob {| width := 2; height := 2;
                                    pixels := [10; 20; 30; 40] |} |} in
  let blob := {| blob_type := "image/jpeg";
                 blob_bytes := [70; 10; 20; 30; 40] |} in
  let s' := step sampleCodec newerShown (BlobCallback 0%nat) in
  settled newerShown /\
  tasks newerShown !! 0%nat = Some t /\
  selectedFile (state newerShown) = Some photo /\
  supportsQuality (state newerShown) = true /\
  livePreviewUrl (state s') = Some (next_url (browser newerShown)) /\
  origin (next_url (browser newerShown)) (trace (browser s'))
  = Some (FromBlob blob).
Proof.
  cbn zeta.
  assert (Hs : settled newerShown) by (split; vm_compute; reflexivity).
  split; [exact Hs|].
  split; [vm_compute; reflexivity|].
  split; [vm_compute; reflexivity|].
  split; [vm_compute; reflexivity|].
  apply (completed_preview_is_published sampleCodec newerShown 0%nat
           {| caller := LivePreview;
              conv := {| objectUrl := 1%nat; conv_file := photo;
                         conv_format := "jpeg"; conv_quality := 70 |};
              stage := AwaitBlob {| width := 2; height := 2;
                                    pixels := [10; 20; 30; 40] |} |}
           {| width := 2; height := 2; pixels := [10; 20; 30; 40] |}
           {| blob_type := "image/jpeg"; blob_bytes := [70; 10; 20; 30; 40] |}
           photo Hs);
    vm_compute; reflexivity.
Defined.

(** C4, the failing run.  The picture is chosen (request 0, quality 70) and
    the slider moved to 40 (request 1); request 1 is answered first and its
    result shown (URL 3, encoded at 40), which starts request 2, again at 40.
    When request 0 is answered after that, its result (URL 5, encoded at 70)
    replaces the newer preview, although it is not the result of the request
    issued last. *)
Lemma stale_preview_replaces_newer :
  let s' := step sampleCodec newerShown (BlobCallback 0%nat) in
  (fun t => conv_quality (conv t)) <$> tasks newerShown = [70; 40; 40] /\
  livePreviewUrl (state newerShown) = Some 3%nat /\
  origin 3%nat (trace (browser newerShown))
  = Some (FromBlob {| blob_type := "image/jpeg";
                      blob_bytes := [40; 10; 20; 30; 40] |}) /\
  quality (state s') = 40 /\
  livePreviewUrl (state s') = Some 5%nat /\
  displayedUrl (state s') = Some 5%nat /\
  origin 5%nat (trace (browser s'))
  = Some (FromBlob {| blob_type := "image/jpeg";
                      blob_bytes := [70; 10; 20; 30; 40] |}).
Proof. vm_compute. repeat split; reflexivity. Qed.

(** The conversion of the poster fails while the preview of the picture is
    on display. *)
Lemma failed_preview_is_swallowed_witness :
  let t := {| caller := LivePreview;
              conv := {| objectUrl := 5%nat; conv_file := poster;
                         conv_format := "jpeg"; conv_quality := 90 |};
              stage := AwaitBlob {| width := 40000; height := 40000;
                                    pixels := [] |} |} in
  let s' := step sampleCodec posterEncoding (BlobCallback 2%nat) in
  reachable sampleCodec posterEncoding /\
  tasks posterEncoding !! 2%nat = Some t /\
  selectedFile (state posterEncoding) = Some poster /\
  supportsQuality (state posterEncoding) = true /\
  previewUrl (state posterEncoding) = Some 4%nat /\
  livePreviewUrl (state posterEncoding) = Some 2%nat /\
  state s' = state posterEncoding /\
  console (browser s')
  = ConsoleError "Error updating live preview:" "Failed to convert image"
    :: console (browser posterEncoding) /\
  tasks s' = <[2%nat := set_stage Finished t]> (tasks posterEncoding) /\
  displayedUrl (state s') = Some 2%nat /\
  (1 <= release_count 2%nat (browser s'))%nat /\
  live 2%nat (browser s') = false.
Proof.
  cbn zeta.
  assert (Hr : reachable sampleCodec posterEncoding).
  { apply run_reachable, run_reachable. constructor. }
  split; [exact Hr|].
  split; [vm_compute; reflexivity|].
  split; [vm_compute; reflexivity|].
  split; [vm_compute; reflexivity|].
  split; [vm_compute; reflexivity|].
  split; [vm_compute; reflexivity|].
  apply (failed_preview_is_swallowed sampleCodec posterEncoding 2%nat
           {| caller := LivePreview;
              conv := {| objectUrl := 5%nat; conv_file := poster;
                         conv_format := "jpeg"; conv_quality := 90 |};
              stage := AwaitBlob {| width := 40000; height := 40000;
                                    pixels := [] |} |}
           {| width := 40000; height := 40000; pixels := [] |}
           poster 4%nat 2%nat Hr);
    vm_compute; reflexivity.
Defined.

(** C7, the failing run.  The preview of the picture is on display (URL 2),
    revoked by the effect as soon as it was published, when the poster is
    chosen; the conversion of the poster fails, the error is logged and
    [livePreviewUrl] still names URL 2, which does not resolve. *)
Lemma failed_preview_handle_is_revoked :
  let s' := step sampleCodec posterEncoding (BlobCallback 2%nat) in
  displayedUrl (state photoShown) = Some 2%nat /\
  live 2%nat (browser photoShown) = false /\
  console (browser s')
  = [ConsoleError "Error updating live preview:" "Failed to convert image"] /\
  displayedUrl (state s') = Some 2%nat /\
  live 2%nat (browser s') = false.
Proof. vm_compute. repeat split; reflexivity. Qed.

(** The download of the poster fails. *)
Lemma failed_download_is_logged_witness :
  let t := {| caller := Download "poster.png" "jpeg";
              conv := {| objectUrl := 2%nat; conv_file := poster;
                         conv_format := "jpeg"; conv_quality := 90 |};
              stage := AwaitBlob {| width := 40000; height := 40000;
                                    pixels := [] |} |} in
  let s' := step sampleCodec posterDownload (BlobCallback 1%nat) in
  settled posterDownload /\
  tasks posterDownload !! 1%nat = Some t /\
  state s' = setConverting false (state posterDownload) /\
  error (state s') = error (state posterDownload) /\
  clicks (browser s') = clicks (browser posterDownload) /\
  console (browser s')
  = ConsoleError "Error converting image:" "Failed to convert image"
    :: console (browser posterDownload).
Proof.
  cbn zeta.
  assert (Hs : settled posterDownload) by (split; vm_compute; reflexivity).
  split; [exact Hs|].
  split; [vm_compute; reflexivity|].
  apply (failed_download_is_logged sampleCodec posterDownload 1%nat
           {| caller := Download "poster.png" "jpeg";
              conv := {| objectUrl := 2%nat; conv_file := poster;
                         conv_format := "jpeg"; conv_quality := 90 |};
              stage := AwaitBlob {| width := 40000; height := 40000;
                                    pixels := [] |} |}
           "poster.png" "jpeg"
           {| width := 40000; height := 40000; pixels := [] |} Hs);
    vm_compute; reflexivity.
Defined.

(** C8, the failing run.  The poster is chosen and the download button
    pressed; the conversion fails, the error goes to the console, and the page
    is in the very state it was in before the button was pressed, its [error]
    message empty: nothing tells the user. *)
Lemma failed_download_is_not_shown :
  let before := step sampleCodec mounted (FileChange (Some poster)) in
  let s' := step sampleCodec posterDownload (BlobCallback 1%nat) in
  console (browser s')
  = [ConsoleError "Error converting image:" "Failed to convert image"] /\
  error (state s') = None /\
  state s' = state before.
Proof. vm_compute. repeat split; reflexivity. Qed.

(** The first preview of the picture (URL 2) when the second one arrives. *)
Lemma superseded_preview_released_twice_witness :
  let t := {| caller := LivePreview;
              conv := {| objectUrl := 3%nat; conv_file := photo;
                         conv_format := "jpeg"; conv_quality := 70 |};
              stage := AwaitBlob {| width := 2; height := 2;
                                    pixels := [10; 20; 30; 40] |} |} in
  let s' := step sampleCodec photoEncodingAgain (BlobCallback 1%nat) in
  reachable sampleCodec photoEncodingAgain /\
  tasks photoEncodingAgain !! 1%nat = Some t /\
  selectedFile (state photoEncodingAgain) = Some photo /\
  supportsQuality (state photoEncodingAgain) = true /\
  livePreviewUrl (state photoEncodingAgain) = Some 2%nat /\
  (1 <= release_count 2%nat (browser photoEncodingAgain))%nat /\
  (2 <= release_count 2%nat (browser s'))%nat /\
  livePreviewUrl (state s') = Some (next_url (browser photoEncodingAgain)) /\
  (1 <= release_count (next_url (browser photoEncodingAgain))
                      (browser s'))%nat.
Proof.
  cbn zeta.
  assert (Hr : reachable sampleCodec photoEncodingAgain).
  { apply run_reachable, run_reachable. constructor. }
  split; [exact Hr|].
  split; [vm_compute; reflexivity|].
  split; [vm_compute; reflexivity|].
  split; [vm_compute; reflexivity|].
  split; [vm_compute; reflexivity|].
  apply (superseded_preview_released_twice sampleCodec photoEncodingAgain
           1%nat
           {| caller := LivePreview;
              conv := {| objectUrl := 3%nat; conv_file := photo;
                         conv_format := "jpeg"; conv_quality := 70 |};
              stage := AwaitBlob {| width := 2; height := 2;
                                    pixels := [10; 20; 30; 40] |} |}
           {| width := 2; height := 2; pixels := [10; 20; 30; 40] |}
           {| blob_type := "image/jpeg"; blob_bytes := [70; 10; 20; 30; 40] |}
           photo 2%nat Hr);
    vm_compute; reflexivity.
Defined.

(** The other side of the same defect.  The first preview of the picture (URL
    2) has been released once when it is on display and twice when the second
    preview has arrived; the handle made for the picture itself when it was
    chosen (URL 0) is never released, also not once the poster has taken its
    place. *)
Lemma chosen_file_handle_never_released :
  let s := run sampleCodec [ImageSettled 1%nat; BlobCallback 1%nat]
               photoShown in
  origin 2%nat (trace (browser photoShown))
  = Some (FromBlob {| blob_type := "image/jpeg";
                      blob_bytes := [70; 10; 20; 30; 40] |}) /\
  livePreviewUrl (state photoShown) = Some 2%nat /\
  release_count 2%nat (browser photoShown) = 1%nat /\
  release_count 2%nat (browser s) = 2%nat /\
  origin O (trace (browser posterEncoding)) = Some (FromFile photo) /\
  previewUrl (state posterEncoding) = Some 4%nat /\
  livePreviewUrl (state posterEncoding) = Some 2%nat /\
  release_count O (browser posterEncoding) = O.
Proof. vm_compute. repeat split; reflexivity. Qed.

(** *** The revision with a cache *)

(** [convertImage] run through at once, spelled out. *)
Lemma cached_convertImage_unfold (codec : Codec) (file : File)
    (format : string) (quality : Z) (blobCache : gmap string Blob)
    (b : Browser) :
  CachedRevision.convertImage codec file format quality (blobCache, b)
  = match blobCache !! CachedRevision.cacheKey file format quality with
    | Some cachedBlob => (Resolved cachedBlob, (blobCache, b))
    | None =>
        let b := emit (CreateImageBitmap file) b in
        match decode codec file with
        | None => (Rejected CachedRevision.undecodable, (blobCache, b))
        | Some bitmap =>
            let canvas :=
              {| width := width bitmap; height := height bitmap;
                 pixels := pixels bitmap |} in
            let b := emit (ToBlob ("image/" +:+ format)
                                  (inject_Z quality / 100)%Q) b in
            match encode codec canvas ("image/" +:+ format)
                         (inject_Z quality / 100)%Q with
            | Some blob =>
                (Resolved blob,
                 (<[CachedRevision.cacheKey file format quality := blob]>
                    blobCache,
                  emit BitmapClose b))
            | None =>
                (Rejected "Failed to convert image",
                 (blobCache, emit BitmapClose b))
            end
        end
    end.
Proof.
  unfold CachedRevision.convertImage, CachedRevision.convertImage_start,
    CachedRevision.convertImage_bitmap, CachedRevision.convertImage_finish.
  destruct (blobCache !! _); [reflexivity|].
  destruct (decode codec file); reflexivity.
Qed.

(** X19: once a conversion has resolved, a request with the same file name,
    format and quality is answered from [blobCache], whatever the file holds,
    and neither the state nor the browser is touched. *)
Lemma cached_convertImage_repeat (codec : Codec) (file file' : File)
    (format : string) (quality : Z) (st st1 : gmap string Blob * Browser)
    (blob : Blob) :
  CachedRevision.convertImage codec file format quality st
  = (Resolved blob, st1) ->
  file_name file' = file_name file ->
  CachedRevision.convertImage codec file' format quality st1
  = (Resolved blob, st1).
Proof.
  intros Hrun Hname. destruct st as [blobCache b].
  rewrite cached_convertImage_unfold in Hrun. cbn zeta in Hrun.
  assert (Hkey : CachedRevision.cacheKey file' format quality
                 = CachedRevision.cacheKey file format quality).
  { unfold CachedRevision.cacheKey. rewrite Hname. reflexivity. }
  destruct (blobCache !! CachedRevision.cacheKey file format quality)
    as [cachedBlob|] eqn:Hhit.
  - inversion Hrun; subst.
    rewrite cached_convertImage_unfold, Hkey, Hhit. reflexivity.
  - destruct (decode codec file) as [bitmap|]; [|discriminate].
    destruct (encode codec _ _ _) as [blob'|]; [|discriminate].
    inversion Hrun; subst.
    rewrite cached_convertImage_unfold, Hkey, lookup_insert_eq. reflexivity.
Qed.

(** A request made before the first one has resolved, or after it has failed,
    finds the cache empty and runs the codec again. *)
Lemma cached_convertImage_miss (codec : Codec) (file : File)
    (format : string) (quality : Z) (blobCache : gmap string Blob)
    (b : Browser) :
  blobCache !! CachedRevision.cacheKey file format quality = None ->
  decodes (snd (snd (CachedRevision.convertImage
                       codec file format quality (blobCache, b))))
  = S (decodes b).
Proof.
  intros Hmiss. rewrite cached_convertImage_unfold, Hmiss. cbn zeta.
  destruct (decode codec file); [|reflexivity].
  destruct (encode codec _ _ _); reflexivity.
Qed.

Section Repeat.

Variable codec : Codec.




End Repeat.


(** ** The estimates of the two tables *)

(** X16: for every file the estimate for webp is the estimate for jpeg less
    five. *)
Theorem getAutoQuality_webp_below_jpeg (file : File) :
  getAutoQuality file "webp" = getAutoQuality file "jpeg" - 5.
Proof.
  rewrite !getAutoQuality_bytes.
  destruct (byte_tier (file_size file)); reflexivity.
Qed.

(** ** The name of a download *)

Lemma split_nonempty (sep : ascii) (s : string) : split sep s <> [].
Proof.
  destruct s as [|c rest]; cbn; [discriminate|].
  destruct (Ascii.eqb c sep); [discriminate|].
  destruct (split sep rest); discriminate.
Qed.

Lemma concat_cons_char (sep : string) (c : ascii) (p : string)
    (ps : list string) :
  String.concat sep (String c p :: ps) = String c (String.concat sep (p :: ps)).
Proof. destruct ps; reflexivity. Qed.

Lemma concat_split (sep : ascii) (s : string) :
  String.concat (String sep EmptyString) (split sep s) = s.
Proof.
  induction s as [|c rest IH]; [reflexivity|].
  cbn [split]. pose proof (split_nonempty sep rest) as Hn.
  destruct (split sep rest) as [|p ps]; [contradiction|].
  destruct (Ascii.eqb_spec c sep) as [->|Hne].
  - cbn [String.concat]. cbn [String.concat] in IH. cbn. rewrite IH.
    reflexivity.
  - rewrite concat_cons_char, IH. reflexivity.
Qed.

Lemma split_no_sep (sep : ascii) (s : string) :
  occurs sep s = false -> split sep s = [s].
Proof.
  induction s as [|c rest IH]; [reflexivity|].
  cbn. intros H. apply orb_false_elim in H as [Hc Hrest].
  rewrite Hc, (IH Hrest). reflexivity.
Qed.

Lemma split_app_sep (sep : ascii) (a b : string) :
  split sep (a +:+ String sep b) = (split sep a ++ split sep b)%list.
Proof.
  induction a as [|c rest IH].
  - change ("" +:+ String sep b) with (String sep b).
    cbn [split]. rewrite Ascii.eqb_refl. reflexivity.
  - change (String c rest +:+ String sep b)
      with (String c (rest +:+ String sep b)).
    cbn [split]. rewrite IH.
    destruct (Ascii.eqb c sep); [reflexivity|].
    pose proof (split_nonempty sep rest) as Hn.
    destruct (split sep rest); [contradiction|reflexivity].
Qed.

Lemma removelast_snoc {A} (l : list A) (x : A) : removelast (l ++ [x]) = l.
Proof. apply removelast_last. Qed.

(** X12: the name of a download is the name of the file up to its last dot: an
    extension without a dot is cut off together with the dot before it. *)
Theorem originalName_strips_extension (base ext : string) :
  occurs "."%char ext = false ->
  originalName (base +:+ "." +:+ ext) = base.
Proof.
  intros Hext. unfold originalName.
  change ("." +:+ ext) with (String "."%char ext).
  rewrite split_app_sep, (split_no_sep _ _ Hext), removelast_snoc.
  apply concat_split.
Qed.

(** X13: a file name without any dot has an empty [originalName]: the download
    of such a file is named by the format alone. *)
Theorem originalName_without_extension (name : string) :
  occurs "."%char name = false -> originalName name = "".
Proof.
  intros H. unfold originalName. rewrite (split_no_sep _ _ H). reflexivity.
Qed.

Lemma originalName_strips_extension_witness :
  occurs "."%char "jpeg" = false /\
  originalName ("holiday.2024" +:+ "." +:+ "jpeg") = "holiday.2024".
Proof.
  split; [reflexivity|].
  apply (originalName_strips_extension "holiday.2024" "jpeg"). reflexivity.
Defined.

Lemma originalName_without_extension_witness :
  occurs "."%char "README" = false /\ originalName "README" = "".
Proof.
  split; [reflexivity|].
  apply (originalName_without_extension "README"). reflexivity.
Defined.

(** ** Conversions of a decodable file *)

Lemma well_numbered_fresh : well_numbered freshBrowser.
Proof. intros u _. split; reflexivity. Qed.

(** X14: for a file the browser can decode, [convertImage] settles: with the
    blob the encoder made, or rejected with [Failed to convert image] when the
    encoder yields [null]; and either way every URL is as live afterwards as
    it was before, the URL of the file having been revoked. *)
Theorem convertImage_decodable (codec : Codec) (file : File)
    (format : string) (quality : Z) (b : Browser) (img : Raster) :
  decode codec file = Some img ->
  well_numbered b ->
  let run := convertImage codec file format quality b in
  fst run
  = match encode codec img ("image/" +:+ format)
                 (inject_Z quality / 100)%Q with
    | Some blob => Resolved blob
    | None => Rejected "Failed to convert image"
    end /\
  (forall u, live u (snd run) = live u b) /\
  well_numbered (snd run).
Proof.
  intros Hdec Hwf run. subst run.
  unfold convertImage, convertImage_load. cbn. rewrite Hdec.
  destruct img as [w h px]. cbn.
  split; [reflexivity|]. split.
  - intros u. unfold live. cbn -[Nat.eqb].
    destruct (Nat.eqb_spec (next_url b) u) as [<-|Hne]; cbn; [|reflexivity].
    rewrite (proj1 (Hwf (next_url b) (le_n _))). reflexivity.
  - intros u Hu. cbn -[Nat.eqb] in *.
    destruct (Hwf u ltac:(lia)) as [-> ->].
    replace (next_url b =? u)%nat with false
      by (symmetry; apply Nat.eqb_neq; lia).
    split; reflexivity.
Qed.

(** X15: for a file the browser can decode, [generatePreview] settles.  When
    the encoder made a blob, it resolves with one new URL, which stands for
    that blob and is the only URL to have become live; when it did not, it
    rejects and leaves no URL behind. *)
Theorem generatePreview_decodable (codec : Codec) (file : File)
    (format : string) (quality : Z) (b : Browser) (img : Raster) :
  decode codec file = Some img ->
  well_numbered b ->
  let run := generatePreview codec file format quality b in
  well_numbered (snd run) /\
  match encode codec img ("image/" +:+ format)
               (inject_Z quality / 100)%Q with
  | Some blob =>
      fst run = Resolved (S (next_url b)) /\
      origin (S (next_url b)) (trace (snd run)) = Some (FromBlob blob) /\
      forall u, live u (snd run)
                = if Nat.eqb u (S (next_url b)) then true else live u b
  | None =>
      fst run = Rejected "Failed to convert image" /\
      forall u, live u (snd run) = live u b
  end.
Proof.
  intros Hdec Hwf run. subst run.
  unfold generatePreview, convertImage, convertImage_load. cbn. rewrite Hdec.
  destruct img as [w h px]. cbn.
  destruct (Hwf (next_url b) (le_n _)) as [Hc0 _].
  destruct (Hwf (S (next_url b)) ltac:(lia)) as [_ Hr1].
  destruct (encode codec _ _ _) as [blob|]; cbn -[Nat.eqb].
  - split.
    { intros u Hu. cbn -[Nat.eqb] in *.
      destruct (Hwf u ltac:(lia)) as [-> ->].
      replace (next_url b =? u)%nat with false
        by (symmetry; apply Nat.eqb_neq; lia).
      replace (S (next_url b) =? u)%nat with false
        by (symmetry; apply Nat.eqb_neq; lia).
      split; reflexivity. }
    split; [reflexivity|]. rewrite Nat.eqb_refl. split; [reflexivity|].
    intros u. unfold live. cbn -[Nat.eqb].
    rewrite (Nat.eqb_sym u).
    destruct (Nat.eqb_spec (S (next_url b)) u) as [<-|Hne]; cbn -[Nat.eqb].
    + replace (next_url b =? S (next_url b))%nat with false
        by (symmetry; apply Nat.eqb_neq; lia).
      cbn. rewrite Hr1. reflexivity.
    + destruct (Nat.eqb_spec (next_url b) u) as [<-|Hne']; cbn.
      * rewrite Hc0. reflexivity.
      * reflexivity.
  - split.
    { intros u Hu. cbn -[Nat.eqb] in *.
      destruct (Hwf u ltac:(lia)) as [-> ->].
      replace (next_url b =? u)%nat with false
        by (symmetry; apply Nat.eqb_neq; lia).
      split; reflexivity. }
    split; [reflexivity|]. intros u. unfold live. cbn -[Nat.eqb].
    destruct (Nat.eqb_spec (next_url b) u) as [<-|Hne]; cbn.
    + rewrite Hc0. reflexivity.
    + reflexivity.
Qed.

Lemma convertImage_decodable_witness :
  let img := {| width := 2; height := 2; pixels := [10; 20; 30; 40] |} in
  let run := convertImage sampleCodec photo "jpeg" 70 freshBrowser in
  decode sampleCodec photo = Some img /\
  well_numbered freshBrowser /\
  fst run
  = match encode sampleCodec img "image/jpeg" (inject_Z 70 / 100)%Q with
    | Some blob => Resolved blob
    | None => Rejected "Failed to convert image"
    end /\
  (forall u, live u (snd run) = live u freshBrowser) /\
  well_numbered (snd run).
Proof.
  cbn zeta.
  split; [reflexivity|].
  split; [apply well_numbered_fresh|].
  apply (convertImage_decodable sampleCodec photo "jpeg" 70 freshBrowser
           {| width := 2; height := 2; pixels := [10; 20; 30; 40] |}).
  - reflexivity.
  - apply well_numbered_fresh.
Defined.

Lemma generatePreview_decodable_witness :
  let run := generatePreview sampleCodec photo "jpeg" 70 freshBrowser in
  decode sampleCodec photo
  = Some {| width := 2; height := 2; pixels := [10; 20; 30; 40] |} /\
  well_numbered freshBrowser /\
  well_numbered (snd run) /\
  fst run = Resolved 1%nat /\
  origin 1%nat (trace (snd run))
  = Some (FromBlob {| blob_type := "image/jpeg";
                      blob_bytes := [70; 10; 20; 30; 40] |}) /\
  forall u, live u (snd run)
            = if Nat.eqb u 1 then true else live u freshBrowser.
Proof.
  cbn zeta.
  split; [reflexivity|].
  split; [apply well_numbered_fresh|].
  apply (generatePreview_decodable sampleCodec photo "jpeg" 70 freshBrowser
           {| width := 2; height := 2; pixels := [10; 20; 30; 40] |}).
  - reflexivity.
  - apply well_numbered_fresh.
Defined.

(** ** Choosing a file *)

Section Choosing.
Variable codec : Codec.

(** X1: choosing a file of more than 20MB only sets the error message: the
    file chosen before, its previews and the settings stay, and the browser is
    asked for nothing. *)
Theorem oversized_file_is_rejected (s : Session) (file : File) :
  settled s ->
  maxSize < file_size file ->
  let s' := step codec s (FileChange (Some file)) in
  state s' = setError (Some "File size exceeds 20MB limit") (state s) /\
  browser s' = browser s /\
  tasks s' = tasks s.
Proof.
  intros Hs Hsize s'. subst s'. unfold step, handle, handleFileChange.
  rewrite (proj2 (Z.ltb_lt _ _) Hsize).
  rewrite render_settled by exact Hs.
  repeat split.
Qed.

Lemma run_effects_tasks (s : Session) :
  tasks (run_effects s)
  = if bool_decide (preview_deps (effects s) = Some (previewDeps (state s)))
    then tasks s
    else tasks (updateLivePreview (state s)
                  (with_browser
                     (revoke_if (preview_cleanup (effects s)) (browser s))
                     s)).
Proof.
  unfold run_effects.
  destruct (bool_decide (quality_deps (effects s) = _)); cbn [negb];
    case_bool_decide as Hd; cbn [negb];
    unfold updateLivePreview, autoQualityEffect;
    destruct (selectedFile (state s));
    try destruct (supportsQuality (state s));
    try destruct (autoQuality (state s)); reflexivity.
Qed.

(** X2: choosing a file of at most 20MB, with a format that has a quality,
    clears the error, selects the file under a fresh URL that stands for the
    file, sets the quality to the estimate if [autoQuality] is on, and starts
    exactly one conversion for the live preview, with the format and the
    quality of the new state. *)
Theorem chosen_file_is_previewed (s : Session) (file : File) :
  reachable codec s ->
  file_size file <= maxSize ->
  supportsQuality (state s) = true ->
  let s' := step codec s (FileChange (Some file)) in
  let u := next_url (browser s) in
  state s'
  = setQuality (chosenQuality file (state s))
      (setPreviewUrl (Some u)
         (setSelectedFile (Some file) (setError None (state s)))) /\
  origin u (trace (browser s')) = Some (FromFile file) /\
  tasks s'
  = (tasks s
     ++ [ {| caller := LivePreview;
             conv := {| objectUrl := S u; conv_file := file;
                        conv_format := format (state s);
                        conv_quality := chosenQuality file (state s) |};
             stage := AwaitLoad |} ])%list.
Proof.
  intros Hr Hsize Hsup s' u. subst s'.
  pose proof (reachable_settled codec s Hr) as Hs.
  destruct (reachable_minted codec s Hr) as [_ Hp].
  unfold step, handle, handleFileChange.
  rewrite (proj2 (Z.ltb_ge _ _) Hsize).
  cbn [createObjectURL with_browser with_state state browser tasks effects].
  fold u.
  set (s1 := if autoQuality (state s) then _ else _).
  assert (Hst1 : state s1
                 = setQuality (chosenQuality file (state s))
                     (setPreviewUrl (Some u)
                        (setSelectedFile (Some file)
                           (setError None (state s))))).
  { subst s1. unfold chosenQuality. destruct (autoQuality (state s)); cbn;
      [reflexivity|]. destruct (state s); reflexivity. }
  assert (He1 : effects s1 = effects s)
    by (subst s1; destruct (autoQuality (state s)); reflexivity).
  assert (Ht1 : tasks s1 = tasks s)
    by (subst s1; destruct (autoQuality (state s)); reflexivity).
  assert (Hb1 : browser s1
                = {| next_url := S u;
                     trace := CreateObjectURL u (FromFile file)
                              :: trace (browser s) |})
    by (subst s1; destruct (autoQuality (state s)); reflexivity).
  assert (Hp1 : bool_decide
                  (preview_deps (effects s1) = Some (previewDeps (state s1)))
                = false).
  { apply bool_decide_eq_false_2. rewrite He1, (proj1 Hs), Hst1. intros E.
    apply (f_equal (fun o => match o with
                             | Some d => snd (fst d)
                             | None => None
                             end)) in E.
    cbv beta iota delta [previewDeps snd fst] in E. cbn in E.
    specialize (Hp _ E). fold u in Hp. lia. }
  assert (Hstate : state (run_effects s1) = state s1).
  { rewrite run_effects_state, Hp1. unfold effects_state, has_file.
    replace (supportsQuality (state s1)) with true
      by (rewrite Hst1; symmetry; exact Hsup).
    replace (selectedFile (state s1)) with (Some file)
      by (rewrite Hst1; reflexivity).
    cbn [negb andb].
    destruct (negb _); cbn [andb]; [|reflexivity].
    rewrite Hst1. unfold chosenQuality.
    destruct (autoQuality (state s)) eqn:Ha; cbn; rewrite ?Ha; reflexivity. }
  unfold render. cbn [commit].
  rewrite (bool_decide_eq_true_2 _ Hstate).
  split; [rewrite Hstate; exact Hst1|].
  destruct (run_effects_preview s1) as [(Hd & _)|(_ & _ & _ & Hb)].
  { apply bool_decide_eq_false_1 in Hp1. contradiction. }
  rewrite run_effects_tasks, Hp1, Hb.
  unfold updateLivePreview.
  replace (supportsQuality (state s1)) with true
    by (rewrite Hst1; symmetry; exact Hsup).
  replace (selectedFile (state s1)) with (Some file)
    by (rewrite Hst1; reflexivity).
  replace (format (state s1)) with (format (state s))
    by (rewrite Hst1; reflexivity).
  replace (quality (state s1)) with (chosenQuality file (state s))
    by (rewrite Hst1; reflexivity).
  replace (livePreviewUrl (state s1)) with (livePreviewUrl (state s))
    by (rewrite Hst1; reflexivity).
  cbn -[Nat.eqb]. rewrite Ht1, Hb1.
  destruct (preview_cleanup (effects s1)), (livePreviewUrl (state s));
    cbn -[Nat.eqb];
    replace (S u =? u)%nat with false by (symmetry; apply Nat.eqb_neq; lia);
    rewrite Nat.eqb_refl; split; reflexivity.
Qed.

End Choosing.

Lemma oversized_file_is_rejected_witness :
  let s' := step sampleCodec photoShown (FileChange (Some scan)) in
  settled photoShown /\
  maxSize < file_size scan /\
  state s'
  = setError (Some "File size exceeds 20MB limit") (state photoShown) /\
  browser s' = browser photoShown /\
  tasks s' = tasks photoShown.
Proof.
  cbn zeta.
  assert (Hs : settled photoShown) by (split; vm_compute; reflexivity).
  split; [exact Hs|].
  split; [reflexivity|].
  apply (oversized_file_is_rejected sampleCodec photoShown scan Hs).
  reflexivity.
Defined.

Lemma chosen_file_is_previewed_witness :
  let s' := step sampleCodec mounted (FileChange (Some photo)) in
  reachable sampleCodec mounted /\
  file_size photo <= maxSize /\
  supportsQuality (state mounted) = true /\
  state s'
  = setQuality 70
      (setPreviewUrl (Some 0%nat)
         (setSelectedFile (Some photo) (setError None (state mounted)))) /\
  origin 0%nat (trace (browser s')) = Some (FromFile photo) /\
  tasks s'
  = [ {| caller := LivePreview;
         conv := {| objectUrl := 1%nat; conv_file := photo;
                    conv_format := "jpeg"; conv_quality := 70 |};
         stage := AwaitLoad |} ].
Proof.
  cbn zeta.
  assert (Hr : reachable sampleCodec mounted) by constructor.
  split; [exact Hr|].
  split; [vm_compute; discriminate|].
  split; [reflexivity|].
  apply (chosen_file_is_previewed sampleCodec mounted photo Hr).
  - vm_compute. discriminate.
  - reflexivity.
Defined.

(** ** The quality *)

Lemma effects_state_auto_run (r : bool) (st : State) :
  auto_quality_holds (effects_state r true st).
Proof.
  intros file Ha Hf. unfold effects_state in *.
  destruct (selectedFile st) as [f|] eqn:Hsel.
  - cbn [andb] in *. destruct (autoQuality st) eqn:Hauto.
    + destruct (r && _); cbn in *; congruence.
    + destruct (r && _); cbn in *; congruence.
  - destruct (r && _); cbn in *; congruence.
Qed.

Lemma effects_state_auto_keep (r : bool) (st : State) :
  auto_quality_holds st -> auto_quality_holds (effects_state r false st).
Proof.
  intros H file Ha Hf. rewrite effects_state_no_quality in *.
  destruct (r && _); [|exact (H file Ha Hf)].
  exact (H file Ha Hf).
Qed.

Lemma run_effects_auto (s : Session) :
  auto_quality_pending s -> auto_quality_pending (run_effects s).
Proof.
  intros H _. rewrite run_effects_state.
  destruct (bool_decide (quality_deps (effects s) = _)) eqn:Hq; cbn [negb].
  - apply effects_state_auto_keep, H. exact (bool_decide_eq_true_1 _ Hq).
  - apply effects_state_auto_run.
Qed.

Section AutoQuality.
Variable codec : Codec.

Lemma handle_auto (a : Action) (s : Session) :
  settled s -> auto_quality_holds (state s) ->
  auto_quality_pending (handle codec a s).
Proof.
  intros [_ Hs] H Hq.
  assert (He : effects (handle codec a s) = effects s)
    by apply handle_grows.
  rewrite He, Hs in Hq.
  assert (Hfile : selectedFile (state s)
                  = selectedFile (state (handle codec a s)))
    by (injection Hq; unfold qualityDeps; congruence).
  assert (Hfmt : format (state s) = format (state (handle codec a s)))
    by (injection Hq; unfold qualityDeps; congruence).
  assert (Hauto : autoQuality (state s)
                  = autoQuality (state (handle codec a s)))
    by (injection Hq; unfold qualityDeps; congruence).
  clear Hq.
  intros file Ha Hf. rewrite <- Hfmt.
  rewrite <- Hauto in Ha. rewrite <- Hfile in Hf. clear He.
  destruct a; cbn in *.
  - unfold handleFileChange in *. destruct files as [f|]; cbn in *;
      [|apply H; congruence].
    destruct (maxSize <? file_size f); cbn in *; [apply H; congruence|].
    rewrite Ha in *. cbn in *. congruence.
  - apply H; congruence.
  - destruct (supportsQuality (state s)); apply H; congruence.
  - destruct (supportsQuality (state s)); cbn in *;
      [congruence|apply H; congruence].
  - destruct (converting (state s)); [apply H; congruence|].
    unfold handleConvert.
    destruct (selectedFile (state s)) eqn:?; cbn; apply H; congruence.
  - unfold imageSettled. destruct (tasks s !! i) as [t|];
      [|apply H; congruence].
    destruct (stage t); try (apply H; congruence).
    unfold convertImage_load. destruct (decode codec _); cbn;
      apply H; congruence.
  - unfold blobCallback. destruct (tasks s !! i) as [t|];
      [|apply H; congruence].
    destruct (stage t); try (apply H; congruence).
    unfold convertImage_finish.
    destruct (caller t), (encode codec _ _ _); cbn; apply H; congruence.
Qed.

(** X3: while [autoQuality] is on and a file is chosen, the quality is the
    estimate for that file and the current format, in every state the page can
    reach. *)
Theorem auto_quality_is_kept (s : Session) (file : File) :
  reachable codec s ->
  autoQuality (state s) = true ->
  selectedFile (state s) = Some file ->
  quality (state s) = getAutoQuality file (format (state s)).
Proof.
  intros Hr. revert file.
  change (auto_quality_holds (state s)).
  induction Hr as [|s a Hr IH].
  - intros file _ H. discriminate H.
  - pose proof (render_settles (handle codec a s)) as Hs.
    apply (commit_invariant auto_quality_pending run_effects_auto 4
             (handle codec a s)).
    + apply handle_auto; [apply (reachable_settled codec), Hr|exact IH].
    + apply Hs.
Qed.
End AutoQuality.

Lemma auto_quality_is_kept_witness :
  reachable sampleCodec photoShown /\
  autoQuality (state photoShown) = true /\
  selectedFile (state photoShown) = Some photo /\
  quality (state photoShown)
  = getAutoQuality photo (format (state photoShown)).
Proof.
  assert (Hr : reachable sampleCodec photoShown)
    by (apply run_reachable; constructor).
  split; [exact Hr|].
  split; [vm_compute; reflexivity|].
  split; [vm_compute; reflexivity|].
  apply (auto_quality_is_kept sampleCodec photoShown photo Hr);
    vm_compute; reflexivity.
Defined.

Lemma getAutoQuality_percent (file : File) (format : string) :
  percent (getAutoQuality file format).
Proof.
  unfold percent. rewrite getAutoQuality_bytes.
  pose proof (tier_quality_range format (byte_tier (file_size file))). lia.
Qed.

Lemma updateLivePreview_range (st : State) (s : Session) :
  percent (quality st) -> quality (state s) = quality st ->
  qualities_in_range s -> qualities_in_range (updateLivePreview st s).
Proof.
  intros Hq Heq [H1 H2]. unfold updateLivePreview.
  destruct (selectedFile st); [destruct (supportsQuality st)|];
    cbn; split; try assumption.
  apply Forall_app. split; [assumption|]. constructor; [exact Hq|constructor].
Qed.

Lemma run_effects_range (s : Session) :
  qualities_in_range s -> qualities_in_range (run_effects s).
Proof.
  intros [H1 H2]. unfold run_effects.
  set (st := state s).
  assert (Hup : forall s0, quality (state s0) = quality st ->
                  tasks s0 = tasks s ->
                  qualities_in_range (updateLivePreview st s0)).
  { intros s0 E1 E2. apply updateLivePreview_range; try assumption.
    split; [rewrite E1|rewrite E2]; assumption. }
  assert (Hauto : forall s0, qualities_in_range s0 ->
                    qualities_in_range (autoQualityEffect st s0)).
  { intros s0 [G1 G2]. unfold autoQualityEffect.
    destruct (selectedFile st); [destruct (autoQuality st)|];
      split; try assumption. apply getAutoQuality_percent. }
  destruct (negb (bool_decide (preview_deps _ = _))),
           (negb (bool_decide (quality_deps _ = _))).
  - apply Hauto. apply Hup; reflexivity.
  - apply Hup; reflexivity.
  - apply Hauto. split; assumption.
  - split; assumption.
Qed.

Section Range.
Variable codec : Codec.

Lemma handle_range (a : Action) (s : Session) :
  slider_value a -> qualities_in_range s ->
  qualities_in_range (handle codec a s).
Proof.
  intros Ha [H1 H2]. destruct a; cbn in *.
  - unfold handleFileChange. destruct files as [f|]; [|split; assumption].
    destruct (maxSize <? file_size f); [split; assumption|].
    destruct (autoQuality (state s)); split; try assumption.
    apply getAutoQuality_percent.
  - split; assumption.
  - destruct (supportsQuality (state s)); split; assumption.
  - destruct (supportsQuality (state s)); split; assumption.
  - destruct (converting (state s)); [split; assumption|].
    unfold handleConvert. destruct (selectedFile (state s)); cbn;
      split; try assumption.
    apply Forall_app. split; [assumption|]. constructor; [exact H1|constructor].
  - unfold imageSettled. destruct (tasks s !! i) as [t|] eqn:Ht;
      [|split; assumption].
    pose proof (Forall_lookup_1 _ _ _ _ H2 Ht) as Hq.
    destruct (stage t); try (split; assumption).
    unfold convertImage_load. destruct (decode codec _); cbn;
      (split; [assumption|apply Forall_insert; assumption]).
  - unfold blobCallback. destruct (tasks s !! i) as [t|] eqn:Ht;
      [|split; assumption].
    pose proof (Forall_lookup_1 _ _ _ _ H2 Ht) as Hq.
    destruct (stage t); try (split; assumption).
    unfold convertImage_finish.
    destruct (caller t), (encode codec _ _ _); cbn;
      (split; [assumption|apply Forall_insert; assumption]).
Qed.

(** X4: as long as the slider delivers values from 1 to 100, the quality of
    the page and the quality of every conversion it has started lie between 1
    and 100. *)
Theorem qualities_stay_in_range (actions : list Action) :
  Forall slider_value actions ->
  let s := run codec actions mounted in
  1 <= quality (state s) <= 100 /\
  Forall (fun t => 1 <= conv_quality (conv t) <= 100) (tasks s).
Proof.
  intros Hok. cbn zeta.
  change (qualities_in_range (run codec actions mounted)).
  assert (H0 : qualities_in_range mounted).
  { split; [vm_compute; split; discriminate|constructor]. }
  revert H0. generalize mounted.
  induction Hok as [|a actions Ha _ IH]; intros s Hs; [exact Hs|].
  change (run codec (a :: actions) s)
    with (run codec actions (step codec s a)).
  apply IH. unfold step, render.
  apply (commit_invariant qualities_in_range run_effects_range).
  apply handle_range; assumption.
Qed.
End Range.

Lemma qualities_stay_in_range_witness :
  let actions :=
    [FileChange (Some photo); QualityChange 40; FormatChange "webp"] in
  let s := run sampleCodec actions mounted in
  Forall slider_value actions /\
  1 <= quality (state s) <= 100 /\
  Forall (fun t => 1 <= conv_quality (conv t) <= 100) (tasks s).
Proof.
  cbn zeta.
  assert (Ha : Forall slider_value
                 [FileChange (Some photo); QualityChange 40;
                  FormatChange "webp"])
    by (repeat constructor; cbn; lia).
  split; [exact Ha|].
  apply (qualities_stay_in_range sampleCodec
           [FileChange (Some photo); QualityChange 40; FormatChange "webp"]
           Ha).
Defined.

(** ** Downloads *)

Section Download.
Variable codec : Codec.

Lemma submit_step (s : Session) (file : File) :
  settled s ->
  selectedFile (state s) = Some file ->
  converting (state s) = false ->
  step codec s Submit
  = {| state := setConverting true (state s);
       effects := effects s;
       tasks := tasks s
                ++ [ {| caller := Download (file_name file) (format (state s));
                        conv := {| objectUrl := next_url (browser s);
                                   conv_file := file;
                                   conv_format := format (state s);
                                   conv_quality := quality (state s) |};
                        stage := AwaitLoad |} ];
       browser := {| next_url := S (next_url (browser s));
                     trace := ImgSrc (next_url (browser s))
                              :: CreateObjectURL (next_url (browser s))
                                                 (FromFile file)
                              :: trace (browser s) |} |}.
Proof.
  intros Hs Hfile Hconv. unfold step, handle, handleConvert.
  rewrite Hconv, Hfile. apply render_settled. exact Hs.
Qed.

Lemma image_loaded_step (s : Session) (i : nat) (t : Task) (img : Raster) :
  settled s ->
  tasks s !! i = Some t ->
  stage t = AwaitLoad ->
  decode codec (conv_file (conv t)) = Some img ->
  step codec s (ImageSettled i)
  = {| state := state s;
       effects := effects s;
       tasks := <[i := set_stage (AwaitBlob img) t]> (tasks s);
       browser := emit (ToBlob ("image/" +:+ conv_format (conv t))
                               (inject_Z (conv_quality (conv t)) / 100)%Q)
                       (browser s) |}.
Proof.
  intros Hs Ht Hst Hdec. unfold step, handle, imageSettled, convertImage_load.
  rewrite Ht, Hst, Hdec. destruct img. apply render_settled. exact Hs.
Qed.

Lemma image_failed_step (s : Session) (i : nat) (t : Task) :
  settled s ->
  tasks s !! i = Some t ->
  stage t = AwaitLoad ->
  decode codec (conv_file (conv t)) = None ->
  step codec s (ImageSettled i)
  = {| state := state s;
       effects := effects s;
       tasks := <[i := set_stage Hung t]> (tasks s);
       browser := browser s |}.
Proof.
  intros Hs Ht Hst Hdec. unfold step, handle, imageSettled, convertImage_load.
  rewrite Ht, Hst, Hdec. apply render_settled. exact Hs.
Qed.

Lemma download_ready_step (s : Session) (i : nat) (t : Task)
    (name fmt : string) (canvas : Raster) (blob : Blob) :
  settled s ->
  tasks s !! i = Some t ->
  caller t = Download name fmt ->
  stage t = AwaitBlob canvas ->
  encode codec canvas ("image/" +:+ conv_format (conv t))
         (inject_Z (conv_quality (conv t)) / 100)%Q = Some blob ->
  step codec s (BlobCallback i)
  = {| state := setConverting false (state s);
       effects := effects s;
       tasks := <[i := set_stage Finished t]> (tasks s);
       browser :=
         {| next_url := S (next_url (browser s));
            trace := RevokeObjectURL (next_url (browser s))
                     :: Click (originalName name +:+ "-" +:+ fmt)
                              (next_url (browser s))
                     :: CreateObjectURL (next_url (browser s)) (FromBlob blob)
                     :: RevokeObjectURL (objectUrl (conv t))
                     :: trace (browser s) |} |}.
Proof.
  intros Hs Ht Hc Hst Henc.
  unfold step, handle, blobCallback, convertImage_finish.
  rewrite Ht, Hst, Henc, Hc. apply render_settled. exact Hs.
Qed.

(** X5: pressing the button for a file that decodes and encodes: after the
    image has loaded and the encoder has answered, the page is in the state it
    was in before, and the browser has been asked, in this order, for a URL of
    the file, to load it, to encode, to revoke that URL, for a URL of the
    blob, to click a link to it named [originalName-format], and to revoke the
    URL of the blob. *)
Theorem download_delivers_conversion (s : Session) (file : File)
    (img : Raster) (blob : Blob) :
  settled s ->
  selectedFile (state s) = Some file ->
  converting (state s) = false ->
  decode codec file = Some img ->
  encode codec img ("image/" +:+ format (state s))
         (inject_Z (quality (state s)) / 100)%Q = Some blob ->
  let n := length (tasks s) in
  let u := next_url (browser s) in
  let s' := run codec [Submit; ImageSettled n; BlobCallback n] s in
  state s' = state s /\
  trace (browser s')
  = RevokeObjectURL (S u)
    :: Click (originalName (file_name file) +:+ "-" +:+ format (state s)) (S u)
    :: CreateObjectURL (S u) (FromBlob blob)
    :: RevokeObjectURL u
    :: ToBlob ("image/" +:+ format (state s))
              (inject_Z (quality (state s)) / 100)%Q
    :: ImgSrc u
    :: CreateObjectURL u (FromFile file)
    :: trace (browser s).
Proof.
  intros Hs Hfile Hconv Hdec Henc n u s'. subst s'.
  unfold run, fold_left.
  rewrite (submit_step s file Hs Hfile Hconv).
  erewrite image_loaded_step;
    [ | exact Hs | apply (list_lookup_middle _ []); reflexivity
      | reflexivity | exact Hdec ].
  erewrite download_ready_step;
    [ | exact Hs
      | apply list_lookup_insert_eq; cbn; rewrite length_app; cbn; lia
      | reflexivity | reflexivity | exact Henc ].
  cbn. split; [|reflexivity].
  destruct (state s); cbn in *; subst; reflexivity.
Qed.

End Download.

Lemma download_delivers_conversion_witness :
  let s' :=
    run sampleCodec [Submit; ImageSettled 2%nat; BlobCallback 2%nat]
        photoShown in
  settled photoShown /\
  selectedFile (state photoShown) = Some photo /\
  converting (state photoShown) = false /\
  state s' = state photoShown /\
  trace (browser s')
  = RevokeObjectURL 5%nat
    :: Click "photo-jpeg" 5%nat
    :: CreateObjectURL 5%nat
         (FromBlob {| blob_type := "image/jpeg";
                      blob_bytes := [70; 10; 20; 30; 40] |})
    :: RevokeObjectURL 4%nat
    :: ToBlob "image/jpeg" (inject_Z 70 / 100)%Q
    :: ImgSrc 4%nat
    :: CreateObjectURL 4%nat (FromFile photo)
    :: trace (browser photoShown).
Proof.
  cbn zeta.
  assert (Hs : settled photoShown) by (split; vm_compute; reflexivity).
  split; [exact Hs|].
  split; [vm_compute; reflexivity|].
  split; [vm_compute; reflexivity|].
  apply (download_delivers_conversion sampleCodec photoShown photo
           {| width := 2; height := 2; pixels := [10; 20; 30; 40] |}
           {| blob_type := "image/jpeg"; blob_bytes := [70; 10; 20; 30; 40] |}
           Hs);
    vm_compute; reflexivity.
Defined.

Lemma downloads_in_flight_app (ts us : list Task) :
  downloads_in_flight (ts ++ us)
  = (downloads_in_flight ts + downloads_in_flight us)%nat.
Proof.
  unfold downloads_in_flight. rewrite List.filter_app, length_app. reflexivity.
Qed.

Lemma downloads_in_flight_insert (ts : list Task) (i : nat) (t t' : Task) :
  ts !! i = Some t ->
  (downloads_in_flight (<[i := t']> ts)
   + (if download_in_flight t then 1 else 0)
   = downloads_in_flight ts
     + (if download_in_flight t' then 1 else 0))%nat.
Proof.
  revert i. induction ts as [|x ts IH]; intros i Hi; [discriminate Hi|].
  destruct i as [|i]; cbn in Hi.
  - injection Hi as ->. unfold downloads_in_flight.
    cbn -[download_in_flight].
    destruct (download_in_flight t), (download_in_flight t');
      cbn [length]; lia.
  - specialize (IH i Hi). unfold downloads_in_flight in *.
    change (<[S i:=t']> (x :: ts)) with (x :: <[i:=t']> ts).
    cbn [List.filter].
    destruct (download_in_flight x); cbn [length]; lia.
Qed.

Lemma updateLivePreview_tasks (st : State) (s : Session) :
  tasks (updateLivePreview st s) = tasks s \/
  exists c, tasks (updateLivePreview st s)
            = (tasks s ++ [ {| caller := LivePreview; conv := c;
                               stage := AwaitLoad |} ])%list.
Proof.
  unfold updateLivePreview.
  destruct (selectedFile st); [destruct (supportsQuality st)|];
    cbn; eauto.
Qed.

Lemma run_effects_one_download (s : Session) :
  one_download s -> one_download (run_effects s).
Proof.
  unfold one_download. intros H.
  assert (Hc : converting (state (run_effects s)) = converting (state s)).
  { rewrite run_effects_state. unfold effects_state.
    destruct (_ && negb _), (selectedFile (state s));
      try destruct (_ && autoQuality _); reflexivity. }
  rewrite Hc, <- H. clear.
  rewrite run_effects_tasks. case_bool_decide; [reflexivity|].
  destruct (updateLivePreview_tasks (state s)
              (with_browser
                 (revoke_if (preview_cleanup (effects s)) (browser s)) s))
    as [->|[c ->]]; [reflexivity|].
  cbn [tasks with_browser]. rewrite downloads_in_flight_app.
  unfold downloads_in_flight at 2. cbn. lia.
Qed.

Section OneDownload.
Variable codec : Codec.

Lemma handle_one_download (a : Action) (s : Session) :
  one_download s -> one_download (handle codec a s).
Proof.
  unfold one_download. intros H. destruct a; cbn -[downloads_in_flight].
  - unfold handleFileChange. destruct files as [f|]; [|exact H].
    destruct (maxSize <? file_size f); [exact H|].
    destruct (autoQuality (state s)); exact H.
  - exact H.
  - destruct (supportsQuality (state s)); exact H.
  - destruct (supportsQuality (state s)); exact H.
  - destruct (converting (state s)) eqn:Hc; [rewrite Hc; exact H|].
    unfold handleConvert. destruct (selectedFile (state s));
      cbn -[downloads_in_flight];
      [|rewrite Hc; exact H].
    rewrite downloads_in_flight_app, H. reflexivity.
  - unfold imageSettled. destruct (tasks s !! i) as [t|] eqn:Ht; [|exact H].
    destruct (stage t) eqn:Hst; try exact H.
    unfold convertImage_load.
    destruct (decode codec _); cbn -[downloads_in_flight];
      match goal with
      | |- downloads_in_flight (<[_ := ?t']> _) = _ =>
          pose proof (downloads_in_flight_insert (tasks s) i t t' Ht) as Hi
      end;
      unfold download_in_flight in Hi; cbn in Hi; rewrite Hst in Hi;
      destruct (caller t); lia.
  - unfold blobCallback. destruct (tasks s !! i) as [t|] eqn:Ht; [|exact H].
    destruct (stage t) eqn:Hst; try exact H.
    unfold convertImage_finish.
    pose proof (downloads_in_flight_insert (tasks s) i t
                  (set_stage Finished t) Ht) as Hi.
    unfold download_in_flight in Hi; cbn in Hi; rewrite Hst in Hi.
    destruct (caller t), (encode codec _ _ _); cbn -[downloads_in_flight];
      destruct (converting (state s)); lia.
Qed.

Lemma reachable_one_download (s : Session) :
  reachable codec s -> one_download s.
Proof.
  induction 1 as [|s a _ IH]; [reflexivity|].
  apply (commit_invariant one_download run_effects_one_download).
  apply handle_one_download, IH.
Qed.

(** X6: in every state the page can reach, the conversions for a download that
    have not come back are one while [converting] is set and none
    otherwise. *)
Theorem one_download_at_a_time (s : Session) :
  reachable codec s ->
  downloads_in_flight (tasks s)
  = if converting (state s) then 1%nat else 0%nat.
Proof. exact (reachable_one_download s). Qed.

End OneDownload.

Lemma one_download_at_a_time_witness :
  reachable sampleCodec posterDownload /\
  downloads_in_flight (tasks posterDownload)
  = if converting (state posterDownload) then 1%nat else 0%nat.
Proof.
  assert (Hr : reachable sampleCodec posterDownload)
    by (apply run_reachable; constructor).
  split; [exact Hr|].
  apply (one_download_at_a_time sampleCodec posterDownload Hr).
Defined.

Lemma downloads_in_flight_lookup (ts : list Task) (i : nat) (t : Task) :
  ts !! i = Some t -> download_in_flight t = true ->
  (1 <= downloads_in_flight ts)%nat.
Proof.
  intros Hi Ht.
  pose proof (downloads_in_flight_insert ts i t t Hi) as H.
  apply list_elem_of_lookup_2 in Hi. apply list_elem_of_In in Hi.
  unfold downloads_in_flight.
  assert (Hin : In t (List.filter download_in_flight ts))
    by (apply List.filter_In; auto).
  destruct (List.filter download_in_flight ts); [contradiction|cbn; lia].
Qed.

Lemma run_effects_keeps_task (i : nat) (t : Task) (s : Session) :
  tasks s !! i = Some t -> tasks (run_effects s) !! i = Some t.
Proof.
  intros H. rewrite run_effects_tasks. case_bool_decide; [exact H|].
  destruct (updateLivePreview_tasks (state s)
              (with_browser
                 (revoke_if (preview_cleanup (effects s)) (browser s)) s))
    as [->|[c ->]]; [exact H|].
  apply lookup_app_l_Some. exact H.
Qed.

Section HungDownload.
Variable codec : Codec.

Lemma handle_keeps_hung (a : Action) (s : Session) (i : nat) (t : Task) :
  tasks s !! i = Some t -> stage t = Hung ->
  tasks (handle codec a s) !! i = Some t.
Proof.
  intros Hi Hst. destruct a; cbn.
  - unfold handleFileChange. destruct files as [f|]; [|exact Hi].
    destruct (maxSize <? file_size f); [exact Hi|].
    destruct (autoQuality (state s)); exact Hi.
  - exact Hi.
  - destruct (supportsQuality (state s)); exact Hi.
  - destruct (supportsQuality (state s)); exact Hi.
  - destruct (converting (state s)); [exact Hi|].
    unfold handleConvert. destruct (selectedFile (state s)); cbn;
      [apply lookup_app_l_Some|]; exact Hi.
  - unfold imageSettled. destruct (tasks s !! i0) as [t'|] eqn:Ht'; [|exact Hi].
    destruct (stage t') eqn:Hst'; try exact Hi.
    assert (i0 <> i) by (intros ->; congruence).
    unfold convertImage_load. destruct (decode codec _); cbn;
      rewrite list_lookup_insert_ne by assumption; exact Hi.
  - unfold blobCallback. destruct (tasks s !! i0) as [t'|] eqn:Ht'; [|exact Hi].
    destruct (stage t') eqn:Hst'; try exact Hi.
    assert (i0 <> i) by (intros ->; congruence).
    unfold convertImage_finish.
    destruct (caller t'), (encode codec _ _ _); cbn;
      rewrite list_lookup_insert_ne by assumption; exact Hi.
Qed.

Lemma run_cons (a : Action) (actions : list Action) (s : Session) :
  run codec (a :: actions) s = run codec actions (step codec s a).
Proof. reflexivity. Qed.

Lemma run_keeps_hung (actions : list Action) (s : Session) (i : nat)
    (t : Task) :
  tasks s !! i = Some t -> stage t = Hung ->
  tasks (run codec actions s) !! i = Some t.
Proof.
  revert s. induction actions as [|a actions IH]; intros s Hi Hst;
    [exact Hi|].
  rewrite run_cons.
  apply IH; [|exact Hst]. unfold step, render.
  apply (commit_invariant (fun s => tasks s !! i = Some t)
           (run_effects_keeps_task i t)).
  apply handle_keeps_hung; assumption.
Qed.

(** X7: pressing the button for a file the browser cannot decode leaves
    [converting] set for good: whatever happens afterwards, the flag stays set
    and pressing the button does nothing. *)
Theorem undecodable_download_blocks_button (s : Session) (file : File)
    (actions : list Action) :
  reachable codec s ->
  selectedFile (state s) = Some file ->
  converting (state s) = false ->
  decode codec file = None ->
  let s' :=
    run codec (Submit :: ImageSettled (length (tasks s)) :: actions) s in
  converting (state s') = true /\
  step codec s' Submit = s'.
Proof.
  intros Hr Hfile Hconv Hdec s'.
  pose proof (reachable_settled codec s Hr) as Hs.
  set (t := {| caller := Download (file_name file) (format (state s));
               conv := {| objectUrl := next_url (browser s);
                          conv_file := file;
                          conv_format := format (state s);
                          conv_quality := quality (state s) |};
               stage := Hung |}).
  assert (Hr' : reachable codec s') by (apply run_reachable, Hr).
  assert (Ht : tasks s' !! length (tasks s) = Some t).
  { subst s'. rewrite !run_cons.
    apply run_keeps_hung; [|reflexivity].
    rewrite (submit_step codec s file Hs Hfile Hconv).
    erewrite (image_failed_step codec);
      [ | exact Hs | apply (list_lookup_middle _ []); reflexivity
        | reflexivity | exact Hdec ].
    cbn [tasks]. apply list_lookup_insert_eq.
    rewrite length_app. cbn. lia. }
  assert (Hc : converting (state s') = true).
  { pose proof (reachable_one_download codec s' Hr') as Hone.
    unfold one_download in Hone.
    pose proof (downloads_in_flight_lookup _ _ _ Ht eq_refl) as Hge.
    destruct (converting (state s')); [reflexivity|lia]. }
  split; [exact Hc|].
  unfold step, handle. rewrite Hc.
  apply render_settled, (reachable_settled codec), Hr'.
Qed.

End HungDownload.

Lemma undecodable_download_blocks_button_witness :
  let s' :=
    run sampleCodec
        [Submit; ImageSettled 1%nat; FileChange (Some photo);
         FormatChange "webp"]
        notesChosen in
  reachable sampleCodec notesChosen /\
  selectedFile (state notesChosen) = Some notes /\
  converting (state notesChosen) = false /\
  decode sampleCodec notes = None /\
  converting (state s') = true /\
  step sampleCodec s' Submit = s'.
Proof.
  cbn zeta.
  assert (Hr : reachable sampleCodec notesChosen)
    by (constructor; constructor).
  split; [exact Hr|].
  split; [vm_compute; reflexivity|].
  split; [vm_compute; reflexivity|].
  split; [reflexivity|].
  apply (undecodable_download_blocks_button sampleCodec notesChosen notes
           [FileChange (Some photo); FormatChange "webp"] Hr);
    vm_compute; reflexivity.
Defined.

(** ** The preview regenerates itself *)

Section Regeneration.
Variable codec : Codec.

(** X8: when a preview is published, the effect runs again, since the URL on
    display is one of its dependencies: the conversion that came back is
    finished, and a new one is started, for the chosen file with the format
    and the quality of the page. *)
Theorem published_preview_starts_another (s : Session) (i : nat) (t : Task)
    (canvas : Raster) (blob : Blob) (file : File) :
  reachable codec s ->
  tasks s !! i = Some t ->
  caller t = LivePreview ->
  stage t = AwaitBlob canvas ->
  encode codec canvas ("image/" +:+ conv_format (conv t))
         (inject_Z (conv_quality (conv t)) / 100)%Q = Some blob ->
  selectedFile (state s) = Some file ->
  supportsQuality (state s) = true ->
  let s' := step codec s (BlobCallback i) in
  tasks s'
  = (<[i := set_stage Finished t]> (tasks s)
     ++ [ {| caller := LivePreview;
             conv := {| objectUrl := S (next_url (browser s));
                        conv_file := file;
                        conv_format := format (state s);
                        conv_quality := quality (state s) |};
             stage := AwaitLoad |} ])%list.
Proof.
  intros Hr Ht Hc Hst Henc Hfile Hsup s'.
  pose proof (reachable_settled codec s Hr) as Hs.
  destruct (reachable_minted codec s Hr) as [Hl _].
  subst s'. unfold step, handle, blobCallback, convertImage_finish.
  rewrite Ht, Hst, Henc, Hc. cbn [resume updateLivePreview_resume].
  cbn [createObjectURL revokeObjectURL emit with_browser with_tasks with_state
       browser state tasks effects next_url trace].
  set (u := next_url (browser s)) in *.
  match goal with |- context [render ?x] => set (s1 := x) end.
  assert (Hq : bool_decide
                 (quality_deps (effects s1) = Some (qualityDeps (state s1)))
               = true).
  { apply bool_decide_eq_true_2. exact (proj2 Hs). }
  assert (Hp : bool_decide
                 (preview_deps (effects s1) = Some (previewDeps (state s1)))
               = false).
  { apply bool_decide_eq_false_2. intros E.
    change (preview_deps (effects s1)) with (preview_deps (effects s)) in E.
    rewrite (proj1 Hs) in E.
    apply (f_equal (fun o => match o with
                             | Some d => snd d
                             | None => None
                             end)) in E.
    cbv beta iota delta [previewDeps snd] in E.
    change (livePreviewUrl (state s1)) with (Some u) in E.
    specialize (Hl u E). lia. }
  unfold render. cbn [commit].
  assert (Hstate : state (run_effects s1) = state s1).
  { rewrite run_effects_state, Hq. unfold effects_state, has_file.
    replace (selectedFile (state s1)) with (Some file)
      by (symmetry; exact Hfile).
    replace (supportsQuality (state s1)) with true
      by (symmetry; exact Hsup).
    cbn. rewrite andb_false_r. reflexivity. }
  rewrite (bool_decide_eq_true_2 _ Hstate).
  rewrite run_effects_tasks, Hp. unfold updateLivePreview.
  replace (selectedFile (state s1)) with (Some file)
    by (symmetry; exact Hfile).
  replace (supportsQuality (state s1)) with true
    by (symmetry; exact Hsup).
  change (livePreviewUrl (state s1)) with (Some u).
  destruct (preview_cleanup (effects s1)); reflexivity.
Qed.

End Regeneration.

Lemma published_preview_starts_another_witness :
  let t := {| caller := LivePreview;
              conv := {| objectUrl := 3%nat; conv_file := photo;
                         conv_format := "jpeg"; conv_quality := 70 |};
              stage := AwaitBlob {| width := 2; height := 2;
                                    pixels := [10; 20; 30; 40] |} |} in
  let s' := step sampleCodec photoEncodingAgain (BlobCallback 1%nat) in
  reachable sampleCodec photoEncodingAgain /\
  tasks photoEncodingAgain !! 1%nat = Some t /\
  selectedFile (state photoEncodingAgain) = Some photo /\
  supportsQuality (state photoEncodingAgain) = true /\
  tasks s'
  = (<[1%nat := set_stage Finished t]> (tasks photoEncodingAgain)
     ++ [ {| caller := LivePreview;
             conv := {| objectUrl := 5%nat; conv_file := photo;
                        conv_format := "jpeg"; conv_quality := 70 |};
             stage := AwaitLoad |} ])%list.
Proof.
  cbn zeta.
  assert (Hr : reachable sampleCodec photoEncodingAgain).
  { apply run_reachable, run_reachable. constructor. }
  split; [exact Hr|].
  split; [vm_compute; reflexivity|].
  split; [vm_compute; reflexivity|].
  split; [vm_compute; reflexivity|].
  apply (published_preview_starts_another sampleCodec photoEncodingAgain
           1%nat
           {| caller := LivePreview;
              conv := {| objectUrl := 3%nat; conv_file := photo;
                         conv_format := "jpeg"; conv_quality := 70 |};
              stage := AwaitBlob {| width := 2; height := 2;
                                    pixels := [10; 20; 30; 40] |} |}
           {| width := 2; height := 2; pixels := [10; 20; 30; 40] |}
           {| blob_type := "image/jpeg"; blob_bytes := [70; 10; 20; 30; 40] |}
           photo Hr);
    vm_compute; reflexivity.
Defined.

(** ** Formats without quality *)

Lemma effects_state_fields (r1 r2 : bool) (st : State) :
  selectedFile (effects_state r1 r2 st) = selectedFile st /\
  supportsQuality (effects_state r1 r2 st) = supportsQuality st /\
  previewUrl (effects_state r1 r2 st) = previewUrl st /\
  livePreviewUrl (effects_state r1 r2 st)
  = if r1 && negb (has_file st && supportsQuality st)
    then previewUrl st else livePreviewUrl st.
Proof.
  unfold effects_state.
  destruct (r1 && negb (has_file st && supportsQuality st));
    destruct st as [[f|] p c fmt q a l e]; cbn [selectedFile];
    try destruct (r2 && _); repeat split; reflexivity.
Qed.

Lemma effects_state_shows_run (r : bool) (st : State) :
  shows_original (effects_state true r st).
Proof.
  destruct (effects_state_fields true r st) as (Hf & Hs & Hp & Hl).
  unfold shows_original, has_file. rewrite Hf, Hs, Hp, Hl.
  fold (has_file st). intros ->. reflexivity.
Qed.

Lemma effects_state_shows_keep (r : bool) (st : State) :
  shows_original st -> shows_original (effects_state false r st).
Proof.
  destruct (effects_state_fields false r st) as (Hf & Hs & Hp & Hl).
  unfold shows_original, has_file. rewrite Hf, Hs, Hp, Hl. auto.
Qed.

Lemma run_effects_shows (s : Session) :
  shows_original_pending s -> shows_original_pending (run_effects s).
Proof.
  intros H _. rewrite run_effects_state.
  destruct (bool_decide (preview_deps (effects s) = _)) eqn:Hp; cbn [negb].
  - apply effects_state_shows_keep, H. exact (bool_decide_eq_true_1 _ Hp).
  - apply effects_state_shows_run.
Qed.

Lemma shows_original_deps (st st' : State) :
  previewDeps st = previewDeps st' -> shows_original st -> shows_original st'.
Proof.
  unfold previewDeps, shows_original, has_file. intros E H.
  injection E as Hf _ _ Hs Hp Hl. rewrite <- Hf, <- Hs, <- Hp, <- Hl. exact H.
Qed.

Section Original.
Variable codec : Codec.

Lemma reachable_shows_original (s : Session) :
  reachable codec s -> shows_original (state s).
Proof.
  induction 1 as [|s a Hr IH].
  - intros _. reflexivity.
  - apply (commit_invariant shows_original_pending run_effects_shows 4
             (handle codec a s)); [|apply render_settles].
    intros Hd. destruct (handle_grows codec a s) as [_ He].
    rewrite He, (proj1 (reachable_settled codec s Hr)) in Hd.
    apply (shows_original_deps (state s)); [congruence|exact IH].
Qed.

(** X9: without a file, or with a format that has no quality, the live preview
    is the preview of the file itself, in every state the page can reach. *)
Theorem preview_is_original_without_quality (s : Session) :
  reachable codec s ->
  selectedFile (state s) = None \/ supportsQuality (state s) = false ->
  livePreviewUrl (state s) = previewUrl (state s).
Proof.
  intros Hr Hcase. apply (reachable_shows_original s Hr). unfold has_file.
  destruct Hcase as [-> | ->]; [reflexivity|apply andb_false_r].
Qed.

End Original.

Lemma preview_is_original_without_quality_witness :
  reachable sampleCodec photoAsPng /\
  supportsQuality (state photoAsPng) = false /\
  livePreviewUrl (state photoAsPng) = previewUrl (state photoAsPng).
Proof.
  assert (Hr : reachable sampleCodec photoAsPng)
    by (apply run_reachable; constructor).
  split; [exact Hr|].
  split; [vm_compute; reflexivity|].
  apply (preview_is_original_without_quality sampleCodec photoAsPng Hr).
  right. vm_compute. reflexivity.
Defined.

Lemma commit_grows (fuel : nat) (s : Session) :
  grows (browser s) (browser (commit fuel s)).
Proof.
  revert s. induction fuel as [|fuel IH]; intros s; cbn; [apply grows_refl|].
  case_bool_decide; [apply run_effects_grows|].
  eapply grows_trans; [apply run_effects_grows|apply IH].
Qed.

Lemma commit_S (fuel : nat) (s : Session) :
  commit (S fuel) s
  = if bool_decide (state (run_effects s) = state s)
    then run_effects s else commit fuel (run_effects s).
Proof. reflexivity. Qed.

Lemma run_effects_previewing (file : File) (p : URL) (s : Session) :
  previewing file p s -> previewing file p (run_effects s).
Proof.
  intros (Hf & Hs & Hp & Hl). unfold previewing.
  rewrite run_effects_state.
  destruct (effects_state_fields
              (negb (bool_decide (preview_deps (effects s)
                                  = Some (previewDeps (state s)))))
              (negb (bool_decide (quality_deps (effects s)
                                  = Some (qualityDeps (state s)))))
              (state s)) as (-> & -> & -> & ->).
  unfold has_file. rewrite Hf, Hs. cbn. rewrite andb_false_r. auto.
Qed.

Section BackToQuality.
Variable codec : Codec.

(** X10: going from a format without quality to jpeg or webp revokes the URL
    of the chosen file, which stays the preview of the file and the image on
    display. *)
Theorem quality_format_revokes_original (s : Session) (file : File)
    (p : URL) (fmt : string) :
  reachable codec s ->
  selectedFile (state s) = Some file ->
  supportsQuality (state s) = false ->
  previewUrl (state s) = Some p ->
  fmt ∈ ["jpeg"; "webp"] ->
  let s' := step codec s (FormatChange fmt) in
  previewUrl (state s') = Some p /\
  displayedUrl (state s') = Some p /\
  (1 <= release_count p (browser s'))%nat.
Proof.
  intros Hr Hfile Hsup Hp Hfmt s'.
  pose proof (reachable_settled codec s Hr) as Hs.
  assert (Hl : livePreviewUrl (state s) = Some p).
  { rewrite <- Hp. apply (reachable_shows_original codec s Hr).
    unfold has_file. rewrite Hsup. apply andb_false_r. }
  subst s'. unfold step, handle.
  set (s1 := with_state (setFormat fmt) s).
  assert (Hsup1 : supportsQuality (state s1) = true).
  { apply bool_decide_eq_true_2. exact Hfmt. }
  assert (Hprev : previewing file p s1) by (repeat split; assumption).
  assert (Hp1 : preview_deps (effects s1) <> Some (previewDeps (state s1))).
  { change (preview_deps (effects s1)) with (preview_deps (effects s)).
    rewrite (proj1 Hs). intros E.
    apply (f_equal (fun o => match o with
                             | Some d => snd (fst (fst d))
                             | None => true
                             end)) in E.
    cbv beta iota delta [previewDeps snd fst] in E. congruence. }
  assert (Hrel : (1 <= release_count p (browser (run_effects s1)))%nat).
  { destruct (run_effects_preview s1) as [(Hd & _)|(_ & _ & _ & ->)];
      [contradiction|].
    unfold updateLivePreview.
    destruct Hprev as (-> & -> & _ & ->).
    unfold release_count. cbn. rewrite Nat.eqb_refl. cbn. lia. }
  assert (Hfin : previewing file p (render s1)).
  { apply (commit_invariant (previewing file p)
             (run_effects_previewing file p)), Hprev. }
  destruct Hfin as (Hf' & Hs' & Hp' & Hl').
  split; [exact Hp'|]. split.
  { unfold displayedUrl. rewrite Hp', Hs', Hl'. reflexivity. }
  unfold render. rewrite commit_S.
  case_bool_decide; [exact Hrel|].
  pose proof (grows_release_count p _ _ (commit_grows 3 (run_effects s1))).
  lia.
Qed.

End BackToQuality.

Lemma quality_format_revokes_original_witness :
  let s' := step sampleCodec photoAsPng (FormatChange "webp") in
  reachable sampleCodec photoAsPng /\
  selectedFile (state photoAsPng) = Some photo /\
  supportsQuality (state photoAsPng) = false /\
  previewUrl (state photoAsPng) = Some 0%nat /\
  previewUrl (state s') = Some 0%nat /\
  displayedUrl (state s') = Some 0%nat /\
  (1 <= release_count 0%nat (browser s'))%nat.
Proof.
  cbn zeta.
  assert (Hr : reachable sampleCodec photoAsPng)
    by (apply run_reachable; constructor).
  split; [exact Hr|].
  split; [vm_compute; reflexivity|].
  split; [vm_compute; reflexivity|].
  split; [vm_compute; reflexivity|].
  apply (quality_format_revokes_original sampleCodec photoAsPng photo 0%nat
           "webp" Hr); try (vm_compute; reflexivity).
  apply (bool_decide_unpack _). vm_compute. exact I.
Defined.

(** ** The URL of a chosen file *)

Lemma existsb_revoke_cons (u v : URL) (t : list Event) :
  v <> u ->
  existsb (is_revoke u) (RevokeObjectURL v :: t) = existsb (is_revoke u) t.
Proof.
  intros H. cbn -[Nat.eqb].
  rewrite (proj2 (Nat.eqb_neq v u)) by exact H. reflexivity.
Qed.

Lemma existsb_revoke_if (u : URL) (v : option URL) (b : Browser) :
  v <> Some u ->
  existsb (is_revoke u) (trace (revoke_if v b))
  = existsb (is_revoke u) (trace b).
Proof.
  intros H. destruct v as [v|]; [|reflexivity].
  apply existsb_revoke_cons. congruence.
Qed.

Ltac no_revoke :=
  cbn [existsb is_revoke orb];
  rewrite ?(proj2 (Nat.eqb_neq _ _)) by (assumption || lia);
  cbn [orb]; assumption.

Lemma run_effects_unreferenced (u : URL) (s : Session) :
  unreferenced u s ->
  previewUrl (state s) <> Some u \/
  has_file (state s) && supportsQuality (state s) = true ->
  u <> next_url (browser s) \/
  next_url (browser (run_effects s)) = next_url (browser s) ->
  unreferenced u (run_effects s).
Proof.
  intros (Hrev & Hlive & Hclean & Htasks) Hprev Hnext.
  unfold unreferenced.
  rewrite run_effects_state, run_effects_tasks.
  destruct (effects_state_fields
              (negb (bool_decide
                 (preview_deps (effects s) = Some (previewDeps (state s)))))
              (negb (bool_decide
                 (quality_deps (effects s) = Some (qualityDeps (state s)))))
              (state s)) as (_ & _ & _ & ->).
  destruct (run_effects_preview s) as [(Hd & _ & Hc & Hb)|(Hd & _ & Hc & Hb)].
  - rewrite Hb, Hc, (bool_decide_eq_true_2 _ Hd). cbn [negb andb].
    repeat split; assumption.
  - rewrite Hb in Hnext |- *. rewrite Hc, (bool_decide_eq_false_2 _ Hd).
    cbn [negb andb]. clear Hb Hc.
    unfold updateLivePreview, has_file in *.
    destruct (selectedFile (state s)) as [file|];
      [destruct (supportsQuality (state s))|]; cbn -[Nat.eqb existsb] in *.
    + rewrite !next_url_revoke_if in *.
      split; [|split; [exact Hlive|split; [exact Hlive|]]].
      * cbn -[Nat.eqb]. rewrite !existsb_revoke_if by assumption. exact Hrev.
      * apply Forall_app. split; [exact Htasks|].
        constructor; [|constructor]. cbn. destruct Hnext as [H|H]; [|lia].
        congruence.
    + destruct Hprev as [Hprev|Hprev]; [|discriminate].
      split; [rewrite existsb_revoke_if by assumption; exact Hrev|].
      repeat split; assumption.
    + destruct Hprev as [Hprev|Hprev]; [|discriminate].
      split; [rewrite existsb_revoke_if by assumption; exact Hrev|].
      repeat split; assumption.
Qed.

Lemma run_effects_fields (s : Session) :
  selectedFile (state (run_effects s)) = selectedFile (state s) /\
  supportsQuality (state (run_effects s)) = supportsQuality (state s) /\
  previewUrl (state (run_effects s)) = previewUrl (state s).
Proof.
  rewrite run_effects_state.
  destruct (effects_state_fields
              (negb (bool_decide
                 (preview_deps (effects s) = Some (previewDeps (state s)))))
              (negb (bool_decide
                 (quality_deps (effects s) = Some (qualityDeps (state s)))))
              (state s)) as (H1 & H2 & H3 & _).
  auto.
Qed.

Lemma run_effects_kept (p : URL) (s : Session) :
  kept p s -> kept p (run_effects s).
Proof.
  intros (Hp & Hu & Hq).
  pose proof (run_effects_grows s) as [Hn _].
  destruct (run_effects_fields s) as (Hf & Hs & _).
  split; [lia|]. split.
  - apply run_effects_unreferenced; [exact Hu|right; exact Hq|left; lia].
  - unfold has_file in *. rewrite Hf, Hs. exact Hq.
Qed.

Lemma run_effects_unminted (s : Session) :
  unminted_unused s /\ urls_minted s ->
  unminted_unused (run_effects s) /\ urls_minted (run_effects s).
Proof.
  intros [Hf Hm]. split; [|apply run_effects_minted, Hm].
  pose proof (run_effects_grows s) as [Hn _].
  intros u Hu. apply run_effects_unreferenced.
  - apply Hf. lia.
  - left. intros E. apply (proj2 Hm) in E. lia.
  - destruct (decide (next_url (browser (run_effects s))
                      = next_url (browser s))) as [E|E]; [right; exact E|].
    left. lia.
Qed.

Section Leak.
Variable codec : Codec.

Lemma handle_unreferenced (a : Action) (s : Session) (u : URL) :
  unreferenced u s ->
  (u < next_url (browser s))%nat \/
  (next_url (browser (handle codec a s)) <= u)%nat ->
  unreferenced u (handle codec a s).
Proof.
  intros (Hrev & Hlive & Hclean & Htasks) Hnext. unfold unreferenced.
  destruct a; cbn [handle] in *.
  - unfold handleFileChange.
    destruct files as [file|]; [|repeat split; assumption].
    destruct (maxSize <? file_size file); [repeat split; assumption|].
    destruct (autoQuality (state s)); repeat split; assumption.
  - repeat split; assumption.
  - destruct (supportsQuality (state s)); repeat split; assumption.
  - destruct (supportsQuality (state s)); repeat split; assumption.
  - destruct (converting (state s)); [repeat split; assumption|].
    unfold handleConvert in *.
    destruct (selectedFile (state s)); [|repeat split; assumption].
    cbn in *. repeat split; try assumption.
    apply Forall_app. split; [exact Htasks|].
    constructor; [|constructor]. cbn. lia.
  - unfold imageSettled in *.
    destruct (tasks s !! i) as [t|] eqn:Ht; [|repeat split; assumption].
    destruct (stage t); try (repeat split; assumption).
    pose proof (Forall_lookup_1 _ _ _ _ Htasks Ht) as Hobj.
    unfold convertImage_load in *.
    destruct (decode codec _); cbn in *; repeat split; try assumption;
      apply Forall_insert; assumption.
  - unfold blobCallback in *.
    destruct (tasks s !! i) as [t|] eqn:Ht; [|repeat split; assumption].
    destruct (stage t); try (repeat split; assumption).
    pose proof (Forall_lookup_1 _ _ _ _ Htasks Ht) as Hobj. cbn in Hobj.
    assert (Hins : Forall (fun t => objectUrl (conv t) <> u)
                     (<[i := set_stage Finished t]> (tasks s)))
      by (apply Forall_insert; assumption).
    unfold convertImage_finish in *.
    destruct (caller t), (encode codec _ _ _);
      cbn -[Nat.eqb existsb] in *;
      repeat split; try assumption; try no_revoke;
      intros E; injection E as E; lia.
Qed.

Lemma handle_fields (a : Action) (s : Session) :
  keeps_quality a ->
  has_file (state s) && supportsQuality (state s) = true ->
  has_file (state (handle codec a s))
  && supportsQuality (state (handle codec a s)) = true.
Proof.
  intros Ha H. destruct a; cbn [handle keeps_quality] in *.
  - unfold handleFileChange. destruct files as [file|]; [|exact H].
    destruct (maxSize <? file_size file); [exact H|].
    apply andb_prop in H as [_ H].
    destruct (autoQuality (state s)); exact H.
  - apply andb_prop in H as [H _]. apply andb_true_intro.
    split; [exact H|]. apply bool_decide_eq_true_2, Ha.
  - destruct (supportsQuality (state s)) eqn:E;
      [|rewrite andb_false_r in H; discriminate H].
    apply andb_prop in H as [H _]. apply andb_true_intro.
    split; [exact H|exact E].
  - destruct (supportsQuality (state s)) eqn:E;
      [|rewrite andb_false_r in H; discriminate H].
    apply andb_prop in H as [H _]. apply andb_true_intro.
    split; [exact H|exact E].
  - destruct (converting (state s)); [exact H|].
    unfold handleConvert, has_file in *.
    destruct (selectedFile (state s)) eqn:E; [|discriminate H].
    cbn. rewrite E. exact H.
  - unfold imageSettled. destruct (tasks s !! i) as [t|]; [|exact H].
    destruct (stage t); try exact H.
    unfold convertImage_load. destruct (decode codec _); exact H.
  - unfold blobCallback. destruct (tasks s !! i) as [t|]; [|exact H].
    destruct (stage t); try exact H.
    unfold convertImage_finish.
    destruct (caller t), (encode codec _ _ _); exact H.
Qed.

Lemma handle_kept (a : Action) (s : Session) (p : URL) :
  keeps_quality a -> kept p s -> kept p (handle codec a s).
Proof.
  intros Ha (Hp & Hu & Hq).
  destruct (handle_grows codec a s) as [[Hn _] _].
  split; [lia|]. split.
  - apply handle_unreferenced; [exact Hu|left; exact Hp].
  - apply handle_fields; assumption.
Qed.

Lemma step_kept (a : Action) (s : Session) (p : URL) :
  keeps_quality a -> kept p s -> kept p (step codec s a).
Proof.
  intros Ha H.
  apply (commit_invariant (kept p) (run_effects_kept p)), handle_kept;
    assumption.
Qed.

Lemma reachable_unminted (s : Session) :
  reachable codec s -> unminted_unused s.
Proof.
  intros Hr.
  cut (unminted_unused s /\ urls_minted s); [intros [H _]; exact H|].
  induction Hr as [|s a Hr [Hf Hm]].
  - split; [|apply mounted_minted].
    intros u _. repeat split; try discriminate. constructor.
  - apply (commit_invariant (fun s => unminted_unused s /\ urls_minted s)
             run_effects_unminted).
    split; [|apply handle_minted, Hm].
    intros u Hu. destruct (handle_grows codec a s) as [[Hn _] _].
    apply handle_unreferenced; [apply Hf; lia|right; exact Hu].
Qed.

(** X11: while the format is jpeg or webp, the URL made for a chosen file is
    never revoked: not while the file is shown, and not after another file has
    taken its place. *)
Theorem chosen_file_url_is_never_revoked (s : Session) (file : File)
    (actions : list Action) :
  reachable codec s ->
  supportsQuality (state s) = true ->
  file_size file <= maxSize ->
  Forall keeps_quality actions ->
  let p := next_url (browser s) in
  let s1 := step codec s (FileChange (Some file)) in
  previewUrl (state s1) = Some p /\
  release_count p (browser (run codec actions s1)) = O.
Proof.
  intros Hr Hsup Hsize Hact p s1.
  assert (Hh : kept p (handle codec (FileChange (Some file)) s)
               /\ previewUrl (state (handle codec (FileChange (Some file)) s))
                  = Some p).
  { destruct (reachable_unminted s Hr p) as (H1 & H2 & H3 & H4);
      [subst p; lia|].
    cbn [handle]. unfold handleFileChange.
    rewrite (proj2 (Z.ltb_ge _ _) Hsize).
    unfold kept, unreferenced.
    destruct (autoQuality (state s)); cbn;
      (split; [|reflexivity]); (split; [subst p; lia|]);
      (split; [repeat split; assumption|exact Hsup]). }
  destruct Hh as [Hk Hprev].
  split.
  - subst s1. unfold step.
    apply (commit_invariant (fun s => previewUrl (state s) = Some p));
      [|exact Hprev].
    intros s0 H0. destruct (run_effects_fields s0) as (_ & _ & ->). exact H0.
  - assert (Hk1 : kept p s1)
      by (apply (commit_invariant (kept p) (run_effects_kept p)), Hk).
    clearbody s1. clear Hk Hprev.
    revert s1 Hk1. induction Hact as [|a actions Ha _ IH]; intros s1 Hk1.
    + destruct Hk1 as (_ & (Hrev & _) & _). cbn [run fold_left].
      unfold release_count.
      induction (trace (browser s1)) as [|e t IHt]; [reflexivity|].
      cbn in Hrev |- *. apply orb_false_elim in Hrev as [He Ht].
      rewrite He. apply IHt, Ht.
    + cbn [run fold_left]. apply IH, step_kept; assumption.
Qed.

End Leak.

Lemma chosen_file_url_is_never_revoked_witness :
  let actions :=
    [FileChange (Some photo); ImageSettled 3%nat; BlobCallback 3%nat;
     FormatChange "webp"; Submit] in
  let s1 := step sampleCodec photoShown (FileChange (Some poster)) in
  reachable sampleCodec photoShown /\
  supportsQuality (state photoShown) = true /\
  file_size poster <= maxSize /\
  Forall keeps_quality actions /\
  previewUrl (state s1) = Some 4%nat /\
  release_count 4%nat (browser (run sampleCodec actions s1)) = O.
Proof.
  cbn zeta.
  assert (Hr : reachable sampleCodec photoShown)
    by (apply run_reachable; constructor).
  assert (Ha : Forall keeps_quality
                 [FileChange (Some photo); ImageSettled 3%nat;
                  BlobCallback 3%nat; FormatChange "webp"; Submit])
    by (repeat constructor).
  split; [exact Hr|].
  split; [vm_compute; reflexivity|].
  split; [vm_compute; discriminate|].
  split; [exact Ha|].
  apply (chosen_file_url_is_never_revoked sampleCodec photoShown poster
           [FileChange (Some photo); ImageSettled 3%nat; BlobCallback 3%nat;
            FormatChange "webp"; Submit] Hr);
    [vm_compute; reflexivity|vm_compute; discriminate|exact Ha].
Defined.

(** ** The cache *)

Section Cached.
Variable codec : Codec.

(** X21: the revision with a cache always settles.  A blob it resolves with is
    in the cache under the key of the request afterwards; a rejection leaves
    the cache as it was. *)
Theorem cached_convertImage_settles (file : File) (format : string)
    (quality : Z) (blobCache : gmap string Blob) (b : Browser) :
  let run := CachedRevision.convertImage codec file format quality
               (blobCache, b) in
  match fst run with
  | Resolved blob =>
      fst (snd run) !! CachedRevision.cacheKey file format quality = Some blob
  | Rejected _ => fst (snd run) = blobCache
  | Pending => False
  end.
Proof.
  cbn zeta. rewrite cached_convertImage_unfold. cbn zeta.
  destruct (blobCache !! _) eqn:Hhit; [exact Hhit|].
  destruct (decode codec file) as [bitmap|]; [|reflexivity].
  destruct (encode codec _ _ _); [|reflexivity].
  cbn. apply lookup_insert_eq.
Qed.

Lemma cached_convertImage_sound (file : File) (format : string)
    (quality : Z) (st : gmap string Blob * Browser) :
  cache_sound codec (fst st) ->
  cache_sound codec
    (fst (snd (CachedRevision.convertImage codec file format quality st))).
Proof.
  intros Hs. destruct st as [blobCache b].
  rewrite cached_convertImage_unfold. cbn zeta.
  destruct (blobCache !! _) eqn:Hhit; [exact Hs|].
  destruct (decode codec file) as [bitmap|] eqn:Hdec; [|exact Hs].
  destruct (encode codec _ _ _) as [blob|] eqn:Henc; [|exact Hs].
  cbn. intros key blob' Hk.
  destruct (decide (CachedRevision.cacheKey file format quality = key))
    as [<-|Hne].
  - rewrite lookup_insert_eq in Hk. injection Hk as <-.
    exists file, format, quality, bitmap. destruct bitmap.
    repeat split; assumption.
  - rewrite lookup_insert_ne in Hk by exact Hne. exact (Hs key blob' Hk).
Qed.

(** X22: starting from an empty cache, whatever is converted: every blob in
    the cache is what the encoder made of a file that decodes, stored under
    the key of that file's name, the format and the quality. *)
Theorem cache_holds_codec_output (requests : list (File * string * Z))
    (b : Browser) :
  cache_sound codec (fst (cached_runs codec requests (∅, b))).
Proof.
  assert (H0 : cache_sound codec (fst ((∅ : gmap string Blob), b))).
  { intros key blob H. cbn in H. rewrite lookup_empty in H. discriminate H. }
  revert H0. generalize ((∅ : gmap string Blob), b).
  induction requests as [|[[file format] quality] requests IH];
    intros st Hst; [exact Hst|].
  cbn. apply IH, cached_convertImage_sound, Hst.
Qed.

End Cached.

Lemma cached_convertImage_repeat_witness :
  let blob := {| blob_type := "image/jpeg";
                 blob_bytes := [70; 10; 20; 30; 40] |} in
  CachedRevision.convertImage sampleCodec photo "jpeg" 70 (∅, freshBrowser)
  = (Resolved blob, photoCached) /\
  file_name retake = file_name photo /\
  CachedRevision.convertImage sampleCodec retake "jpeg" 70 photoCached
  = (Resolved blob, photoCached).
Proof.
  cbn zeta.
  assert (H : CachedRevision.convertImage sampleCodec photo "jpeg" 70
                (∅, freshBrowser)
              = (Resolved {| blob_type := "image/jpeg";
                             blob_bytes := [70; 10; 20; 30; 40] |},
                 photoCached))
    by (vm_compute; reflexivity).
  split; [exact H|].
  split; [reflexivity|].
  apply (cached_convertImage_repeat sampleCodec photo retake "jpeg" 70
           (∅, freshBrowser) photoCached _ H).
  reflexivity.
Defined.

Section Interleaved.

Import CachedRevision.

Variable codec : Codec.

Lemma step_keeps_entry (r : Runtime) (a : Action) (key : string)
    (blob : Blob) :
  blobCache r !! key = Some blob ->
  blobCache (step codec r a) !! key = Some blob \/
  exists i t blob',
    a = BlobCallback i /\ tasks r !! i = Some t /\ task_key t = key /\
    blobCache (step codec r a) !! key = Some blob'.
Proof.
  intros Hk. destruct a as [file format quality|i|i]; cbn [step].
  - left. unfold convertImage_start.
    destruct (blobCache r !! cacheKey file format quality); exact Hk.
  - left. destruct (tasks r !! i) as [t|]; [|exact Hk].
    destruct (stage t); try exact Hk.
    unfold convertImage_bitmap. destruct (decode codec _); exact Hk.
  - destruct (tasks r !! i) as [t|] eqn:Ht; [|left; exact Hk].
    destruct (stage t); try (left; exact Hk).
    unfold convertImage_finish.
    destruct (encode codec _ _ _) as [blob'|]; [|left; exact Hk].
    cbn [blobCache].
    destruct (decide (task_key t = key)) as [E|E].
    + right. exists i, t, blob'. repeat split; try assumption.
      unfold task_key in E. rewrite E. apply lookup_insert_eq.
    + left. rewrite lookup_insert_ne; [exact Hk|exact E].
Qed.

Lemma run_keeps_key (actions : list Action) (r : Runtime) (key : string) :
  is_Some (blobCache r !! key) ->
  is_Some (blobCache (run codec actions r) !! key).
Proof.
  revert r. induction actions as [|a actions IH]; intros r Hk; [exact Hk|].
  cbn [run fold_left]. apply IH. destruct Hk as [blob Hk].
  destruct (step_keeps_entry r a key blob Hk)
    as [H|(i & t & blob' & _ & _ & _ & H)]; rewrite H; eauto.
Qed.

(** X20: however the conversions overlap, a key that is in the cache stays
    in it; and the blob under it stays the same through every step but the
    callback of a conversion for that very key, which stores its own blob
    over it. *)
Theorem cached_entries_are_kept (r : Runtime) (key : string) (blob : Blob) :
  blobCache r !! key = Some blob ->
  (forall actions, is_Some (blobCache (run codec actions r) !! key)) /\
  (forall a,
     blobCache (step codec r a) !! key = Some blob \/
     exists i t, a = BlobCallback i /\ tasks r !! i = Some t /\
                 task_key t = key).
Proof.
  intros Hk. split.
  - intros actions. apply run_keeps_key. eauto.
  - intros a.
    destruct (step_keeps_entry r a key blob Hk)
      as [H|(i & t & blob' & Ha & Ht & Hkey & _)]; [left; exact H|].
    right. eauto.
Qed.

(** X24: whatever else is in flight, when a conversion resolves its blob is
    in the cache under the key of its request, and a request with the same
    file, format and quality made next is settled at once with that blob: it
    waits for nothing, and neither the cache nor the browser is touched. *)
Theorem resolved_conversion_answers_repeat (r : Runtime) (i : nat)
    (t : Task) (canvas : Raster) (blob : Blob) :
  tasks r !! i = Some t ->
  stage t = AwaitBlob canvas ->
  encode codec canvas ("image/" +:+ task_format t)
         (inject_Z (task_quality t) / 100)%Q = Some blob ->
  let r1 := step codec r (BlobCallback i) in
  let r2 :=
    step codec r1 (Request (task_file t) (task_format t) (task_quality t)) in
  blobCache r1 !! task_key t = Some blob /\
  tasks r2
  = (tasks r1
     ++ [ {| task_file := task_file t; task_format := task_format t;
             task_quality := task_quality t;
             stage := Settled (Resolved blob) |} ])%list /\
  blobCache r2 = blobCache r1 /\
  browser r2 = browser r1.
Proof.
  intros Ht Hst Henc r1 r2.
  assert (H1 : blobCache r1 !! task_key t = Some blob).
  { subst r1. cbn [step]. rewrite Ht, Hst. unfold convertImage_finish.
    rewrite Henc. cbn [blobCache]. apply lookup_insert_eq. }
  split; [exact H1|].
  subst r2. cbn [step]. unfold convertImage_start.
  unfold task_key in H1. rewrite H1. repeat split.
Qed.

End Interleaved.

(** Two conversions of files of one name overlap: both miss the cache and
    run the decoder, and the one that calls back later replaces the entry of
    the other. *)
Lemma overlapping_conversions_replace_entry :
  let r := CachedRevision.step sampleCodec overlapping
             (CachedRevision.BlobCallback 1) in
  decodes (CachedRevision.browser overlapping) = 2%nat /\
  CachedRevision.blobCache overlapping !! "photo.png-jpeg-70"
  = Some {| blob_type := "image/jpeg";
            blob_bytes := [70; 10; 20; 30; 40] |} /\
  CachedRevision.blobCache r !! "photo.png-jpeg-70"
  = Some {| blob_type := "image/jpeg"; blob_bytes := [70; 99] |}.
Proof. vm_compute. repeat split; reflexivity. Qed.

Lemma cached_entries_are_kept_witness :
  let blob := {| blob_type := "image/jpeg";
                 blob_bytes := [70; 10; 20; 30; 40] |} in
  CachedRevision.blobCache overlapping !! "photo.png-jpeg-70" = Some blob /\
  (forall actions,
     is_Some (CachedRevision.blobCache
                (CachedRevision.run sampleCodec actions overlapping)
              !! "photo.png-jpeg-70")) /\
  (forall a,
     CachedRevision.blobCache (CachedRevision.step sampleCodec overlapping a)
     !! "photo.png-jpeg-70" = Some blob \/
     exists i t, a = CachedRevision.BlobCallback i /\
                 CachedRevision.tasks overlapping !! i = Some t /\
                 CachedRevision.task_key t = "photo.png-jpeg-70").
Proof.
  cbn zeta.
  assert (H : CachedRevision.blobCache overlapping !! "photo.png-jpeg-70"
              = Some {| blob_type := "image/jpeg";
                        blob_bytes := [70; 10; 20; 30; 40] |})
    by (vm_compute; reflexivity).
  split; [exact H|].
  apply (cached_entries_are_kept sampleCodec overlapping
           "photo.png-jpeg-70" _ H).
Defined.

Lemma resolved_conversion_answers_repeat_witness :
  let t := {| CachedRevision.task_file := photo;
              CachedRevision.task_format := "jpeg";
              CachedRevision.task_quality := 70;
              CachedRevision.stage :=
                CachedRevision.AwaitBlob
                  {| width := 2; height := 2;
                     pixels := [10; 20; 30; 40] |} |} in
  let blob := {| blob_type := "image/jpeg";
                 blob_bytes := [70; 10; 20; 30; 40] |} in
  let r1 := CachedRevision.step sampleCodec photoDecoded
              (CachedRevision.BlobCallback 0) in
  let r2 := CachedRevision.step sampleCodec r1
              (CachedRevision.Request photo "jpeg" 70) in
  CachedRevision.tasks photoDecoded !! 0%nat = Some t /\
  CachedRevision.blobCache r1 !! "photo.png-jpeg-70" = Some blob /\
  CachedRevision.tasks r2
  = (CachedRevision.tasks r1
     ++ [ CachedRevision.set_stage
            (CachedRevision.Settled (Resolved blob)) t ])%list /\
  CachedRevision.blobCache r2 = CachedRevision.blobCache r1 /\
  CachedRevision.browser r2 = CachedRevision.browser r1.
Proof.
  cbn zeta.
  split; [vm_compute; reflexivity|].
  apply (resolved_conversion_answers_repeat sampleCodec photoDecoded 0%nat
           {| CachedRevision.task_file := photo;
              CachedRevision.task_format := "jpeg";
              CachedRevision.task_quality := 70;
              CachedRevision.stage :=
                CachedRevision.AwaitBlob
                  {| width := 2; height := 2;
                     pixels := [10; 20; 30; 40] |} |}
           {| width := 2; height := 2; pixels := [10; 20; 30; 40] |}
           {| blob_type := "image/jpeg";
              blob_bytes := [70; 10; 20; 30; 40] |});
    vm_compute; reflexivity.
Defined.

(** ** The latest page *)

Section LatestPage.

Import Latest.

Lemma latest_render_settled (p : Page) :
  quality_deps (render p)
  = Some (qualityDeps (render p)).
Proof.
  unfold render. case_bool_decide as H; [exact H|].
  cbn. unfold qualityDeps. cbn.
  destruct (file (imageState p));
    try destruct (_ && _); reflexivity.
Qed.

Lemma latest_handle_deps (a : Action) (p : Page) :
  quality_deps (handle a p) = quality_deps p.
Proof.
  destruct a; cbn; unfold handleFileDrop;
    repeat match goal with
           | |- context [if ?c then _ else _] => destruct c
           end; reflexivity.
Qed.

Lemma latest_handle_fixed (a : Action) (p : Page) :
  fixed_quality p -> fixed_quality (handle a p).
Proof.
  unfold fixed_quality. intros Hfix. destruct a; cbn.
  - unfold handleFileDrop.
    destruct (maxSize <? file_size f); cbn; [exact Hfix|].
    destruct (autoQuality (settings p) && supports (format (settings p)))
      eqn:Hc; cbn; [|exact Hfix].
    apply andb_prop in Hc as [_ Hc]. congruence.
  - destruct (file (imageState p));
      [destruct (autoQuality (settings p) && supports fmt) eqn:Hc|];
      cbn; intros Hs; rewrite ?Hs; try reflexivity.
    apply andb_prop in Hc as [_ Hc]. congruence.
  - destruct (supports (format (settings p))) eqn:Hs; cbn;
      [congruence|intros _; exact (Hfix eq_refl)].
  - destruct (supports (format (settings p))) eqn:Hs; cbn;
      [congruence|intros _; exact (Hfix eq_refl)].
  - exact Hfix.
  - exact Hfix.
Qed.

Lemma latest_handle_percent (a : Action) (p : Page) :
  slider_value a -> percent_quality p -> percent_quality (handle a p).
Proof.
  unfold percent_quality. intros Ha Hpct. destruct a; cbn in *.
  - unfold handleFileDrop.
    destruct (maxSize <? file_size f); cbn; [exact Hpct|].
    destruct (_ && _); cbn; [exact (getAutoQuality_percent _ _)|exact Hpct].
  - destruct (file (imageState p));
      try destruct (_ && _); cbn;
      try exact (getAutoQuality_percent _ _);
      destruct (negb _); lia.
  - destruct (supports _); cbn; [exact Ha|exact Hpct].
  - destruct (supports _); cbn; exact Hpct.
  - exact Hpct.
  - exact Hpct.
Qed.

Lemma latest_handle_auto (a : Action) (p : Page) :
  auto_quality p ->
  qualityDeps (handle a p) = qualityDeps p ->
  auto_quality (handle a p).
Proof.
  unfold auto_quality, qualityDeps. intros Hauto Hsame f0.
  destruct a; cbn in *.
  - unfold handleFileDrop in *.
    destruct (maxSize <? file_size f); cbn in *; [exact (Hauto f0)|].
    destruct (autoQuality (settings p) && supports (format (settings p)))
      eqn:Hc; cbn; intros Ha0 Hf0 Hs0; [congruence|].
    rewrite Ha0, Hs0 in Hc. discriminate Hc.
  - destruct (file (imageState p)) as [f1|]; [|discriminate].
    destruct (autoQuality (settings p) && supports fmt) eqn:Hc; cbn;
      intros Ha0 Hf0 Hs0; [congruence|].
    rewrite Ha0, Hs0 in Hc. discriminate Hc.
  - destruct (supports (format (settings p))) eqn:Hs; cbn in *;
      [discriminate|].
    intros _ _ Hs0. congruence.
  - destruct (supports (format (settings p))) eqn:Hs; cbn in *;
      [|intros _ _ Hs0; congruence].
    intros Ha0 Hf0 Hs0. apply Hauto; congruence.
  - exact (Hauto f0).
  - exact (Hauto f0).
Qed.

Lemma latest_render_fixed (p : Page) :
  fixed_quality p -> fixed_quality (render p).
Proof.
  unfold fixed_quality, render. intros Hfix.
  case_bool_decide; [exact Hfix|]. cbn.
  destruct (file (imageState p)); [|exact Hfix].
  destruct (supports (format (settings p))) eqn:Hs;
    rewrite ?andb_false_r; [|rewrite Hs; intros _; exact (Hfix eq_refl)].
  destruct (autoQuality (settings p)); cbn; rewrite Hs; discriminate.
Qed.

Lemma latest_render_percent (p : Page) :
  percent_quality p -> percent_quality (render p).
Proof.
  unfold percent_quality, render. intros Hpct.
  case_bool_decide; [exact Hpct|]. cbn.
  destruct (file (imageState p)); [|exact Hpct].
  destruct (_ && _); cbn; [exact (getAutoQuality_percent _ _)|exact Hpct].
Qed.

Lemma latest_render_auto (p : Page) :
  (quality_deps p = Some (qualityDeps p) -> auto_quality p) ->
  auto_quality (render p).
Proof.
  unfold auto_quality, render. intros Hauto.
  case_bool_decide as Hd; [exact (Hauto Hd)|]. cbn.
  intros f0 Ha0 Hf0 Hs0. rewrite Hf0 in *.
  destruct (autoQuality (settings p)) eqn:Hauto0;
    destruct (supports (format (settings p))) eqn:Hsup0;
    cbn in *; congruence.
Qed.

Lemma latest_step_ok (p : Page) (a : Action) :
  slider_value a -> settings_ok p -> settings_ok (step p a).
Proof.
  intros Ha [Hd Hfix Hauto Hpct]. unfold step. constructor.
  - apply latest_render_settled.
  - apply latest_render_fixed, latest_handle_fixed, Hfix.
  - apply latest_render_auto. intros Hsame.
    apply latest_handle_auto; [exact Hauto|].
    rewrite latest_handle_deps, Hd in Hsame. congruence.
  - apply latest_render_percent, latest_handle_percent; assumption.
Qed.

Lemma latest_mounted_ok : settings_ok mounted.
Proof.
  constructor.
  - apply latest_render_settled.
  - intros H. vm_compute in H. discriminate H.
  - intros f _ H. vm_compute in H. discriminate H.
  - vm_compute. split; discriminate.
Qed.

(** X23: whatever the user does on the latest page and whenever conversions
    come back: a format without quality has quality 100; while [autoQuality]
    is on, a file is chosen and the format has a quality, the quality is the
    estimate for that file and format; and the quality is between 1 and
    100. *)
Theorem latest_settings_invariant (actions : list Action) :
  Forall slider_value actions ->
  let p := run actions mounted in
  (supports (format (settings p)) = false -> quality (settings p) = 100) /\
  (forall f, autoQuality (settings p) = true ->
             file (imageState p) = Some f ->
             supports (format (settings p)) = true ->
             quality (settings p) = getAutoQuality f (format (settings p))) /\
  1 <= quality (settings p) <= 100.
Proof.
  intros Hok. cbn zeta.
  assert (H : settings_ok (run actions mounted)).
  { generalize latest_mounted_ok. generalize mounted.
    induction Hok as [|a actions Ha _ IH]; intros p Hp; [exact Hp|].
    cbn. apply IH, latest_step_ok; assumption. }
  destruct H as [_ H1 H2 H3]. auto.
Qed.

End LatestPage.

Lemma latest_settings_invariant_witness :
  let actions :=
    [Latest.FileDrop photo; Latest.FormatChange "png";
     Latest.QualityChange 40; Latest.FormatChange "webp";
     Latest.PreviewReady 1%nat; Latest.QualityChange 30] in
  let p := Latest.run actions Latest.mounted in
  Forall Latest.slider_value actions /\
  (Latest.supports (Latest.format (Latest.settings p)) = false ->
   Latest.quality (Latest.settings p) = 100) /\
  (forall f,
     Latest.autoQuality (Latest.settings p) = true ->
     Latest.file (Latest.imageState p) = Some f ->
     Latest.supports (Latest.format (Latest.settings p)) = true ->
     Latest.quality (Latest.settings p)
     = getAutoQuality f (Latest.format (Latest.settings p))) /\
  1 <= Latest.quality (Latest.settings p) <= 100.
Proof.
  cbn zeta.
  assert (Ha : Forall Latest.slider_value
                 [Latest.FileDrop photo; Latest.FormatChange "png";
                  Latest.QualityChange 40; Latest.FormatChange "webp";
                  Latest.PreviewReady 1%nat; Latest.QualityChange 30])
    by (repeat constructor; cbn; lia).
  split; [exact Ha|].
  apply (latest_settings_invariant
           [Latest.FileDrop photo; Latest.FormatChange "png";
            Latest.QualityChange 40; Latest.FormatChange "webp";
            Latest.PreviewReady 1%nat; Latest.QualityChange 30]
           Ha).
Defined.

(** ** Class names *)

Section ClassNamesFacts.

Import ClassNames.

Context {ClassValue : Type} `{EqDecision ClassValue}.
Variable merge : list ClassValue -> string.

Lemma every_same_eq (inputs last : list ClassValue) :
  Nat.eqb (length inputs) (length last) && every_same inputs last
  = bool_decide (inputs = last).
Proof.
  revert last. induction inputs as [|x inputs IH]; intros [|y last]; cbn;
    try reflexivity.
  rewrite andb_assoc, (andb_comm _ (bool_decide (x = y))), <- andb_assoc, IH.
  destruct (decide (x = y)) as [->|Hxy], (decide (inputs = last)) as [->|Hl].
  - rewrite !bool_decide_eq_true_2 by reflexivity. reflexivity.
  - rewrite bool_decide_eq_true_2 by reflexivity.
    rewrite !bool_decide_eq_false_2 by congruence. reflexivity.
  - rewrite !(bool_decide_eq_false_2 (_ = y)) by congruence.
    cbn. symmetry. apply bool_decide_eq_false_2. congruence.
  - rewrite !(bool_decide_eq_false_2 (_ = y)) by congruence.
    cbn. symmetry. apply bool_decide_eq_false_2. congruence.
Qed.

Lemma cn_sound (inputs : list ClassValue) (m : Memo) :
  memo_sound merge m -> memo_sound merge (snd (cn merge inputs m)).
Proof.
  intros Hm last. unfold cn.
  destruct (lastInputs m) as [l|] eqn:Hl.
  - destruct (_ && _); cbn; [exact (Hm last)|].
    intros E. injection E as <-. reflexivity.
  - cbn. intros E. injection E as <-. reflexivity.
Qed.

Lemma calls_sound (series : list (list ClassValue)) (m : Memo) :
  memo_sound merge m -> memo_sound merge (calls merge series m).
Proof.
  revert m. induction series as [|inputs series IH]; intros m Hm; [exact Hm|].
  cbn. apply IH, cn_sound, Hm.
Qed.

Lemma cn_cases (inputs : list ClassValue) (m : Memo) :
  cn merge inputs m
  = if bool_decide (lastInputs m = Some inputs)
    then (lastResult m, m)
    else (Some (merge inputs),
          {| lastInputs := Some inputs; lastResult := Some (merge inputs);
             merges := S (merges m) |}).
Proof.
  unfold cn. destruct (lastInputs m) as [l|].
  - rewrite every_same_eq.
    destruct (decide (inputs = l)) as [->|Hne].
    + rewrite !bool_decide_eq_true_2 by reflexivity. reflexivity.
    + rewrite !bool_decide_eq_false_2 by congruence. reflexivity.
  - rewrite bool_decide_eq_false_2 by discriminate. reflexivity.
Qed.

(** X17: whatever was asked before, [cn] answers what [twMerge(clsx(inputs))]
    answers, and never [null]. *)
Theorem cn_is_merge (series : list (list ClassValue))
    (inputs : list ClassValue) :
  fst (cn merge inputs (calls merge series initialMemo)) = Some (merge inputs).
Proof.
  assert (Hm : memo_sound merge (calls merge series initialMemo)).
  { apply calls_sound. intros last H. discriminate H. }
  rewrite cn_cases. case_bool_decide as E; [|reflexivity].
  cbn. apply Hm, E.
Qed.

(** X18: [twMerge] runs exactly when the inputs differ from those of the call
    before; asking the same again changes nothing. *)
Theorem cn_merges_on_change (inputs : list ClassValue) (m : Memo) :
  let m' := snd (cn merge inputs m) in
  merges m' = (if bool_decide (lastInputs m = Some inputs)
               then merges m else S (merges m)) /\
  lastInputs m' = Some inputs /\
  cn merge inputs m' = (fst (cn merge inputs m), m').
Proof.
  cbn zeta. rewrite (cn_cases inputs m).
  case_bool_decide as E; cbn [fst snd].
  - split; [reflexivity|]. split; [exact E|].
    rewrite cn_cases, bool_decide_eq_true_2 by exact E. reflexivity.
  - split; [reflexivity|]. split; [reflexivity|].
    rewrite cn_cases. cbn. rewrite bool_decide_eq_true_2 by reflexivity.
    reflexivity.
Qed.

End ClassNamesFacts.
